(** * My_Languga_app: the AI gateway (routes/ai.ts) and the provider adapter
      (services/aiService.ts)

    A shallow embedding of the Express handlers [generate-text] and
    [translate-word] and of the class [AIService], followed by the properties
    of the specification that concern them.

    Modelling conventions.
    - A JavaScript string is a [string] holding its UTF-8 bytes.  [trim]
      strips every character that [String.prototype.trim] strips (the
      twenty-five white-space and line-terminator characters of the
      language).  [toLowerCase] maps the letters A-Z and the two other
      characters whose lower case contains an ASCII letter (U+212A, U+0130);
      the lower-cased string is only ever searched for ASCII patterns, and
      no other character can take part in such a match.  [toUpperCase]
      maps a-z: it is applied to the provider tag in the [catch] clause of
      [generateText], which is reached for the tags 'openai', 'claude' and
      'gemini' only.
    - An optional field ([model?: string], a missing JSON key) is an
      [option string]; [undefined] is [None].
    - The vendor SDKs and [axios] are the outside world: a [World] gives, for
      each outbound call, the [outcome] (a value or a thrown JavaScript
      value) the request gets, and each call is recorded in a trace of
      [Event]s, as is each call of the adapter's [generateText].
    - A handler is a computation in a small state-and-exception monad [M]
      over that trace; [try { ... } catch (e) { ... }] is [try_catch]. *)

From Stdlib Require Import Bool Ascii String List ZArith Lia DecimalString.
Import ListNotations.
Open Scope string_scope.

Set Implicit Arguments.

(* ================================================================= *)
(** ** JavaScript strings *)

Module Js.

(** Characters that cannot be typed inside a literal here. *)
Definition dquote : string := String "034"%char EmptyString.
Definition nl : string := String "010"%char EmptyString.

(** [!!s] for a value of type [string | undefined]. *)
Definition truthy (v : option string) : bool :=
  match v with
  | Some EmptyString => false
  | Some _ => true
  | None => false
  end.

(** [a || b] where [a : string | undefined] and [b : string]. *)
Definition or_else (a : option string) (b : string) : string :=
  match a with
  | Some EmptyString => b
  | Some s => s
  | None => b
  end.

(** [a || b] where both sides may be [undefined]. *)
Definition or_opt (a b : option string) : option string :=
  if truthy a then a else b.

(** The string held by a value that a preceding truthiness test has shown
    to be defined. *)
Definition value (v : option string) : string :=
  match v with
  | Some s => s
  | None => EmptyString
  end.

(** [`${v}`] for a value of type [string | undefined]. *)
Definition interp (v : option string) : string :=
  match v with
  | Some s => s
  | None => "undefined"
  end.

Definition is_upper (c : ascii) : bool :=
  let n := nat_of_ascii c in (65 <=? n)%nat && (n <=? 90)%nat.

Definition is_lower (c : ascii) : bool :=
  let n := nat_of_ascii c in (97 <=? n)%nat && (n <=? 122)%nat.

Definition lower_char (c : ascii) : ascii :=
  if is_upper c then ascii_of_nat (nat_of_ascii c + 32) else c.

Definition upper_char (c : ascii) : ascii :=
  if is_lower c then ascii_of_nat (nat_of_ascii c - 32) else c.

Fixpoint map_chars (f : ascii -> ascii) (s : string) : string :=
  match s with
  | EmptyString => EmptyString
  | String c t => String (f c) (map_chars f t)
  end.

(** Lower case of the letters A-Z, every other byte unchanged. *)
Definition lower_ascii : string -> string := map_chars lower_char.

(** [s.toUpperCase()] of a string of ASCII characters, such as the
    provider tags it is applied to. *)
Definition toUpperCase : string -> string := map_chars upper_char.

(** [s.startsWith(p)] *)
Fixpoint startsWith (s p : string) : bool :=
  match p, s with
  | EmptyString, _ => true
  | String a p', String b s' => Ascii.eqb a b && startsWith s' p'
  | String _ _, EmptyString => false
  end.

(** [s.includes(needle)] *)
Fixpoint includes (s needle : string) : bool :=
  if startsWith s needle then true
  else match s with
       | EmptyString => false
       | String _ t => includes t needle
       end.

(** The string of the given bytes. *)
Definition bytes (l : list nat) : string :=
  fold_right (fun n acc => String (ascii_of_nat n) acc) EmptyString l.

(** A byte of the ASCII range, that is, a character encoded by itself. *)
Definition is_ascii (c : ascii) : bool := (nat_of_ascii c <? 128)%nat.

Fixpoint all_ascii (s : string) : bool :=
  match s with
  | EmptyString => true
  | String c t => is_ascii c && all_ascii t
  end.

Fixpoint no_ascii (s : string) : bool :=
  match s with
  | EmptyString => true
  | String c t => negb (is_ascii c) && no_ascii t
  end.

(** [s] is empty or starts with an ASCII character. *)
Definition ascii_start (s : string) : bool :=
  match s with
  | EmptyString => true
  | String c _ => is_ascii c
  end.

(** The two characters outside ASCII whose lower case contains an ASCII
    letter: U+212A KELVIN SIGN becomes [k], and U+0130 LATIN CAPITAL LETTER I
    WITH DOT ABOVE becomes [i] followed by U+0307 COMBINING DOT ABOVE. *)
Definition kelvin_sign : string := bytes [226; 132; 170].
Definition capital_I_with_dot : string := bytes [196; 176].
Definition combining_dot_above : string := bytes [204; 135].

(** [lower_from skip s]: the lower case of [s] after its first [skip]
    bytes, which belong to a character already dealt with. *)
Fixpoint lower_from (skip : nat) (s : string) : string :=
  match s with
  | EmptyString => EmptyString
  | String c t =>
      match skip with
      | S k => lower_from k t
      | O =>
          if startsWith s kelvin_sign
          then String "k" (lower_from 2 t)
          else if startsWith s capital_I_with_dot
          then String "i" (combining_dot_above ++ lower_from 1 t)
          else String (lower_char c) (lower_from 0 t)
      end
  end.

(** [s.toLowerCase()], exact wherever the result has an ASCII character:
    A-Z and the two characters above are mapped; every other character
    outside ASCII is left as it is (its lower case is outside ASCII too). *)
Definition toLowerCase (s : string) : string := lower_from 0 s.

(** The characters [String.prototype.trim] strips (WhiteSpace and
    LineTerminator of the language), in UTF-8: U+0009 to U+000D, U+0020,
    U+00A0, U+1680, U+2000 to U+200A, U+2028, U+2029, U+202F, U+205F,
    U+3000, U+FEFF. *)
Definition whitespace : list string :=
  map bytes
      [ [9]; [10]; [11]; [12]; [13]; [32];
        [194; 160];
        [225; 154; 128];
        [226; 128; 128]; [226; 128; 129]; [226; 128; 130]; [226; 128; 131];
        [226; 128; 132]; [226; 128; 133]; [226; 128; 134]; [226; 128; 135];
        [226; 128; 136]; [226; 128; 137]; [226; 128; 138];
        [226; 128; 168]; [226; 128; 169];
        [226; 128; 175];
        [226; 129; 159];
        [227; 128; 128];
        [239; 187; 191] ].

(** [strip_prefix p s]: what follows [p] in [s], when [s] starts with [p]. *)
Fixpoint strip_prefix (p s : string) : option string :=
  match p with
  | EmptyString => Some s
  | String a p' =>
      match s with
      | String b s' => if Ascii.eqb a b then strip_prefix p' s' else None
      | EmptyString => None
      end
  end.

Fixpoint strip_any (ps : list string) (s : string) : option string :=
  match ps with
  | [] => None
  | p :: ps' =>
      match strip_prefix p s with
      | Some t => Some t
      | None => strip_any ps' s
      end
  end.

(** What follows the first character of [s], when that is a white-space
    character. *)
Definition strip_space (s : string) : option string := strip_any whitespace s.

(** Strips white-space characters from the start, at most [n] of them. *)
Fixpoint trimStart_upto (n : nat) (s : string) : string :=
  match n with
  | O => s
  | S n' =>
      match strip_space s with
      | Some t => trimStart_upto n' t
      | None => s
      end
  end.

(** [s.trimStart()]; a string has no more characters than bytes. *)
Definition trimStart (s : string) : string :=
  trimStart_upto (String.length s) s.

(** [s.trimEnd()]: a byte is dropped when it and all that follows it is
    white space. *)
Fixpoint trimEnd (s : string) : string :=
  match s with
  | EmptyString => EmptyString
  | String c t =>
      match trimStart s with
      | EmptyString => EmptyString
      | String _ _ => String c (trimEnd t)
      end
  end.

(** [s.trim()] *)
Definition trim (s : string) : string := trimEnd (trimStart s).

(** [s.endsWith(p)] *)
Fixpoint endsWith (s p : string) : bool :=
  if String.eqb s p then true
  else match s with
       | EmptyString => false
       | String _ t => endsWith t p
       end.

(** The specification's word "contains": [needle] occurs in [s]. *)
Definition contains (s needle : string) : Prop :=
  exists pre post, s = pre ++ needle ++ post.

(** "contains, up to the case of the letters A-Z": some substring of [s]
    equals [needle] once its letters A-Z are lower-cased. *)
Definition contains_ci (s needle : string) : Prop :=
  exists pre mid post, s = pre ++ mid ++ post /\ lower_ascii mid = needle.

(** "contains, case-insensitively", as the code decides it: the lower case
    of [s] contains [needle]. *)
Definition lower_contains (s needle : string) : Prop :=
  contains (toLowerCase s) needle.

End Js.

(* ================================================================= *)
(** ** Thrown values, outcomes and the trace monad *)

(** What a [catch] clause can receive: an [Error] instance (an SDK error
    carries an HTTP [status]; an axios error carries
    [response.data.error.message]), some other object, or [null]/[undefined].
    [error instanceof Error] holds of [ErrorObject] only. *)
Inductive Thrown : Type :=
| ErrorObject (message : string) (status : option Z)
              (response_message : option string)
| OtherObject (message : option string) (status : option Z)
              (response_message : option string)
| Nullish.

(** [error?.status] *)
Definition status_of (e : Thrown) : option Z :=
  match e with
  | ErrorObject _ st _ | OtherObject _ st _ => st
  | Nullish => None
  end.

(** [error?.message] *)
Definition message_of (e : Thrown) : option string :=
  match e with
  | ErrorObject m _ _ => Some m
  | OtherObject m _ _ => m
  | Nullish => None
  end.

(** [error.response?.data?.error?.message], for a non-nullish [error]. *)
Definition response_message_of (e : Thrown) : option string :=
  match e with
  | ErrorObject _ _ r | OtherObject _ _ r => r
  | Nullish => None
  end.

(** The engine's [TypeError] for a property read on [undefined]. *)
Definition TypeError_reading (prop : string) : Thrown :=
  ErrorObject ("Cannot read properties of undefined (reading '" ++ prop ++ "')")
              None None.

Inductive outcome (A : Type) : Type :=
| Ret (a : A)
| Throw (e : Thrown).
Arguments Ret {A} a.
Arguments Throw {A} e.

(** The value assigned to a system or user prompt slot.  The persona lookup
    of [getSystemPrompt] reads a property of an object literal, so besides a
    string it can yield a member inherited from [Object.prototype]. *)
Inductive JsValue : Type :=
| VString (s : string)
| VInherited (name : string)
| VUndefined.

(* ----------------------------------------------------------------- *)
(** *** services/aiService.ts: interfaces *)

Record AIServiceConfig : Type := mkConfig {
  cfg_provider : string;
  cfg_apiKey : string;
  cfg_model : option string
}.

Record TextGenerationParams : Type := mkParams {
  p_level : string;
  p_prompt : string;
  p_maxTokens : option Z
}.

Record AIServiceResponse : Type := mkServiceResponse {
  sr_success : bool;
  sr_text : option string;
  sr_error : option string
}.

(* ----------------------------------------------------------------- *)
(** *** Vendor request and response shapes *)

Record ChatMessage : Type := mkChatMessage {
  role : string;
  content : JsValue
}.

(** Body of [openai.chat.completions.create]; [temperature] is the constant
    0.7, kept in tenths. *)
Record ChatRequest : Type := mkChatRequest {
  chat_model : string;
  chat_messages : list ChatMessage;
  chat_max_tokens : Z;
  chat_temperature_tenths : Z
}.

Record CompletionMessage : Type := mkCompletionMessage {
  completion_content : option string
}.

Record Choice : Type := mkChoice {
  choice_message : option CompletionMessage
}.

Record ChatCompletion : Type := mkChatCompletion {
  choices : list Choice
}.

(** Body of [anthropic.messages.create]. *)
Record MessagesRequest : Type := mkMessagesRequest {
  msg_model : string;
  msg_max_tokens : Z;
  msg_system : JsValue;
  msg_messages : list ChatMessage
}.

(** The SDK's [ContentBlock] union. *)
Inductive ContentBlock : Type :=
| TextBlock (text : string)
| ToolUseBlock (id name : string).

Definition block_type (b : ContentBlock) : string :=
  match b with
  | TextBlock _ => "text"
  | ToolUseBlock _ _ => "tool_use"
  end.

Record AnthropicMessage : Type := mkAnthropicMessage {
  message_content : list ContentBlock
}.

(** [await result.response] of the Gemini SDK; [response_text] is what the
    SDK's helper [response.text()] does. *)
Record GenerateContentResult : Type := mkGenerateContentResult {
  response_text : outcome string
}.

(** The body posted by the gateway's own Gemini call:
    [{ contents: [{ parts: [{ text: prompt }] }] }]; the [generationConfig]
    block is commented out in the source, so the body has no other key. *)
Record Part : Type := mkPart { part_text : option string }.
Record Content : Type := mkContent { parts : option (list Part) }.
Record GeminiRequestBody : Type := mkGeminiRequestBody {
  contents : list Content
}.

(** [response.data] of that call. *)
Record Candidate : Type := mkCandidate { candidate_content : option Content }.
Record GeminiResponseData : Type := mkGeminiResponseData {
  candidates : option (list Candidate)
}.

(** The outside world: what each outbound call answers, and how the engine
    prints an inherited [Object.prototype] member inside a template string. *)
Record World : Type := mkWorld {
  openai_chat_completions_create : string -> ChatRequest -> outcome ChatCompletion;
  anthropic_messages_create : string -> MessagesRequest -> outcome AnthropicMessage;
  gemini_generateContent : string -> string -> string -> outcome GenerateContentResult;
  axios_post : string -> GeminiRequestBody -> outcome GeminiResponseData;
  native_source : string -> string
}.

(** Observable interactions, oldest first. *)
Inductive Event : Type :=
| EvAdapter (cfg : AIServiceConfig) (params : TextGenerationParams)
| EvOpenAI (apiKey : string) (req : ChatRequest)
| EvAnthropic (apiKey : string) (req : MessagesRequest)
| EvGemini (apiKey model prompt : string)
| EvAxiosPost (url : string) (body : GeminiRequestBody).

(** A call to a vendor over the network (as opposed to a call of the
    adapter's own method). *)
Definition is_network_call (ev : Event) : bool :=
  match ev with
  | EvAdapter _ _ => false
  | _ => true
  end.

Definition M (A : Type) : Type := list Event -> outcome A * list Event.

Definition ret {A} (a : A) : M A := fun tr => (Ret a, tr).

Definition throw {A} (e : Thrown) : M A := fun tr => (Throw e, tr).

Definition bind {A B} (m : M A) (k : A -> M B) : M B :=
  fun tr =>
    match m tr with
    | (Ret a, tr') => k a tr'
    | (Throw e, tr') => (Throw e, tr')
    end.

(** [try { body } catch (e) { handler e }] *)
Definition try_catch {A} (body : M A) (handler : Thrown -> M A) : M A :=
  fun tr =>
    match body tr with
    | (Ret a, tr') => (Ret a, tr')
    | (Throw e, tr') => handler e tr'
    end.

(** A call that touches nothing outside: it returns or throws. *)
Definition of_outcome {A} (o : outcome A) : M A := fun tr => (o, tr).

Definition emit (ev : Event) : M unit := fun tr => (Ret tt, (tr ++ [ev])%list).

(** An outbound call: record it, then continue with the world's answer. *)
Definition perform {A} (ev : Event) (answer : outcome A) : M A :=
  fun tr => (answer, (tr ++ [ev])%list).

Notation "x <- m ;; k" := (bind m (fun x => k))
  (at level 61, m at next level, right associativity).
Notation "m ;;; k" := (bind m (fun _ => k))
  (at level 61, right associativity).

(* ================================================================= *)
(** ** services/aiService.ts: class AIService *)

Module AIService.

(** The object literal [prompts] of [getSystemPrompt]: its own keys. *)
Definition prompts : list (string * string) :=
  [ ("Elementary",
     "You are an English teacher creating simple, engaging content for elementary level students. Use basic vocabulary and simple sentence structures.");
    ("Pre-Intermediate",
     "You are an English teacher creating content for pre-intermediate students. Use moderately complex vocabulary and varied sentence structures.");
    ("Intermediate",
     "You are an English teacher creating content for intermediate level students. Use a good variety of vocabulary and complex sentence structures.");
    ("Upper-Intermediate",
     "You are an English teacher creating advanced content for upper-intermediate students. Use sophisticated vocabulary and complex grammatical structures.");
    ("Advanced",
     "You are an English teacher creating challenging content for advanced students. Use complex vocabulary, idiomatic expressions, and sophisticated grammatical structures.") ].

(** An object literal inherits from [Object.prototype]; these are the
    names a property read finds there (all of them functions, except
    [__proto__], which is the prototype object itself). *)
Definition Object_prototype_keys : list string :=
  [ "constructor"; "hasOwnProperty"; "isPrototypeOf"; "propertyIsEnumerable";
    "toLocaleString"; "toString"; "valueOf"; "__proto__";
    "__defineGetter__"; "__defineSetter__";
    "__lookupGetter__"; "__lookupSetter__" ].

(** [obj[key]] for an object literal with string values: own keys first,
    then the prototype, else [undefined]. *)
Definition get_property (obj : list (string * string)) (key : string)
  : JsValue :=
  match find (fun kv => String.eqb (fst kv) key) obj with
  | Some kv => VString (snd kv)
  | None =>
      if existsb (String.eqb key) Object_prototype_keys
      then VInherited key
      else VUndefined
  end.

(** [!!v] *)
Definition value_truthy (v : JsValue) : bool :=
  match v with
  | VString EmptyString => false
  | VString _ => true
  | VInherited _ => true
  | VUndefined => false
  end.

(** [a || b] *)
Definition value_or (a b : JsValue) : JsValue :=
  if value_truthy a then a else b.

(** [private getSystemPrompt(level: string)]:
    [return prompts[level as keyof typeof prompts] || prompts['Intermediate']] *)
Definition getSystemPrompt (level : string) : JsValue :=
  value_or (get_property prompts level) (get_property prompts "Intermediate").

(** [params.maxTokens || 500] *)
Definition maxTokens_or_500 (maxTokens : option Z) : Z :=
  match maxTokens with
  | Some n => if (n =? 0)%Z then 500%Z else n
  | None => 500%Z
  end.

(** The user message computed by the [catch] clause of [generateText]. *)
Definition userMessage (provider : string) (error : Thrown) : string :=
  match error with
  | ErrorObject message _ _ =>
      let errorMessage := Js.toLowerCase message in
      if Js.includes errorMessage "api key not valid"
         || Js.includes errorMessage "invalid api key"
         || Js.includes errorMessage "api_key_invalid"
         || Js.includes errorMessage "unauthorized"
      then "Invalid " ++ Js.toUpperCase provider
           ++ " API key. Please check your API key and try again."
      else if Js.includes errorMessage "rate limit"
              || Js.includes errorMessage "quota"
              || Js.includes errorMessage "too many requests"
      then Js.toUpperCase provider
           ++ " rate limit exceeded. Please try again in a few minutes."
      else if Js.includes errorMessage "network"
              || Js.includes errorMessage "connection"
              || Js.includes errorMessage "timeout"
      then "Network error connecting to " ++ Js.toUpperCase provider
           ++ ". Please check your internet connection."
      else if Js.includes errorMessage "400"
              || Js.includes errorMessage "bad request"
      then "Invalid request to " ++ Js.toUpperCase provider
           ++ ". Please check your API key configuration."
      else if Js.includes errorMessage "500"
              || Js.includes errorMessage "internal server error"
      then Js.toUpperCase provider
           ++ " service is temporarily unavailable. Please try again later."
      else message
  | _ => "Unknown AI service error"
  end.

Definition failure (error : string) : AIServiceResponse :=
  {| sr_success := false; sr_text := None; sr_error := Some error |}.

Definition generated (text : string) : AIServiceResponse :=
  {| sr_success := true; sr_text := Some text; sr_error := None |}.

Section WithWorld.

Variable w : World.

(** [`${v}`] *)
Definition template_of (v : JsValue) : string :=
  match v with
  | VString s => s
  | VInherited name => native_source w name
  | VUndefined => "undefined"
  end.

(** [private async generateWithOpenAI(params)] *)
Definition generateWithOpenAI (config : AIServiceConfig)
           (params : TextGenerationParams) : M AIServiceResponse :=
  try_catch
    (let systemPrompt := getSystemPrompt (p_level params) in
     let request :=
       {| chat_model := Js.or_else (cfg_model config) "gpt-3.5-turbo";
          chat_messages :=
            [ {| role := "system"; content := systemPrompt |};
              {| role := "user"; content := VString (p_prompt params) |} ];
          chat_max_tokens := maxTokens_or_500 (p_maxTokens params);
          chat_temperature_tenths := 7 |} in
     response <- perform (EvOpenAI (cfg_apiKey config) request)
                   (openai_chat_completions_create w (cfg_apiKey config) request) ;;
     (* response.choices[0]?.message?.content *)
     let text :=
       match choices response with
       | [] => None
       | choice :: _ =>
           match choice_message choice with
           | None => None
           | Some message => completion_content message
           end
       end in
     match text with
     | Some (String _ _ as text) => ret (generated text)
     | _ => ret (failure "No text generated from OpenAI")
     end)
    (fun error =>
       if match status_of error with Some st => (st =? 401)%Z | None => false end
       then ret (failure "Invalid OpenAI API key. Please check your API key at https://platform.openai.com/api-keys")
       else throw error).

(** [private async generateWithClaude(params)] *)
Definition generateWithClaude (config : AIServiceConfig)
           (params : TextGenerationParams) : M AIServiceResponse :=
  try_catch
    (let systemPrompt := getSystemPrompt (p_level params) in
     let request :=
       {| msg_model := Js.or_else (cfg_model config) "claude-3-haiku-20240307";
          msg_max_tokens := maxTokens_or_500 (p_maxTokens params);
          msg_system := systemPrompt;
          msg_messages :=
            [ {| role := "user"; content := VString (p_prompt params) |} ] |} in
     response <- perform (EvAnthropic (cfg_apiKey config) request)
                   (anthropic_messages_create w (cfg_apiKey config) request) ;;
     let textContent :=
       find (fun block => String.eqb (block_type block) "text")
            (message_content response) in
     match textContent with
     | Some (TextBlock text) => ret (generated text)
     | _ => ret (failure "No text generated from Claude")
     end)
    (fun error =>
       if match status_of error with Some st => (st =? 401)%Z | None => false end
       then ret (failure "Invalid Claude API key. Please check your API key at https://console.anthropic.com/")
       else throw error).

(** [private async generateWithGemini(params)] *)
Definition generateWithGemini (config : AIServiceConfig)
           (params : TextGenerationParams) : M AIServiceResponse :=
  try_catch
    (let modelName := Js.or_else (cfg_model config) "gemini-1.5-flash" in
     let systemPrompt := getSystemPrompt (p_level params) in
     let fullPrompt :=
       template_of systemPrompt ++ Js.nl ++ Js.nl ++ p_prompt params in
     result <- perform (EvGemini (cfg_apiKey config) modelName fullPrompt)
                 (gemini_generateContent w (cfg_apiKey config) modelName fullPrompt) ;;
     text <- of_outcome (response_text result) ;;
     match text with
     | EmptyString => ret (failure "No text generated from Gemini")
     | _ => ret (generated text)
     end)
    (fun error =>
       if match status_of error with Some st => (st =? 400)%Z | None => false end
          && match message_of error with
             | Some m => Js.includes m "API key not valid"
             | None => false
             end
       then ret (failure "Invalid Gemini API key. Please get a valid API key from https://makersuite.google.com/app/apikey")
       else throw error).

(** [private async generateWithCohere(params)] *)
Definition generateWithCohere (config : AIServiceConfig)
           (params : TextGenerationParams) : M AIServiceResponse :=
  ret (failure "Cohere integration not yet implemented").

(** [async generateText(params)] *)
Definition generateText (config : AIServiceConfig)
           (params : TextGenerationParams) : M AIServiceResponse :=
  try_catch
    (let provider := cfg_provider config in
     if String.eqb provider "openai" then generateWithOpenAI config params
     else if String.eqb provider "claude" then generateWithClaude config params
     else if String.eqb provider "gemini" then generateWithGemini config params
     else if String.eqb provider "cohere" then generateWithCohere config params
     else ret (failure ("Unsupported AI provider: " ++ provider)))
    (fun error => ret (failure (userMessage (cfg_provider config) error))).

End WithWorld.

End AIService.

(* ================================================================= *)
(** ** routes/ai.ts: the HTTP gateway *)

Module Routes.

Record TextGenerationRequest : Type := mkTextGenerationRequest {
  level : option string;
  apiToken : option string;
  provider : option string;
  model : option string;
  customPrompt : option string
}.

Record AIResponse : Type := mkAIResponse {
  success : bool;
  text : option string;
  message : option string;
  error : option string
}.

Record TranslateWordRequest : Type := mkTranslateWordRequest {
  word : option string;
  targetLanguage : option string;
  languageCode : option string;
  aiToken : option string;
  tw_provider : option string;
  tw_model : option string
}.

Record TranslateResponse : Type := mkTranslateResponse {
  tr_success : bool;
  translation : option string;
  tr_error : option string
}.

(** What [res.status(n).json(body)] sends; [res.json(body)] sends 200. *)
Record HttpResponse (B : Type) : Type := mkHttpResponse {
  status : Z;
  body : B
}.

Definition ai_error (msg : string) : AIResponse :=
  {| success := false; text := None; message := None; error := Some msg |}.

Definition ai_text (t : string) : AIResponse :=
  {| success := true; text := Some t; message := None; error := None |}.

Definition translate_error (msg : string) : TranslateResponse :=
  {| tr_success := false; translation := None; tr_error := Some msg |}.

(** The word-count ternary chain of the prompt template. *)
Definition word_count (level : string) : string :=
  if String.eqb level "Elementary" then "150-200"
  else if String.eqb level "Pre-Intermediate" then "200-250"
  else if String.eqb level "Intermediate" then "250-300"
  else if String.eqb level "Upper-Intermediate" then "300-400"
  else "400-500".

(** The prompt template (used when no custom prompt is given). *)
Definition prompt_template (level : string) : string :=
  "Generate a high-quality, engaging reading comprehension text for "
    ++ level ++ " level English learners." ++ Js.nl
    ++ Js.nl
    ++ "Requirements:" ++ Js.nl
    ++ "- Text should be approximately " ++ word_count level ++ " words." ++ Js.nl
    ++ "- Use appropriate vocabulary and grammar complexity for the specified level." ++ Js.nl
    ++ "- Ensure the text is engaging, educational, coherent, and flows naturally." ++ Js.nl
    ++ Js.nl
    ++ "Level: " ++ level ++ Js.nl
    ++ "Please generate a completely new and unique text now:".

(** The "Prompt Generation Logic" block of the generate-text handler. *)
Definition buildPrompt (level : string) (customPrompt : option string)
  : string :=
  if Js.truthy customPrompt then Js.value customPrompt
  else prompt_template level.

(** [customPrompt ? 200 : (level === 'Advanced' ? 700 : 500)] *)
Definition maxTokens_for (level : string) (customPrompt : option string) : Z :=
  if Js.truthy customPrompt then 200%Z
  else if String.eqb level "Advanced" then 700%Z else 500%Z.

(** [response.data.candidates[0]?.content?.parts[0]?.text]: an index into
    [undefined] throws, an optional chain on [undefined] yields
    [undefined]. *)
Definition gemini_generatedText (data : GeminiResponseData)
  : outcome (option string) :=
  match candidates data with
  | None => Throw (TypeError_reading "0")
  | Some [] => Ret None
  | Some (candidate :: _) =>
      match candidate_content candidate with
      | None => Ret None
      | Some c =>
          match parts c with
          | None => Throw (TypeError_reading "0")
          | Some [] => Ret None
          | Some (part :: _) => Ret (part_text part)
          end
      end
  end.

Definition translationPrompt (word targetLanguage : string) : string :=
  "Translate the English word " ++ Js.dquote ++ word ++ Js.dquote
    ++ " to " ++ targetLanguage ++ ". " ++ Js.nl
    ++ "Provide only the direct translation without any additional text, explanation, or formatting." ++ Js.nl
    ++ "Just the single word translation in " ++ targetLanguage ++ "." ++ Js.nl
    ++ "Word to translate: " ++ word ++ Js.nl
    ++ "Target language: " ++ targetLanguage.

Section Handlers.

Variable w : World.

(** The method [generateText] of the imported class [AIService]. *)
Variable generateText :
  AIServiceConfig -> TextGenerationParams -> M AIServiceResponse.

(** [new AIService(config).generateText(params)], recorded in the trace. *)
Definition aiService_generateText (config : AIServiceConfig)
           (params : TextGenerationParams) : M AIServiceResponse :=
  emit (EvAdapter config params) ;;; generateText config params.

(** [aiRouter.post('/validate-token', ...)] *)
Definition validate_token (apiToken : option string)
  : M (HttpResponse AIResponse) :=
  try_catch
    (if negb (Js.truthy apiToken)
     then ret (mkHttpResponse 400 (ai_error "API token is required"))
     else ret (mkHttpResponse 200
                 {| success := true; text := None;
                    message := Some "Hello! I am your personal English teacher. I am ready to help you learn. Please select your proficiency level to begin.";
                    error := None |}))
    (fun _ => ret (mkHttpResponse 500 (ai_error "Failed to validate token"))).

(** [aiRouter.post('/generate-text', ...)] *)
Definition generate_text (req : TextGenerationRequest)
  : M (HttpResponse AIResponse) :=
  try_catch
    (if negb (Js.truthy (level req)) || negb (Js.truthy (apiToken req))
        || negb (Js.truthy (provider req)) || negb (Js.truthy (model req))
     then ret (mkHttpResponse 400
                 (ai_error "Level, API token, provider, and model are required"))
     else
       let level := Js.value (level req) in
       let apiToken := Js.value (apiToken req) in
       let provider := Js.value (provider req) in
       let model := Js.value (model req) in
       let customPrompt := customPrompt req in
       let prompt := buildPrompt level customPrompt in
       if String.eqb provider "gemini" then
         try_catch
           (let geminiUrl :=
              "https://generativelanguage.googleapis.com/v1/models/"
                ++ model ++ ":generateContent?key=" ++ apiToken in
            let requestBody :=
              {| contents :=
                   [ {| parts := Some [ {| part_text := Some prompt |} ] |} ] |} in
            data <- perform (EvAxiosPost geminiUrl requestBody)
                      (axios_post w geminiUrl requestBody) ;;
            generatedText <- of_outcome (gemini_generatedText data) ;;
            if Js.truthy generatedText
            then ret (mkHttpResponse 200 (ai_text (Js.value generatedText)))
            else throw (ErrorObject "No text found in Gemini API response."
                                    None None))
           (fun error =>
              match error with
              | Nullish => throw (TypeError_reading "response")
              | _ =>
                  let errorMessage :=
                    Js.or_opt (response_message_of error) (message_of error) in
                  ret (mkHttpResponse 500
                         (ai_error ("AI text generation failed: "
                                      ++ Js.interp errorMessage
                                      ++ ". Please check your AI configuration and try again.")))
              end)
       else
         try_catch
           (aiResponse <-
              aiService_generateText
                {| cfg_provider := provider; cfg_apiKey := apiToken;
                   cfg_model := Some model |}
                {| p_level := level; p_prompt := prompt;
                   p_maxTokens := Some (maxTokens_for level customPrompt) |} ;;
            if sr_success aiResponse && Js.truthy (sr_text aiResponse)
            then ret (mkHttpResponse 200
                        (ai_text (Js.value (sr_text aiResponse))))
            else ret (mkHttpResponse 400
                        (ai_error ("AI text generation failed: "
                                     ++ Js.or_else (sr_error aiResponse) "Unknown error"
                                     ++ "."))))
           (fun aiError =>
              match aiError with
              | Nullish => throw (TypeError_reading "message")
              | _ =>
                  ret (mkHttpResponse 500
                         (ai_error ("AI service error: "
                                      ++ Js.or_else (message_of aiError) "Unknown error"
                                      ++ ".")))
              end))
    (fun _ =>
       ret (mkHttpResponse 500
              (ai_error "An unexpected error occurred on the server."))).

(** [aiRouter.post('/translate-word', ...)] *)
Definition translate_word (req : TranslateWordRequest)
  : M (HttpResponse TranslateResponse) :=
  try_catch
    (if negb (Js.truthy (word req)) || negb (Js.truthy (targetLanguage req))
        || negb (Js.truthy (languageCode req))
     then ret (mkHttpResponse 400
                 (translate_error "Word, target language, and language code are required"))
     else if negb (Js.truthy (aiToken req)) || negb (Js.truthy (tw_provider req))
     then ret (mkHttpResponse 200
                 (translate_error "AI token and provider are required for translation"))
     else
       let word := Js.value (word req) in
       let targetLanguage := Js.value (targetLanguage req) in
       try_catch
         (aiResponse <-
            aiService_generateText
              {| cfg_provider := Js.value (tw_provider req);
                 cfg_apiKey := Js.value (aiToken req);
                 cfg_model := tw_model req |}
              {| p_level := "Elementary";
                 p_prompt := translationPrompt word targetLanguage;
                 p_maxTokens := Some 50%Z |} ;;
          if sr_success aiResponse && Js.truthy (sr_text aiResponse)
          then
            let translation := Js.trim (Js.value (sr_text aiResponse)) in
            ret (mkHttpResponse 200
                   {| tr_success := true; translation := Some translation;
                      tr_error := None |})
          else
            ret (mkHttpResponse 200
                   (translate_error ("Unable to translate " ++ Js.dquote ++ word
                                       ++ Js.dquote ++ ". "
                                       ++ Js.interp (sr_error aiResponse)))))
         (fun aiError =>
            ret (mkHttpResponse 200
                   (translate_error
                      ("Translation error: "
                         ++ match aiError with
                            | ErrorObject message _ _ => message
                            | _ => "Unknown error"
                            end)))))
    (fun _ =>
       ret (mkHttpResponse 500 (translate_error "Failed to translate word"))).

End Handlers.

(** The router as deployed: the handlers over the real adapter. *)
Definition app_generate_text (w : World) :=
  generate_text w (AIService.generateText w).

Definition app_translate_word (w : World) :=
  translate_word (AIService.generateText w).

End Routes.

(* ================================================================= *)
(** ** Concrete worlds and requests *)

Module Samples.
Import Routes.

(** A world that gives the same answer to every call of each client. *)
Definition mock_world (openai : outcome ChatCompletion)
           (claude : outcome AnthropicMessage)
           (gemini : outcome GenerateContentResult)
           (http : outcome GeminiResponseData) : World :=
  {| openai_chat_completions_create := fun _ _ => openai;
     anthropic_messages_create := fun _ _ => claude;
     gemini_generateContent := fun _ _ _ => gemini;
     axios_post := fun _ _ => http;
     native_source :=
       fun name =>
         if String.eqb name "__proto__" then "[object Object]"
         else if String.eqb name "constructor"
         then "function Object() { [native code] }"
         else "function " ++ name ++ "() { [native code] }" |}.

(** "Hola" after a no-break space (U+00A0) and a space, and before an
    ideographic space (U+3000) and a line feed. *)
Definition padded_hola : string :=
  Js.bytes [194; 160] ++ " Hola" ++ Js.bytes [227; 128; 128] ++ Js.nl.

Definition chat_reply (text : string) : outcome ChatCompletion :=
  Ret {| choices :=
           [ {| choice_message := Some {| completion_content := Some text |} |} ] |}.

Definition claude_reply (text : string) : outcome AnthropicMessage :=
  Ret {| message_content := [ TextBlock text ] |}.

Definition gemini_reply (text : string) : outcome GenerateContentResult :=
  Ret {| response_text := Ret text |}.

Definition http_reply (text : string) : outcome GeminiResponseData :=
  Ret {| candidates :=
           Some [ {| candidate_content :=
                       Some {| parts := Some [ {| part_text := Some text |} ] |} |} ] |}.

(** Every vendor answers with the passage of the specification's example. *)
Definition happy_world : World :=
  mock_world (chat_reply "The cat sat.") (claude_reply "The cat sat.")
             (gemini_reply "The cat sat.") (http_reply "The cat sat.").

(** Every vendor answers with a well-formed response that has no text. *)
Definition textless_world : World :=
  mock_world (Ret {| choices := [] |})
             (Ret {| message_content := [ ToolUseBlock "toolu_1" "lookup" ] |})
             (gemini_reply EmptyString)
             (Ret {| candidates := Some [] |}).

(** Every vendor call fails with the given error. *)
Definition failing_world (e : Thrown) : World :=
  mock_world (Throw e) (Throw e) (Throw e) (Throw e).

(** Every vendor answers with text that is only white space (OpenAI) or
    empty (Claude). *)
Definition blank_world : World :=
  mock_world (chat_reply "  ") (claude_reply EmptyString)
             (gemini_reply "  ") (http_reply "  ").

Definition generation_request (level provider : string)
           (customPrompt : option string) : TextGenerationRequest :=
  {| level := Some level; apiToken := Some "sk-x"; provider := Some provider;
     model := Some "some-model"; customPrompt := customPrompt |}.

Definition translation_request (aiToken provider : option string)
  : TranslateWordRequest :=
  {| word := Some "hello"; targetLanguage := Some "Spanish";
     languageCode := Some "es"; aiToken := aiToken; tw_provider := provider;
     tw_model := None |}.

(** An adapter that throws, whatever it is asked. *)
Definition throwing_adapter (e : Thrown)
  : AIServiceConfig -> TextGenerationParams -> M AIServiceResponse :=
  fun _ _ => throw e.

End Samples.

(* ================================================================= *)
(** ** Vocabulary of the specification *)

Module Spec.
Import Routes.

(** generate-text: "level, apiToken, provider, and model must all be
    present". *)
Definition passes_validation (req : TextGenerationRequest) : bool :=
  Js.truthy (level req) && Js.truthy (apiToken req)
  && Js.truthy (provider req) && Js.truthy (model req).

(** The configuration and parameters the generate-text handler passes to
    the adapter. *)
Definition generation_config (req : TextGenerationRequest) : AIServiceConfig :=
  {| cfg_provider := Js.value (provider req);
     cfg_apiKey := Js.value (apiToken req);
     cfg_model := Some (Js.value (model req)) |}.

Definition generation_params (req : TextGenerationRequest)
  : TextGenerationParams :=
  {| p_level := Js.value (level req);
     p_prompt := buildPrompt (Js.value (level req)) (customPrompt req);
     p_maxTokens :=
       Some (maxTokens_for (Js.value (level req)) (customPrompt req)) |}.

(** The URL and body of the handler's own Gemini call. *)
Definition gemini_url (req : TextGenerationRequest) : string :=
  "https://generativelanguage.googleapis.com/v1/models/"
    ++ Js.value (model req) ++ ":generateContent?key=" ++ Js.value (apiToken req).

Definition gemini_body (req : TextGenerationRequest) : GeminiRequestBody :=
  {| contents :=
       [ {| parts :=
              Some [ {| part_text :=
                          Some (buildPrompt (Js.value (level req))
                                            (customPrompt req)) |} ] |} ] |}.

(** translate-word: "word/targetLanguage/languageCode required". *)
Definition has_required_fields (req : TranslateWordRequest) : bool :=
  Js.truthy (word req) && Js.truthy (targetLanguage req)
  && Js.truthy (languageCode req).

(** translate-word reaches the AI-translation stage. *)
Definition reaches_translation (req : TranslateWordRequest) : bool :=
  has_required_fields req
  && Js.truthy (aiToken req) && Js.truthy (tw_provider req).

Definition translation_config (req : TranslateWordRequest) : AIServiceConfig :=
  {| cfg_provider := Js.value (tw_provider req);
     cfg_apiKey := Js.value (aiToken req);
     cfg_model := tw_model req |}.

Definition translation_params (req : TranslateWordRequest)
  : TextGenerationParams :=
  {| p_level := "Elementary";
     p_prompt := translationPrompt (Js.value (word req))
                                   (Js.value (targetLanguage req));
     p_maxTokens := Some 50%Z |}.

(** The budgets of the adapter calls recorded in a trace. *)
Definition adapter_budgets (tr : list Event) : list (option Z) :=
  flat_map (fun ev => match ev with
                      | EvAdapter _ params => [p_maxTokens params]
                      | _ => []
                      end) tr.

(** The prompt an outbound call carries. *)
Definition prompt_sent (ev : Event) : list string :=
  match ev with
  | EvAdapter _ params => [p_prompt params]
  | EvAxiosPost _ body =>
      flat_map (fun c => match parts c with
                         | Some ps => flat_map (fun p => match part_text p with
                                                         | Some t => [t]
                                                         | None => []
                                                         end) ps
                         | None => []
                         end) (contents body)
  | _ => []
  end.

(** The word-count table of section 4.1. *)
Definition word_count_table : list (string * string) :=
  [ ("Elementary", "150-200");
    ("Pre-Intermediate", "200-250");
    ("Intermediate", "250-300");
    ("Upper-Intermediate", "300-400");
    ("Advanced", "400-500") ].

(** The five recognized tiers. *)
Definition levels : list string := map fst word_count_table.

(** The NoTextGenerated class of adapter messages. *)
Definition NoTextGenerated (msg : string) : Prop :=
  exists vendor, msg = "No text generated from " ++ vendor.

(** A chat completion has text: the first choice's message has non-empty
    content. *)
Definition chat_has_text (c : ChatCompletion) : Prop :=
  exists first rest a s,
    choices c = first :: rest
    /\ choice_message first = Some {| completion_content := Some (String a s) |}.

(** A Claude message has a text block. *)
Definition message_has_text_block (m : AnthropicMessage) : Prop :=
  exists text, In (TextBlock text) (message_content m).

(** A generate-content response has the first candidate's first part's
    text, non-empty. *)
Definition data_has_text (d : GeminiResponseData) : Prop :=
  exists c cs ct p ps a s,
    candidates d = Some (c :: cs)
    /\ candidate_content c = Some ct
    /\ parts ct = Some (p :: ps)
    /\ part_text p = Some (String a s).

(** The vendor behind a provider tag answers every call with a well-formed
    response that lacks the expected text path. *)
Inductive lacks_text (w : World) : string -> Prop :=
| lacks_openai :
    (forall key req, exists c,
        openai_chat_completions_create w key req = Ret c /\ ~ chat_has_text c) ->
    lacks_text w "openai"
| lacks_claude :
    (forall key req, exists m,
        anthropic_messages_create w key req = Ret m
        /\ ~ message_has_text_block m) ->
    lacks_text w "claude"
| lacks_gemini :
    (forall key model prompt, exists r,
        gemini_generateContent w key model prompt = Ret r
        /\ response_text r = Ret EmptyString) ->
    lacks_text w "gemini".

(** The vendor SDK behind a provider tag fails every call with [e]: the
    call itself throws it, or, for Gemini, the call answers and reading the
    text of the answer throws it. *)
Inductive vendor_throws (w : World) (e : Thrown) : string -> Prop :=
| throws_openai :
    (forall key req, openai_chat_completions_create w key req = Throw e) ->
    vendor_throws w e "openai"
| throws_claude :
    (forall key req, anthropic_messages_create w key req = Throw e) ->
    vendor_throws w e "claude"
| throws_gemini :
    (forall key model prompt,
        gemini_generateContent w key model prompt = Throw e) ->
    vendor_throws w e "gemini"
| throws_gemini_text :
    (forall key model prompt, exists r,
        gemini_generateContent w key model prompt = Ret r
        /\ response_text r = Throw e) ->
    vendor_throws w e "gemini".

(** The envelope invariant of the data model. *)
Definition result_invariant (r : AIServiceResponse) : Prop :=
  (sr_success r = true -> Js.truthy (sr_text r) = true)
  /\ (sr_success r = false -> sr_error r <> None).

Definition response_invariant (r : AIResponse) : Prop :=
  (success r = true -> Js.truthy (text r) = true)
  /\ (success r = false -> error r <> None).

(** The two shapes of result the adapter builds: [{success:false, error}]
    and [{success:true, text}]. *)
Definition adapter_shaped (r : AIServiceResponse) : Prop :=
  (exists msg, r = AIService.failure msg)
  \/ (exists text, r = AIService.generated text).

Definition translation_invariant (r : TranslateResponse) : Prop :=
  (tr_success r = true -> Js.truthy (translation r) = true)
  /\ (tr_success r = false -> tr_error r <> None).

End Spec.

(** The three continuations of the handlers, as functions of the answer they
    receive. *)
Module Summary.
Import Routes.

(** What the handler does with the adapter's answer. *)
Definition finish_generation (o : outcome AIServiceResponse * list Event)
  : outcome (HttpResponse AIResponse) * list Event :=
  match o with
  | (Ret aiResponse, tr) =>
      if sr_success aiResponse && Js.truthy (sr_text aiResponse)
      then (Ret (mkHttpResponse 200 (ai_text (Js.value (sr_text aiResponse)))), tr)
      else (Ret (mkHttpResponse 400
                   (ai_error ("AI text generation failed: "
                                ++ Js.or_else (sr_error aiResponse) "Unknown error"
                                ++ "."))), tr)
  | (Throw Nullish, tr) =>
      (Ret (mkHttpResponse 500
              (ai_error "An unexpected error occurred on the server.")), tr)
  | (Throw aiError, tr) =>
      (Ret (mkHttpResponse 500
              (ai_error ("AI service error: "
                           ++ Js.or_else (message_of aiError) "Unknown error"
                           ++ "."))), tr)
  end.

(** What the handler does with the answer of its own Gemini call. *)
Definition finish_gemini (o : outcome GeminiResponseData) (tr : list Event)
  : outcome (HttpResponse AIResponse) * list Event :=
  let failed (error : Thrown) :=
    match error with
    | Nullish =>
        (Ret (mkHttpResponse 500
                (ai_error "An unexpected error occurred on the server.")), tr)
    | _ =>
        (Ret (mkHttpResponse 500
                (ai_error ("AI text generation failed: "
                             ++ Js.interp (Js.or_opt (response_message_of error)
                                                     (message_of error))
                             ++ ". Please check your AI configuration and try again."))),
         tr)
    end in
  match o with
  | Ret data =>
      match gemini_generatedText data with
      | Ret generatedText =>
          if Js.truthy generatedText
          then (Ret (mkHttpResponse 200 (ai_text (Js.value generatedText))), tr)
          else failed (ErrorObject "No text found in Gemini API response." None None)
      | Throw e => failed e
      end
  | Throw e => failed e
  end.

(** What translate-word does with the adapter's answer. *)
Definition finish_translation (word : string)
           (o : outcome AIServiceResponse * list Event)
  : outcome (HttpResponse TranslateResponse) * list Event :=
  match o with
  | (Ret aiResponse, tr) =>
      if sr_success aiResponse && Js.truthy (sr_text aiResponse)
      then (Ret (mkHttpResponse 200
                   {| tr_success := true;
                      translation := Some (Js.trim (Js.value (sr_text aiResponse)));
                      tr_error := None |}), tr)
      else (Ret (mkHttpResponse 200
                   (translate_error ("Unable to translate " ++ Js.dquote ++ word
                                       ++ Js.dquote ++ ". "
                                       ++ Js.interp (sr_error aiResponse)))), tr)
  | (Throw aiError, tr) =>
      (Ret (mkHttpResponse 200
              (translate_error
                 ("Translation error: "
                    ++ match aiError with
                       | ErrorObject message _ _ => message
                       | _ => "Unknown error"
                       end))), tr)
  end.

End Summary.

(* ================================================================= *)
(** ** Further vocabulary: white space, classifier patterns *)

Module More.
Import Routes.

(** [s] starts with a white-space character. *)
Definition starts_with_space (s : string) : bool :=
  match Js.strip_space s with
  | Some _ => true
  | None => false
  end.

(** [s] ends with a white-space character. *)
Definition ends_with_space (s : string) : bool :=
  existsb (Js.endsWith s) Js.whitespace.

(** The substrings the classifier of [generateText] looks for, in the order
    of its tests. *)
Definition credential_patterns : list string :=
  [ "api key not valid"; "invalid api key"; "api_key_invalid"; "unauthorized" ].

Definition classifier_patterns : list string :=
  (credential_patterns
     ++ [ "rate limit"; "quota"; "too many requests";
          "network"; "connection"; "timeout";
          "400"; "bad request";
          "500"; "internal server error" ])%list.

(** The provider tags [generateText] dispatches to a vendor SDK. *)
Definition sdk_providers : list string := [ "openai"; "claude"; "gemini" ].

End More.

(* ================================================================= *)
(** ** frontend services/api.ts: the HTTP client *)

Module Client.
Import Routes.

(** How an axios call can fail: the server answered with a status outside
    2xx ([err.response] is set), the request got no answer ([err.request]
    only), or the request could not be set up. *)
Inductive AxiosError (B : Type) : Type :=
| ResponseError (status : Z) (data : B)
| RequestError
| SetupError.
Arguments RequestError {B}.
Arguments SetupError {B}.

(** How [await api.post(...)] followed by [return response.data] ends. *)
Inductive Settled (B : Type) : Type :=
| Resolved (data : B)
| Rejected (err : AxiosError B).

(** axios resolves a response whose status is in 2xx and rejects any other
    (the default [validateStatus]; the instance [api] sets none). *)
Definition settle {B : Type} (resp : HttpResponse B) : Settled B :=
  if ((200 <=? status resp)%Z && (status resp <? 300)%Z)%bool
  then Resolved (body resp)
  else Rejected (ResponseError (status resp) (body resp)).

(** The body [aiService.generateText] posts to [/ai/generate-text]. *)
Definition generateText_body (level apiToken : string)
           (provider model customPrompt : option string)
  : TextGenerationRequest :=
  {| level := Some level;
     apiToken := Some apiToken;
     provider := Some (Js.or_else provider "openai");
     model := Some (Js.or_else model "gpt-3.5-turbo");
     customPrompt := customPrompt |}.

(** The body [aiService.translateWord] posts to [/ai/translate-word]. *)
Definition translateWord_body (word targetLanguage languageCode : string)
           (aiToken provider model : option string) : TranslateWordRequest :=
  {| word := Some word;
     targetLanguage := Some targetLanguage;
     languageCode := Some languageCode;
     aiToken := aiToken;
     tw_provider := provider;
     tw_model := model |}.

(** [`${n}`] for an integer. *)
Definition show_Z (n : Z) : string := NilZero.string_of_int (Z.to_int n).

End Client.

(* ================================================================= *)
(** ** frontend components: AITokenModal *)

Module TokenModal.
Import Routes Client.

(** The keys of [AIProviders], which are also the values of the state
    [selectedProvider]. *)
Inductive Provider : Type := openai | claude | gemini | cohere.

Definition tag (p : Provider) : string :=
  match p with
  | openai => "openai"
  | claude => "claude"
  | gemini => "gemini"
  | cohere => "cohere"
  end.

Record ProviderInfo : Type := mkProviderInfo {
  name : string;
  models : list string;
  description : string
}.

Definition AIProviders (p : Provider) : ProviderInfo :=
  match p with
  | openai =>
      {| name := "OpenAI";
         models := [ "gpt-3.5-turbo"; "gpt-4"; "gpt-4-turbo" ];
         description := "ChatGPT & GPT-4 models" |}
  | claude =>
      {| name := "Anthropic Claude";
         models := [ "claude-3-haiku-20240307"; "claude-3-sonnet-20240229" ];
         description := "Claude 3 models" |}
  | gemini =>
      {| name := "Google Gemini";
         models := [ "gemini-2.5-flash" ];
         description := "Google Gemini models" |}
  | cohere =>
      {| name := "Cohere";
         models := [ "command"; "command-light" ];
         description := "Cohere models" |}
  end.

(** The actions of the application context the modal dispatches (their
    reducer is in context/AppContext, which is not part of the sources). *)
Inductive Action : Type :=
| setAiToken (token : string)
| setAiProvider (p : Provider)
| setAiModel (m : option string)
| setAiReady (ready : bool)
| setError (e : option string).

(** What a handler of the modal does, in order. *)
Inductive Effect : Type :=
| PreventDefault
| SetSelectedProvider (p : Provider)
| SetSelectedModel (m : option string)
| SetIsSubmitting (b : bool)
| SetErrorState (e : option string)
| Dispatch (a : Action)
| GenerateText (body : TextGenerationRequest)
| OnClose.

(** The component state a handler closes over. *)
Record State : Type := mkState {
  tokenInput : string;
  selectedProvider : Provider;
  selectedModel : option string
}.

(** [handleProviderChange]; [models[0]] of an empty list is [undefined]. *)
Definition handleProviderChange (p : Provider) : list Effect :=
  [ SetSelectedProvider p;
    SetSelectedModel (nth_error (models (AIProviders p)) 0) ].

(** The state after the effects of a handler, as React applies them. *)
Definition apply_effect (st : State) (ef : Effect) : State :=
  match ef with
  | SetSelectedProvider p =>
      {| tokenInput := tokenInput st; selectedProvider := p;
         selectedModel := selectedModel st |}
  | SetSelectedModel m =>
      {| tokenInput := tokenInput st; selectedProvider := selectedProvider st;
         selectedModel := m |}
  | _ => st
  end.

Definition apply_effects (st : State) (efs : list Effect) : State :=
  fold_left apply_effect efs st.

Definition greeting : string :=
  "Salam! Mən sizin şagirdinizəm və ingilis dili öyrənmək istəyirəm. Özünüzü təqdim edə bilərsinizmi?".

(** The request [handleSubmit] sends. *)
Definition greeting_request (st : State) : TextGenerationRequest :=
  generateText_body "Elementary" (Js.trim (tokenInput st))
                    (Some (tag (selectedProvider st))) (selectedModel st)
                    (Some greeting).

(** [handleSubmit]; [answer] is how the call of [aiService.generateText]
    ends for the body it is given. *)
Definition handleSubmit (st : State)
           (answer : TextGenerationRequest -> Settled AIResponse)
  : list Effect :=
  match Js.trim (tokenInput st) with
  | EmptyString => [ PreventDefault ]
  | String _ _ =>
      ([ PreventDefault;
         SetIsSubmitting true;
         SetErrorState None;
         Dispatch (setAiToken (Js.trim (tokenInput st)));
         Dispatch (setAiProvider (selectedProvider st));
         Dispatch (setAiModel (selectedModel st));
         GenerateText (greeting_request st) ]
         ++ match answer (greeting_request st) with
            | Resolved greetingResponse =>
                if success greetingResponse
                then [ Dispatch (setAiReady true);
                       Dispatch (setError None);
                       OnClose ]
                else [ SetErrorState
                         (Some (Js.or_else (error greetingResponse)
                                           "AI ilə əlaqə qurula bilmədi. API açarınızı yoxlayın.")) ]
            | Rejected (ResponseError status data) =>
                [ SetErrorState
                    (Some (Js.or_else (error data)
                                      ("Server error: " ++ show_Z status))) ]
            | Rejected RequestError =>
                [ SetErrorState
                    (Some "Cannot connect to server. Please check if the backend server is running on http://localhost:7000") ]
            | Rejected SetupError =>
                [ SetErrorState
                    (Some "Network error. Please check your connection and try again.") ]
            end
         ++ [ SetIsSubmitting false ])%list
  end.

End TokenModal.

(* ================================================================= *)
(** ** frontend components: WordDefinitionModal *)

Module WordModal.
Import Routes Client.

(** The fields of the application state the modal reads (the state's type
    is declared in context/AppContext, which is not part of the sources). *)
Record AppState : Type := mkAppState {
  isAiReady : bool;
  aiToken : option string;
  aiProvider : option string;
  aiModel : option string;
  nativeLanguage : string;
  nativeLanguageCode : string
}.

Inductive Effect : Type :=
| PreventDefault
| Alert (msg : string)
| SetTranslation (s : string)
| SetAiTranslation (s : string)
| SetIsLoadingTranslation (b : bool)
| SetIsSubmitting (b : bool)
| TranslateWord (body : TranslateWordRequest)
| OnSave (english translation : string).

(** The request [fetchAITranslation] sends; [state.aiModel || undefined]. *)
Definition translation_request (word : string) (state : AppState)
  : TranslateWordRequest :=
  translateWord_body word (nativeLanguage state) (nativeLanguageCode state)
                     (aiToken state) (aiProvider state)
                     (if Js.truthy (aiModel state) then aiModel state else None).

(** [fetchAITranslation]; [answer] is how the call of
    [aiService.translateWord] ends for the body it is given. *)
Definition fetchAITranslation (word : string) (state : AppState)
           (answer : TranslateWordRequest -> Settled TranslateResponse)
  : list Effect :=
  if negb (Js.truthy (Some word)) || negb (Js.truthy (aiToken state))
     || negb (Js.truthy (aiProvider state))
  then []
  else
    ([ SetIsLoadingTranslation true;
       TranslateWord (translation_request word state) ]
       ++ match answer (translation_request word state) with
          | Resolved response =>
              if tr_success response && Js.truthy (translation response)
              then [ SetAiTranslation (Js.value (translation response)) ]
              else [ SetAiTranslation "Translation not available" ]
          | Rejected _ => [ SetAiTranslation "Translation error" ]
          end
       ++ [ SetIsLoadingTranslation false ])%list.

(** [handleSubmit]; [saved] tells whether [await onSave(...)] returns
    ([true]) or throws. *)
Definition handleSubmit (word translation aiTranslation : string)
           (saved : bool) : list Effect :=
  let finalTranslation :=
    Js.or_else (Some (Js.trim translation)) aiTranslation in
  match finalTranslation with
  | EmptyString =>
      [ PreventDefault;
        Alert "Please wait for AI translation or enter your own translation" ]
  | String _ _ =>
      ([ PreventDefault;
         SetIsSubmitting true;
         OnSave word finalTranslation ]
         ++ (if saved then [ SetTranslation EmptyString;
                             SetAiTranslation EmptyString ]
             else [])
         ++ [ SetIsSubmitting false ])%list
  end.

(** The value of the state [aiTranslation] after a run of effects that
    started from [current]. *)
Definition aiTranslation_after (current : string) (efs : list Effect) : string :=
  fold_left (fun acc ef => match ef with
                           | SetAiTranslation s => s
                           | _ => acc
                           end) efs current.

End WordModal.

(* ================================================================= *)
(** ** The client wired to the backend *)

Module Wiring.
Import Routes Client.

(** What [aiService.generateText] and [aiService.translateWord] get when
    the request reaches the backend of a world [w]: the handler's response,
    settled by axios.  The client posts to [/api/ai/generate-text] and
    [/api/ai/translate-word]; the router is taken to be mounted at
    [/api/ai] (the server's entry file is not part of the sources).  A
    handler that threw would leave the request unanswered; the handlers
    catch everything, so that case is never taken. *)
Definition backend_generate_text (w : World) (body : TextGenerationRequest)
  : Settled AIResponse :=
  match fst (app_generate_text w body []) with
  | Ret resp => settle resp
  | Throw _ => Rejected RequestError
  end.

Definition backend_translate_word (w : World) (body : TranslateWordRequest)
  : Settled TranslateResponse :=
  match fst (app_translate_word w body []) with
  | Ret resp => settle resp
  | Throw _ => Rejected RequestError
  end.

End Wiring.

(** Exposes the state-passing behind the monadic notation. *)
Ltac unfold_monad :=
  unfold try_catch, bind, ret, throw, perform, of_outcome, emit in *.

(** Closes a goal [run = (o, trace) /\ network call /\ shape of o] once the
    run has been evaluated. *)
Ltac shaped :=
  split; [reflexivity | split; [reflexivity |]];
  let r := fresh "r" in
  let E := fresh "E" in
  intros r E;
  first [ discriminate E
        | injection E as <-; first [ left; eexists; reflexivity
                                   | right; eexists; reflexivity ] ].

Unset Implicit Arguments.

(* ================================================================= *)
(** ** Facts about the string primitives *)

Module JsFacts.
Import Js.

Lemma append_assoc (a b c : string) : (a ++ b) ++ c = a ++ b ++ c.
Proof. induction a as [|x a IH]; simpl; [reflexivity | now rewrite IH]. Qed.

Lemma append_nil_r (a : string) : a ++ EmptyString = a.
Proof. induction a as [|x a IH]; simpl; [reflexivity | now rewrite IH]. Qed.

Lemma startsWith_iff (s p : string) :
  startsWith s p = true <-> exists post, s = p ++ post.
Proof.
  revert s; induction p as [|a p IH]; intros s; simpl.
  - split; [intros _; now exists s | now destruct s].
  - destruct s as [|b s]; simpl.
    + split; [discriminate | intros [post H]; discriminate].
    + rewrite andb_true_iff, Ascii.eqb_eq, IH. split.
      * intros [-> [post ->]]. now exists post.
      * intros [post H]. injection H as -> ->. split; [reflexivity | now exists post].
Qed.

Lemma includes_unfold (s needle : string) :
  includes s needle =
  startsWith s needle
  || match s with
     | EmptyString => false
     | String _ t => includes t needle
     end.
Proof.
  destruct s, needle; simpl; try reflexivity;
    match goal with |- context [?a && ?b] => now destruct (a && b) end.
Qed.

Lemma includes_iff (s needle : string) :
  includes s needle = true <-> contains s needle.
Proof.
  unfold contains. induction s as [|c s IH]; rewrite includes_unfold.
  - rewrite orb_false_r, startsWith_iff. split.
    + intros [post E]. now exists EmptyString, post.
    + intros [pre [post H]]. destruct pre; simpl in H; [| discriminate].
      now exists post.
  - rewrite orb_true_iff, startsWith_iff, IH. split.
    + intros [[post E] | [pre [post E]]].
      * now exists EmptyString, post.
      * exists (String c pre), post. simpl. now rewrite E.
    + intros [pre [post H]]. destruct pre as [|c' pre]; simpl in H.
      * left. now exists post.
      * right. injection H as _ H. now exists pre, post.
Qed.

Lemma includes_false_iff (s needle : string) :
  includes s needle = false <-> ~ contains s needle.
Proof.
  rewrite <- includes_iff. destruct (includes s needle); split; intros; congruence.
Qed.

Lemma map_chars_app (f : ascii -> ascii) (s t : string) :
  map_chars f (s ++ t) = map_chars f s ++ map_chars f t.
Proof. induction s as [|c s IH]; simpl; [reflexivity | now rewrite IH]. Qed.

(** A split of the mapped string comes from a split of the string. *)
Lemma map_chars_split (f : ascii -> ascii) (s a b : string) :
  map_chars f s = a ++ b ->
  exists s1 s2, s = s1 ++ s2 /\ map_chars f s1 = a /\ map_chars f s2 = b.
Proof.
  revert s; induction a as [|c a IH]; intros s H; simpl in H.
  - now exists EmptyString, s.
  - destruct s as [|d s]; simpl in H; [discriminate |].
    injection H as Hc H. apply IH in H as [s1 [s2 [-> [H1 H2]]]].
    exists (String d s1), s2. simpl. now rewrite Hc, H1.
Qed.

Lemma includes_lower_iff (s needle : string) :
  includes (lower_ascii s) needle = true <-> contains_ci s needle.
Proof.
  rewrite includes_iff. unfold contains, contains_ci, lower_ascii. split.
  - intros [pre [post H]].
    apply map_chars_split in H as [s1 [s2 [-> [H1 H2]]]].
    apply map_chars_split in H2 as [s3 [s4 [-> [H3 H4]]]].
    now exists s1, s3, s4.
  - intros [pre [mid [post [-> H]]]].
    exists (map_chars lower_char pre), (map_chars lower_char post).
    now rewrite !map_chars_app, H.
Qed.

Lemma includes_lower_false_iff (s needle : string) :
  includes (lower_ascii s) needle = false <-> ~ contains_ci s needle.
Proof.
  rewrite <- includes_lower_iff.
  destruct (includes (lower_ascii s) needle); split; intros; congruence.
Qed.

Lemma contains_prefix (a b : string) : contains (a ++ b) a.
Proof. now exists EmptyString, b. Qed.

Lemma contains_app_r (a s needle : string) :
  contains s needle -> contains (a ++ s) needle.
Proof.
  intros [pre [post ->]]. exists (a ++ pre), post. now rewrite append_assoc.
Qed.

Lemma truthy_iff (v : option string) :
  truthy v = true <-> exists c s, v = Some (String c s).
Proof.
  destruct v as [[|c s]|]; simpl; split; try discriminate;
    try (intros [c' [s' H]]; discriminate).
  - intros _. now exists c, s.
  - reflexivity.
Qed.

Lemma truthy_value (v : option string) :
  truthy v = true -> v = Some (value v).
Proof. destruct v as [[|c s]|]; simpl; intros H; congruence. Qed.

(** *** Lower case *)

Lemma is_ascii_lower_char (c : ascii) : is_ascii (lower_char c) = is_ascii c.
Proof. destruct c as [[] [] [] [] [] [] [] []]; reflexivity. Qed.

Lemma all_ascii_lower_ascii (s : string) :
  all_ascii (lower_ascii s) = all_ascii s.
Proof.
  induction s as [|c s IH]; [reflexivity |].
  change (lower_ascii (String c s)) with (String (lower_char c) (lower_ascii s)).
  cbn [all_ascii]. now rewrite is_ascii_lower_char, IH.
Qed.

Lemma eqb_ascii_false (a c : ascii) :
  is_ascii a = false -> is_ascii c = true -> Ascii.eqb a c = false.
Proof.
  intros Ha Hc. apply Ascii.eqb_neq. intros ->. congruence.
Qed.

Lemma startsWith_ascii_head (c : ascii) (t p : string) (a : ascii) :
  is_ascii c = true -> is_ascii a = false ->
  startsWith (String c t) (String a p) = false.
Proof.
  intros Hc Ha.
  destruct (startsWith (String c t) (String a p)) eqn:E; [| reflexivity].
  apply startsWith_iff in E as [post E]. simpl in E.
  injection E as -> _. congruence.
Qed.

(** A character outside ASCII that starts in [s] does not reach into an
    ASCII character that follows [s]. *)
Lemma startsWith_app_ascii (p s x : string) :
  no_ascii p = true -> ascii_start x = true ->
  startsWith (s ++ x) p = startsWith s p.
Proof.
  intros Hp Hx. revert s Hp.
  induction p as [|a p IH]; intros s Hp.
  - now destruct s, x.
  - simpl in Hp. apply andb_true_iff in Hp as [Ha Hp].
    apply negb_true_iff in Ha.
    destruct s as [|b s]; cbn [append startsWith].
    + destruct x as [|c x]; [reflexivity |]. cbn [ascii_start] in Hx.
      now rewrite startsWith_ascii_head.
    + simpl. now rewrite IH.
Qed.

Lemma startsWith_length (s p : string) :
  startsWith s p = true -> (String.length p <= String.length s)%nat.
Proof.
  revert s; induction p as [|a p IH]; intros s H; simpl; [lia |].
  destruct s as [|b s]; simpl in *; [discriminate |].
  apply andb_true_iff in H as [_ H]. apply IH in H. lia.
Qed.

(** Lower-casing goes through a concatenation whose second part starts
    with an ASCII character. *)
Lemma lower_from_app (pre x : string) (k : nat) :
  ascii_start x = true -> (k <= String.length pre)%nat ->
  lower_from k (pre ++ x) = lower_from k pre ++ lower_from 0 x.
Proof.
  intros Hx. revert k.
  induction pre as [|c t IH]; intros k Hk.
  - simpl in Hk. assert (k = 0)%nat as -> by lia. now destruct x.
  - destruct k as [|k].
    + change (String c t ++ x) with (String c (t ++ x)).
      cbn [lower_from].
      change (String c (t ++ x)) with (String c t ++ x).
      rewrite !(startsWith_app_ascii _ _ x) by (reflexivity || assumption).
      destruct (startsWith (String c t) kelvin_sign) eqn:Ek.
      { apply startsWith_length in Ek. simpl in Ek.
        rewrite IH by lia. reflexivity. }
      destruct (startsWith (String c t) capital_I_with_dot) eqn:Ei.
      { apply startsWith_length in Ei. simpl in Ei.
        rewrite IH by lia. simpl. reflexivity. }
      rewrite IH by lia. reflexivity.
    + simpl in Hk. simpl. apply IH. lia.
Qed.

Lemma lower_from_ascii (a b : string) :
  all_ascii a = true ->
  lower_from 0 (a ++ b) = lower_ascii a ++ lower_from 0 b.
Proof.
  induction a as [|c a IH]; intros Ha; [reflexivity |].
  simpl in Ha. apply andb_true_iff in Ha as [Hc Ha].
  change (String c a ++ b) with (String c (a ++ b)).
  cbn [lower_from].
  unfold kelvin_sign, capital_I_with_dot. cbn [bytes fold_right].
  rewrite !startsWith_ascii_head by (assumption || reflexivity).
  rewrite IH by assumption. reflexivity.
Qed.

(** A match up to the case of A-Z is a match for [toLowerCase]. *)
Lemma contains_ci_lower (s needle : string) :
  all_ascii needle = true ->
  contains_ci s needle -> lower_contains s needle.
Proof.
  intros Hn (pre & mid & post & -> & Hm).
  assert (all_ascii mid = true) as Hmid
    by (rewrite <- all_ascii_lower_ascii, Hm; exact Hn).
  unfold lower_contains, toLowerCase.
  destruct mid as [|c mid].
  { simpl in Hm. subst needle. now exists EmptyString, (lower_from 0 (pre ++ post)). }
  assert (ascii_start (String c mid ++ post) = true) as Hx.
  { simpl in Hmid. now apply andb_true_iff in Hmid as [? _]. }
  rewrite lower_from_app by (assumption || lia).
  rewrite lower_from_ascii by assumption. rewrite Hm.
  now exists (lower_from 0 pre), (lower_from 0 post).
Qed.

(** The two characters outside ASCII that lower-case into it. *)
Example toLowerCase_kelvin_sign :
  toLowerCase ("NETWOR" ++ kelvin_sign ++ " Down") = "network down".
Proof. reflexivity. Qed.

Example toLowerCase_capital_I_with_dot :
  toLowerCase ("T" ++ capital_I_with_dot ++ "MEOUT")
  = "ti" ++ combining_dot_above ++ "meout".
Proof. reflexivity. Qed.

Lemma lower_contains_iff (s needle : string) :
  includes (toLowerCase s) needle = true <-> lower_contains s needle.
Proof. apply includes_iff. Qed.

Lemma lower_contains_false_iff (s needle : string) :
  includes (toLowerCase s) needle = false <-> ~ lower_contains s needle.
Proof.
  rewrite <- lower_contains_iff.
  destruct (includes (toLowerCase s) needle); split; intros; congruence.
Qed.

(** A match on the string itself is a match of the lower-cased pattern in
    the lower-cased string. *)
Lemma contains_lower_contains (s needle : string) :
  all_ascii needle = true ->
  contains s needle -> lower_contains s (lower_ascii needle).
Proof.
  intros Hn [pre [post ->]]. apply contains_ci_lower.
  - now rewrite all_ascii_lower_ascii.
  - now exists pre, needle, post.
Qed.

End JsFacts.

(* ================================================================= *)
(** ** The gateway over an arbitrary adapter *)

Module GatewayFacts.
Import Routes Spec Summary.

Lemma passes_validation_guard (req : TextGenerationRequest) :
  passes_validation req = true ->
  negb (Js.truthy (level req)) || negb (Js.truthy (apiToken req))
  || negb (Js.truthy (provider req)) || negb (Js.truthy (model req)) = false.
Proof.
  unfold passes_validation.
  destruct (Js.truthy (level req)), (Js.truthy (apiToken req)),
    (Js.truthy (provider req)), (Js.truthy (model req)); simpl; congruence.
Qed.

(** Away from the 'gemini' tag, generate-text is one adapter call followed
    by [finish_generation]. *)
Lemma generate_text_other (w : World) gen (req : TextGenerationRequest) tr :
  passes_validation req = true ->
  provider req <> Some "gemini" ->
  generate_text w gen req tr =
  finish_generation
    (gen (generation_config req) (generation_params req)
         (tr ++ [EvAdapter (generation_config req) (generation_params req)])%list).
Proof.
  intros Hv Hp. unfold generate_text.
  rewrite (passes_validation_guard _ Hv).
  assert (String.eqb (Js.value (provider req)) "gemini" = false) as ->.
  { apply String.eqb_neq. intros E. apply Hp.
    unfold passes_validation in Hv. rewrite !andb_true_iff in Hv.
    destruct Hv as [[[_ _] Hpr] _].
    rewrite (JsFacts.truthy_value _ Hpr). now rewrite E. }
  unfold aiService_generateText, finish_generation. unfold_monad.
  fold (generation_config req). fold (generation_params req).
  destruct (gen _ _ _) as [[r|e] tr']; [| now destruct e].
  now destruct (sr_success r && Js.truthy (sr_text r)).
Qed.

(** With the 'gemini' tag, generate-text is one HTTP post followed by
    [finish_gemini]; the adapter is not called. *)
Lemma generate_text_gemini (w : World) gen (req : TextGenerationRequest) tr :
  passes_validation req = true ->
  provider req = Some "gemini" ->
  generate_text w gen req tr =
  finish_gemini (axios_post w (gemini_url req) (gemini_body req))
                (tr ++ [EvAxiosPost (gemini_url req) (gemini_body req)])%list.
Proof.
  intros Hv Hp. unfold generate_text.
  rewrite (passes_validation_guard _ Hv). rewrite Hp. simpl Js.value.
  rewrite String.eqb_refl. unfold finish_gemini. unfold_monad.
  unfold gemini_url, gemini_body.
  destruct (axios_post w _ _) as [data|e]; [| now destruct e].
  destruct (gemini_generatedText data) as [t|e]; [| now destruct e].
  now destruct (Js.truthy t).
Qed.

Lemma translate_word_stage gen (req : TranslateWordRequest) tr :
  reaches_translation req = true ->
  translate_word gen req tr =
  finish_translation (Js.value (word req))
    (gen (translation_config req) (translation_params req)
         (tr ++ [EvAdapter (translation_config req) (translation_params req)])%list).
Proof.
  unfold reaches_translation, has_required_fields. rewrite !andb_true_iff.
  intros [[[[Hw Ht] Hl] Ha] Hp]. unfold translate_word.
  rewrite Hw, Ht, Hl, Ha, Hp. simpl negb. simpl orb. cbv iota.
  unfold aiService_generateText, finish_translation. unfold_monad.
  fold (translation_config req). fold (translation_params req).
  destruct (gen _ _ _) as [[r|e] tr']; [| reflexivity].
  now destruct (sr_success r && Js.truthy (sr_text r)).
Qed.

Lemma snd_finish_generation (o : outcome AIServiceResponse * list Event) :
  snd (finish_generation o) = snd o.
Proof.
  destruct o as [[r|e] tr]; simpl; [| now destruct e].
  now destruct (sr_success r && Js.truthy (sr_text r)).
Qed.

Lemma snd_finish_translation (word : string)
      (o : outcome AIServiceResponse * list Event) :
  snd (finish_translation word o) = snd o.
Proof.
  destruct o as [[r|e] tr]; simpl; [| reflexivity].
  now destruct (sr_success r && Js.truthy (sr_text r)).
Qed.

Lemma snd_finish_gemini (o : outcome GeminiResponseData) (tr : list Event) :
  snd (finish_gemini o tr) = tr.
Proof.
  unfold finish_gemini. destruct o as [data|e]; [| now destruct e].
  destruct (gemini_generatedText data) as [t|e]; [| now destruct e].
  now destruct (Js.truthy t).
Qed.

Lemma passes_validation_false_guard (req : TextGenerationRequest) :
  passes_validation req = false ->
  negb (Js.truthy (level req)) || negb (Js.truthy (apiToken req))
  || negb (Js.truthy (provider req)) || negb (Js.truthy (model req)) = true.
Proof.
  unfold passes_validation.
  destruct (Js.truthy (level req)), (Js.truthy (apiToken req)),
    (Js.truthy (provider req)), (Js.truthy (model req)); simpl; congruence.
Qed.

Lemma ai_text_invariant (t : option string) :
  Js.truthy t = true -> response_invariant (ai_text (Js.value t)).
Proof.
  intros H. rewrite (JsFacts.truthy_value t H) in H.
  split; simpl; [now intros _ | discriminate].
Qed.

Lemma ai_error_invariant (msg : string) : response_invariant (ai_error msg).
Proof. split; simpl; [discriminate | intros _; discriminate]. Qed.

(** Every envelope generate-text sends satisfies the invariant, whatever
    the adapter and the vendor do: the handler re-tests the text. *)
Lemma generate_text_envelope (w : World) gen (req : TextGenerationRequest)
      tr resp tr' :
  generate_text w gen req tr = (Ret resp, tr') ->
  response_invariant (body resp).
Proof.
  destruct (passes_validation req) eqn:Hv.
  - assert (provider req = Some "gemini" \/ provider req <> Some "gemini")
      as [Hp | Hp].
    { destruct (provider req) as [tag|]; [| right; discriminate].
      destruct (string_dec tag "gemini") as [-> | Hn];
        [left; reflexivity | right; congruence]. }
    + rewrite (generate_text_gemini w gen req tr Hv Hp). unfold finish_gemini.
      destruct (axios_post w _ _) as [data|e].
      * destruct (gemini_generatedText data) as [t|e].
        -- destruct (Js.truthy t) eqn:Ht; intros E; injection E as <- _; simpl.
           ++ now apply ai_text_invariant.
           ++ apply ai_error_invariant.
        -- destruct e; intros E; injection E as <- _; apply ai_error_invariant.
      * destruct e; intros E; injection E as <- _; apply ai_error_invariant.
    + rewrite (generate_text_other w gen req tr Hv Hp). unfold finish_generation.
      destruct (gen _ _ _) as [[r|e] tr0].
      * destruct (sr_success r && Js.truthy (sr_text r)) eqn:Ht;
          intros E; injection E as <- _; simpl.
        -- apply andb_true_iff in Ht as [_ Ht]. now apply ai_text_invariant.
        -- apply ai_error_invariant.
      * destruct e; intros E; injection E as <- _; apply ai_error_invariant.
  - unfold generate_text. rewrite (passes_validation_false_guard _ Hv).
    unfold_monad. intros E. injection E as <- _. apply ai_error_invariant.
Qed.

End GatewayFacts.

(* ================================================================= *)
(** ** The provider adapter *)

Module AdapterFacts.
Import AIService Spec.

(** Each vendor method makes exactly one call, a network call, and what it
    returns has one of the adapter's two shapes. *)
Lemma generateWithOpenAI_trace (w : World) config params tr :
  exists o ev,
    generateWithOpenAI w config params tr = (o, (tr ++ [ev])%list)
    /\ is_network_call ev = true
    /\ (forall r, o = Ret r -> adapter_shaped r).
Proof.
  unfold generateWithOpenAI. unfold_monad.
  destruct (openai_chat_completions_create w _ _) as [c|e].
  - destruct (choices c) as [|first rest];
      [| destruct (choice_message first) as [m|];
         [ destruct (completion_content m) as [[|a s]|] |] ];
      eexists; eexists; shaped.
  - destruct (status_of e) as [st|]; [destruct (st =? 401)%Z |];
      eexists; eexists; shaped.
Qed.

Lemma generateWithClaude_trace (w : World) config params tr :
  exists o ev,
    generateWithClaude w config params tr = (o, (tr ++ [ev])%list)
    /\ is_network_call ev = true
    /\ (forall r, o = Ret r -> adapter_shaped r).
Proof.
  unfold generateWithClaude. unfold_monad.
  destruct (anthropic_messages_create w _ _) as [m|e].
  - destruct (find _ (message_content m)) as [[text|id name]|];
      eexists; eexists; shaped.
  - destruct (status_of e) as [st|]; [destruct (st =? 401)%Z |];
      eexists; eexists; shaped.
Qed.

Lemma generateWithGemini_trace (w : World) config params tr :
  exists o ev,
    generateWithGemini w config params tr = (o, (tr ++ [ev])%list)
    /\ is_network_call ev = true
    /\ (forall r, o = Ret r -> adapter_shaped r).
Proof.
  unfold generateWithGemini. unfold_monad.
  assert (forall e : Thrown, exists (o : outcome AIServiceResponse) ev,
             (if match status_of e with
                 | Some st => (st =? 400)%Z
                 | None => false
                 end
                 && match message_of e with
                    | Some m => Js.includes m "API key not valid"
                    | None => false
                    end
              then fun tr0 : list Event =>
                     (Ret (failure "Invalid Gemini API key. Please get a valid API key from https://makersuite.google.com/app/apikey"), tr0)
              else fun tr0 : list Event => (Throw e, tr0))
               (tr ++ [EvGemini (cfg_apiKey config)
                         (Js.or_else (cfg_model config) "gemini-1.5-flash")
                         (template_of w (getSystemPrompt (p_level params))
                            ++ Js.nl ++ Js.nl ++ p_prompt params)])%list
             = (o, (tr ++ [ev])%list)
             /\ is_network_call ev = true
             /\ (forall r, o = Ret r -> adapter_shaped r)) as Hcatch.
  { intros e.
    match goal with |- context [if ?c then _ else _] => destruct c end;
      eexists; eexists; shaped. }
  destruct (gemini_generateContent w _ _ _) as [r|e]; [| apply Hcatch].
  destruct (response_text r) as [[|a s]|e]; [| | apply Hcatch];
    eexists; eexists; shaped.
Qed.

(** [generateText] never throws, makes at most one call, and that call is
    a network call. *)
Lemma generateText_trace (w : World) config params tr :
  exists r evs,
    generateText w config params tr = (Ret r, (tr ++ evs)%list)
    /\ forallb is_network_call evs = true
    /\ (length evs <= 1)%nat
    /\ adapter_shaped r.
Proof.
  unfold generateText, try_catch.
  destruct (String.eqb (cfg_provider config) "openai");
    [ destruct (generateWithOpenAI_trace w config params tr)
        as [o [ev [-> [Hev Hshape]]]]
    | destruct (String.eqb (cfg_provider config) "claude");
      [ destruct (generateWithClaude_trace w config params tr)
          as [o [ev [-> [Hev Hshape]]]]
      | destruct (String.eqb (cfg_provider config) "gemini");
        [ destruct (generateWithGemini_trace w config params tr)
            as [o [ev [-> [Hev Hshape]]]]
        | ] ] ].
  1-3: destruct o as [r|e]; eexists; exists [ev]; simpl; rewrite Hev;
    (split; [reflexivity | split; [reflexivity | split; [auto |]]]);
    [ now apply Hshape | left; eexists; reflexivity ].
  destruct (String.eqb (cfg_provider config) "cohere");
    eexists; exists []; rewrite app_nil_r;
    (split; [reflexivity | split; [reflexivity | split; [simpl; auto |]]]);
    left; eexists; reflexivity.
Qed.

(** The adapter's half of the envelope invariant: a failure carries an
    error and a success carries a text (which can be empty, see
    [generateWithClaude]). *)
Lemma generateText_fields (w : World) config params tr r tr' :
  generateText w config params tr = (Ret r, tr') ->
  (sr_success r = false -> sr_error r <> None)
  /\ (sr_success r = true -> sr_text r <> None).
Proof.
  intros E.
  destruct (generateText_trace w config params tr) as [r0 [evs [E0 [_ [_ Hs]]]]].
  rewrite E0 in E. injection E as -> _.
  destruct Hs as [[msg ->] | [text ->]]; simpl; split; congruence.
Qed.

Lemma adapter_budgets_app (a b : list Event) :
  adapter_budgets (a ++ b) = (adapter_budgets a ++ adapter_budgets b)%list.
Proof. unfold adapter_budgets. apply flat_map_app. Qed.

Lemma adapter_budgets_network (evs : list Event) :
  forallb is_network_call evs = true -> adapter_budgets evs = [].
Proof.
  induction evs as [|ev evs IH]; simpl; [reflexivity |].
  rewrite andb_true_iff. intros [H1 H2]. rewrite (IH H2).
  now destruct ev.
Qed.

(** A well-formed OpenAI response without text. *)
Lemma generateText_openai_no_text (w : World) config params tr :
  cfg_provider config = "openai" ->
  (forall key req, exists c,
      openai_chat_completions_create w key req = Ret c /\ ~ chat_has_text c) ->
  exists tr',
    generateText w config params tr =
    (Ret (failure "No text generated from OpenAI"), tr').
Proof.
  intros Hp Hw. unfold generateText. rewrite Hp. simpl.
  unfold generateWithOpenAI. unfold_monad.
  match goal with
  | |- context [openai_chat_completions_create w ?k ?r] =>
      destruct (Hw k r) as [c [-> Hc]]
  end.
  destruct c as [[|[[[[[|a s]|]]|]] rest]]; simpl; eauto.
  exfalso. apply Hc. now exists (mkChoice (Some (mkCompletionMessage (Some (String a s))))), rest, a, s.
Qed.

Lemma find_text_block (blocks : list ContentBlock) :
  (~ exists text, In (TextBlock text) blocks) ->
  find (fun block => String.eqb (block_type block) "text") blocks = None.
Proof.
  induction blocks as [|b bs IH]; intros H; simpl; [reflexivity |].
  destruct b as [text|id name]; simpl.
  - exfalso. apply H. exists text. now left.
  - apply IH. intros [text Hin]. apply H. exists text. now right.
Qed.

(** A well-formed Claude response without a text block. *)
Lemma generateText_claude_no_text (w : World) config params tr :
  cfg_provider config = "claude" ->
  (forall key req, exists m,
      anthropic_messages_create w key req = Ret m
      /\ ~ message_has_text_block m) ->
  exists tr',
    generateText w config params tr =
    (Ret (failure "No text generated from Claude"), tr').
Proof.
  intros Hp Hw. unfold generateText. rewrite Hp. simpl.
  unfold generateWithClaude. unfold_monad.
  match goal with
  | |- context [anthropic_messages_create w ?k ?r] =>
      destruct (Hw k r) as [m [-> Hm]]
  end.
  rewrite (find_text_block _ Hm). eauto.
Qed.

(** A Gemini SDK response whose [text()] is empty. *)
Lemma generateText_gemini_no_text (w : World) config params tr :
  cfg_provider config = "gemini" ->
  (forall key model prompt, exists r,
      gemini_generateContent w key model prompt = Ret r
      /\ response_text r = Ret EmptyString) ->
  exists tr',
    generateText w config params tr =
    (Ret (failure "No text generated from Gemini"), tr').
Proof.
  intros Hp Hw. unfold generateText. rewrite Hp. simpl.
  unfold generateWithGemini. unfold_monad.
  match goal with
  | |- context [gemini_generateContent w ?k ?m ?p] =>
      destruct (Hw k m p) as [r [-> ->]]
  end.
  eauto.
Qed.

Lemma generateText_no_text (w : World) config params tr :
  lacks_text w (cfg_provider config) ->
  exists msg tr',
    generateText w config params tr = (Ret (failure msg), tr')
    /\ NoTextGenerated msg.
Proof.
  intros H. inversion H as [Hw Hp | Hw Hp | Hw Hp]; symmetry in Hp.
  - destruct (generateText_openai_no_text w config params tr Hp Hw) as [tr' E].
    exists "No text generated from OpenAI", tr'. split; [exact E | now exists "OpenAI"].
  - destruct (generateText_claude_no_text w config params tr Hp Hw) as [tr' E].
    exists "No text generated from Claude", tr'. split; [exact E | now exists "Claude"].
  - destruct (generateText_gemini_no_text w config params tr Hp Hw) as [tr' E].
    exists "No text generated from Gemini", tr'. split; [exact E | now exists "Gemini"].
Qed.

(** The budgets recorded after a recorded call of the real adapter. *)
Lemma adapter_budgets_after_call (w : World) config params tr :
  adapter_budgets
    (snd (generateText w config params (tr ++ [EvAdapter config params])%list))
  = (adapter_budgets tr ++ [p_maxTokens params])%list.
Proof.
  destruct (generateText_trace w config params (tr ++ [EvAdapter config params]))
    as [r [evs [-> [Hnet _]]]].
  simpl snd. rewrite !adapter_budgets_app, (adapter_budgets_network _ Hnet).
  simpl. now rewrite app_nil_r.
Qed.

(** The [catch] clause of [generateText] receives what the vendor call
    throws, unless the method's own [catch] has answered for it. *)
Lemma generateText_openai_throws (w : World) config params tr e :
  cfg_provider config = "openai" ->
  (forall key req, openai_chat_completions_create w key req = Throw e) ->
  status_of e <> Some 401%Z ->
  fst (generateText w config params tr)
  = Ret (failure (userMessage "openai" e)).
Proof.
  intros Hp Hw Hs. unfold generateText. rewrite Hp. simpl String.eqb. cbv iota.
  unfold generateWithOpenAI. unfold_monad. rewrite Hw.
  destruct (status_of e) as [st|]; [| reflexivity].
  destruct (Z.eqb_spec st 401) as [-> | _]; [congruence | reflexivity].
Qed.

Lemma generateText_claude_throws (w : World) config params tr e :
  cfg_provider config = "claude" ->
  (forall key req, anthropic_messages_create w key req = Throw e) ->
  status_of e <> Some 401%Z ->
  fst (generateText w config params tr)
  = Ret (failure (userMessage "claude" e)).
Proof.
  intros Hp Hw Hs. unfold generateText. rewrite Hp. simpl String.eqb. cbv iota.
  unfold generateWithClaude. unfold_monad. rewrite Hw.
  destruct (status_of e) as [st|]; [| reflexivity].
  destruct (Z.eqb_spec st 401) as [-> | _]; [congruence | reflexivity].
Qed.

Lemma generateText_gemini_throws (w : World) config params tr e :
  cfg_provider config = "gemini" ->
  (forall key model prompt, gemini_generateContent w key model prompt = Throw e) ->
  status_of e <> Some 400%Z ->
  fst (generateText w config params tr)
  = Ret (failure (userMessage "gemini" e)).
Proof.
  intros Hp Hw Hs. unfold generateText. rewrite Hp. simpl String.eqb. cbv iota.
  unfold generateWithGemini. unfold_monad. rewrite Hw.
  destruct (status_of e) as [st|]; [| reflexivity].
  destruct (Z.eqb_spec st 400) as [-> | _]; [congruence | reflexivity].
Qed.

(** The persona of each of the five tiers. *)
Lemma getSystemPrompt_tiers :
  getSystemPrompt "Elementary"
  = VString "You are an English teacher creating simple, engaging content for elementary level students. Use basic vocabulary and simple sentence structures."
  /\ getSystemPrompt "Pre-Intermediate"
     = VString "You are an English teacher creating content for pre-intermediate students. Use moderately complex vocabulary and varied sentence structures."
  /\ getSystemPrompt "Intermediate"
     = VString "You are an English teacher creating content for intermediate level students. Use a good variety of vocabulary and complex sentence structures."
  /\ getSystemPrompt "Upper-Intermediate"
     = VString "You are an English teacher creating advanced content for upper-intermediate students. Use sophisticated vocabulary and complex grammatical structures."
  /\ getSystemPrompt "Advanced"
     = VString "You are an English teacher creating challenging content for advanced students. Use complex vocabulary, idiomatic expressions, and sophisticated grammatical structures.".
Proof. repeat split. Qed.

Lemma find_own_none (obj : list (string * string)) (key : string) :
  ~ In key (map fst obj) ->
  find (fun kv => String.eqb (fst kv) key) obj = None.
Proof.
  induction obj as [|kv obj IH]; simpl; intros H; [reflexivity |].
  destruct (String.eqb_spec (fst kv) key) as [E | _].
  - exfalso. apply H. now left.
  - apply IH. intros Hin. apply H. now right.
Qed.

Lemma existsb_eqb_false (key : string) (keys : list string) :
  ~ In key keys -> existsb (String.eqb key) keys = false.
Proof.
  induction keys as [|k keys IH]; simpl; intros H; [reflexivity |].
  destruct (String.eqb_spec key k) as [E | _].
  - exfalso. apply H. now left.
  - apply IH. intros Hin. apply H. now right.
Qed.

(** A level that is neither a tier nor a name found on [Object.prototype]
    gets the Intermediate persona. *)
Lemma getSystemPrompt_fallback (level : string) :
  ~ In level levels ->
  ~ In level Object_prototype_keys ->
  getSystemPrompt level = getSystemPrompt "Intermediate".
Proof.
  intros Hl Hp. unfold getSystemPrompt at 1, get_property at 1.
  rewrite (find_own_none prompts level Hl), (existsb_eqb_false _ _ Hp).
  reflexivity.
Qed.

End AdapterFacts.

(* ================================================================= *)
(** ** Properties of the specification *)

Module Claims.
Import Routes Spec Summary Samples.

(** C8.  A translate-word request that has word, targetLanguage and
    languageCode but lacks aiToken or provider is answered with HTTP 200 and
    [{success:false, error:"AI token and provider are required for
    translation"}].  The trace is returned unchanged, whatever the adapter
    is: the adapter is not called and no vendor is contacted. *)
Theorem translate_word_without_credentials
        (gen : AIServiceConfig -> TextGenerationParams -> M AIServiceResponse)
        (req : TranslateWordRequest) (tr : list Event) :
  has_required_fields req = true ->
  Js.truthy (aiToken req) = false \/ Js.truthy (tw_provider req) = false ->
  translate_word gen req tr =
  (Ret {| status := 200;
          body := {| tr_success := false; translation := None;
                     tr_error := Some "AI token and provider are required for translation" |} |},
   tr).
Proof.
  unfold has_required_fields. rewrite !andb_true_iff.
  intros [[Hw Ht] Hl] Hc. unfold translate_word.
  rewrite Hw, Ht, Hl. simpl negb. simpl orb. cbv iota.
  assert (negb (Js.truthy (aiToken req)) || negb (Js.truthy (tw_provider req))
          = true) as ->.
  { destruct Hc as [-> | ->]; simpl; [reflexivity | apply orb_true_r]. }
  reflexivity.
Qed.

Lemma translate_word_without_credentials_witness :
  app_translate_word happy_world (translation_request None None) [] =
  (Ret {| status := 200;
          body := {| tr_success := false; translation := None;
                     tr_error := Some "AI token and provider are required for translation" |} |},
   []).
Proof.
  apply (translate_word_without_credentials
           (AIService.generateText happy_world)
           (translation_request None None) []).
  - reflexivity.
  - left. reflexivity.
Defined.

(** C10.  Once translate-word reaches the AI-translation stage, a failure
    result of the adapter and an exception thrown by the adapter are both
    answered with HTTP 200, success=false and an error string that names
    the cause; whatever the adapter does, the status is 200. *)
Theorem translate_word_failures_answer_200
        (gen : AIServiceConfig -> TextGenerationParams -> M AIServiceResponse)
        (req : TranslateWordRequest) (tr : list Event) :
  reaches_translation req = true ->
  let call :=
    gen (translation_config req) (translation_params req)
        (tr ++ [EvAdapter (translation_config req) (translation_params req)])%list in
  (forall r tr', call = (Ret r, tr') -> sr_success r = false ->
     translate_word gen req tr =
     (Ret {| status := 200;
             body := {| tr_success := false; translation := None;
                        tr_error :=
                          Some ("Unable to translate " ++ Js.dquote
                                  ++ Js.value (word req) ++ Js.dquote ++ ". "
                                  ++ Js.interp (sr_error r)) |} |}, tr'))
  /\ (forall e tr', call = (Throw e, tr') ->
        translate_word gen req tr =
        (Ret {| status := 200;
                body := {| tr_success := false; translation := None;
                           tr_error :=
                             Some ("Translation error: "
                                     ++ match e with
                                        | ErrorObject message _ _ => message
                                        | _ => "Unknown error"
                                        end) |} |}, tr'))
  /\ (exists resp tr',
        translate_word gen req tr = (Ret resp, tr') /\ status resp = 200%Z).
Proof.
  intros Hr call. rewrite (GatewayFacts.translate_word_stage gen req tr Hr).
  fold call. unfold finish_translation. repeat split.
  - intros r tr' -> Hs. now rewrite Hs.
  - now intros e tr' ->.
  - destruct call as [[r|e] tr'].
    + destruct (sr_success r && Js.truthy (sr_text r)); eauto.
    + eauto.
Qed.

Lemma translate_word_failures_answer_200_witness :
  fst (translate_word (throwing_adapter (ErrorObject "socket hang up" None None))
                      (translation_request (Some "sk-x") (Some "openai")) [])
  = Ret {| status := 200;
           body := {| tr_success := false; translation := None;
                      tr_error := Some "Translation error: socket hang up" |} |}
  /\ fst (app_translate_word happy_world
                             (translation_request (Some "sk-x") (Some "cohere")) [])
     = Ret {| status := 200;
              body := {| tr_success := false; translation := None;
                         tr_error :=
                           Some ("Unable to translate " ++ Js.dquote ++ "hello"
                                   ++ Js.dquote
                                   ++ ". Cohere integration not yet implemented") |} |}.
Proof.
  split.
  - destruct (translate_word_failures_answer_200
                (throwing_adapter (ErrorObject "socket hang up" None None))
                (translation_request (Some "sk-x") (Some "openai")) []
                eq_refl) as [_ [Hthrow _]].
    rewrite (Hthrow _ _ eq_refl). reflexivity.
  - destruct (translate_word_failures_answer_200
                (AIService.generateText happy_world)
                (translation_request (Some "sk-x") (Some "cohere")) []
                eq_refl) as [Hfailure _].
    unfold app_translate_word.
    rewrite (Hfailure (AIService.failure "Cohere integration not yet implemented")
                      _ eq_refl eq_refl).
    reflexivity.
Defined.

(** C1 as stated fails for the 'gemini' tag: the vendor call fails (the
    adapter, asked the same thing in the same world, reports success=false),
    and generate-text answers HTTP 500 with a longer error string. *)
Lemma generate_text_gemini_failure_answers_500 :
  let w := failing_world (ErrorObject "Request failed with status code 429"
                                      (Some 429%Z)
                                      (Some "Resource has been exhausted")) in
  let req := generation_request "Elementary" "gemini" None in
  passes_validation req = true
  /\ fst (AIService.generateText w (generation_config req)
                                 (generation_params req) [])
     = Ret (AIService.failure "Request failed with status code 429")
  /\ fst (app_generate_text w req [])
     = Ret {| status := 500;
              body := ai_error "AI text generation failed: Resource has been exhausted. Please check your AI configuration and try again." |}.
Proof. repeat split. Qed.

(** C1, amended.  For a generate-text request that passes field validation:
    with a provider tag other than 'gemini', an adapter result with
    success=false is answered with HTTP 400 and the error string
    "AI text generation failed: {error}." ("Unknown error" standing in for
    an empty or missing error), and HTTP 500 is answered only when the
    adapter throws; with the tag 'gemini' the handler calls the vendor
    itself, and a failure of that call is answered with HTTP 500 and
    "AI text generation failed: {message}. Please check your AI
    configuration and try again." *)
Theorem generate_text_failure_status
        (w : World)
        (gen : AIServiceConfig -> TextGenerationParams -> M AIServiceResponse)
        (req : TextGenerationRequest) (tr : list Event) :
  passes_validation req = true ->
  let call :=
    gen (generation_config req) (generation_params req)
        (tr ++ [EvAdapter (generation_config req) (generation_params req)])%list in
  (provider req <> Some "gemini" ->
   (forall r tr', call = (Ret r, tr') -> sr_success r = false ->
      generate_text w gen req tr =
      (Ret {| status := 400;
              body := ai_error ("AI text generation failed: "
                                  ++ Js.or_else (sr_error r) "Unknown error"
                                  ++ ".") |}, tr'))
   /\ (forall resp tr',
         generate_text w gen req tr = (Ret resp, tr') -> status resp = 500%Z ->
         exists e tr'', call = (Throw e, tr'')))
  /\ (provider req = Some "gemini" ->
      forall e,
        axios_post w (gemini_url req) (gemini_body req) = Throw e ->
        e <> Nullish ->
        generate_text w gen req tr =
        (Ret {| status := 500;
                body := ai_error ("AI text generation failed: "
                                    ++ Js.interp (Js.or_opt (response_message_of e)
                                                            (message_of e))
                                    ++ ". Please check your AI configuration and try again.") |},
         (tr ++ [EvAxiosPost (gemini_url req) (gemini_body req)])%list)).
Proof.
  intros Hv call. split.
  - intros Hp. rewrite (GatewayFacts.generate_text_other w gen req tr Hv Hp).
    fold call. unfold finish_generation. split.
    + intros r tr' -> Hs. now rewrite Hs.
    + intros resp tr' E Hst. destruct call as [[r|e] tr0].
      * destruct (sr_success r && Js.truthy (sr_text r));
          injection E as <- _; simpl in Hst; discriminate.
      * eauto.
  - intros Hp e He Hn.
    rewrite (GatewayFacts.generate_text_gemini w gen req tr Hv Hp), He.
    unfold finish_gemini. destruct e; [reflexivity | reflexivity | congruence].
Qed.

Lemma generate_text_failure_status_witness :
  fst (app_generate_text textless_world
                         (generation_request "Elementary" "claude" None) [])
  = Ret {| status := 400;
           body := ai_error "AI text generation failed: No text generated from Claude." |}
  /\ app_generate_text
       (failing_world (ErrorObject "Request failed with status code 503"
                                   (Some 503%Z) None))
       (generation_request "Elementary" "gemini" None) []
     = (Ret {| status := 500;
               body := ai_error "AI text generation failed: Request failed with status code 503. Please check your AI configuration and try again." |},
        [ EvAxiosPost (gemini_url (generation_request "Elementary" "gemini" None))
                      (gemini_body (generation_request "Elementary" "gemini" None)) ]).
Proof.
  split.
  - destruct (generate_text_failure_status
                textless_world (AIService.generateText textless_world)
                (generation_request "Elementary" "claude" None) [] eq_refl)
      as [Hother _].
    destruct (Hother ltac:(discriminate)) as [Hfailure _].
    unfold app_generate_text.
    rewrite (Hfailure (AIService.failure "No text generated from Claude") _
                      eq_refl eq_refl).
    reflexivity.
  - destruct (generate_text_failure_status
                (failing_world (ErrorObject "Request failed with status code 503"
                                            (Some 503%Z) None))
                (AIService.generateText
                   (failing_world (ErrorObject "Request failed with status code 503"
                                               (Some 503%Z) None)))
                (generation_request "Elementary" "gemini" None) [] eq_refl)
      as [_ Hgemini].
    exact (Hgemini eq_refl _ eq_refl ltac:(discriminate)).
Defined.

(** C2 as stated fails in the generate-text handler for the 'gemini' tag: a
    well-formed vendor response with no first candidate makes the handler
    throw, and the throw is answered with HTTP 500. *)
Lemma generate_text_gemini_no_text_answers_500 :
  let req := generation_request "Elementary" "gemini" None in
  axios_post textless_world (gemini_url req) (gemini_body req)
  = Ret {| candidates := Some [] |}
  /\ ~ data_has_text {| candidates := Some [] |}
  /\ fst (app_generate_text textless_world req [])
     = Ret {| status := 500;
              body := ai_error "AI text generation failed: No text found in Gemini API response.. Please check your AI configuration and try again." |}.
Proof.
  repeat split.
  intros [c [cs [ct [p [ps [a [s [H _]]]]]]]]. discriminate.
Qed.

(** C2, amended.  When the vendor's response lacks the expected text path,
    the adapter (OpenAI, Claude and Gemini alike) returns success=false with
    a "No text generated from ..." message and throws nothing; generate-text
    then answers HTTP 400 and translate-word HTTP 200.  The generate-text
    handler's own 'gemini' branch does not go through the adapter: there a
    response without text is answered with HTTP 500 and success=false. *)
Theorem missing_text_is_reported (w : World) :
  (forall config params tr,
      lacks_text w (cfg_provider config) ->
      exists msg tr',
        AIService.generateText w config params tr
        = (Ret {| sr_success := false; sr_text := None; sr_error := Some msg |}, tr')
        /\ NoTextGenerated msg)
  /\ (forall req tr,
         passes_validation req = true ->
         provider req <> Some "gemini" ->
         lacks_text w (Js.value (provider req)) ->
         exists msg tr',
           app_generate_text w req tr
           = (Ret {| status := 400;
                     body := ai_error ("AI text generation failed: " ++ msg ++ ".") |},
              tr')
           /\ NoTextGenerated msg)
  /\ (forall req tr,
         reaches_translation req = true ->
         lacks_text w (Js.value (tw_provider req)) ->
         exists msg tr',
           app_translate_word w req tr
           = (Ret {| status := 200;
                     body := translate_error ("Unable to translate " ++ Js.dquote
                                                ++ Js.value (word req) ++ Js.dquote
                                                ++ ". " ++ msg) |},
              tr')
           /\ NoTextGenerated msg)
  /\ (forall req tr data,
         passes_validation req = true ->
         provider req = Some "gemini" ->
         axios_post w (gemini_url req) (gemini_body req) = Ret data ->
         ~ data_has_text data ->
         exists msg,
           app_generate_text w req tr
           = (Ret {| status := 500; body := ai_error msg |},
              (tr ++ [EvAxiosPost (gemini_url req) (gemini_body req)])%list)).
Proof.
  split; [| split; [| split]].
  - intros config params tr H.
    exact (@AdapterFacts.generateText_no_text w config params tr H).
  - intros req tr Hv Hp Hl. unfold app_generate_text.
    rewrite (GatewayFacts.generate_text_other w _ req tr Hv Hp).
    destruct (@AdapterFacts.generateText_no_text
                w (generation_config req) (generation_params req)
                (tr ++ [EvAdapter (generation_config req) (generation_params req)])
                Hl) as [msg [tr' [-> Hmsg]]].
    exists msg, tr'. split; [| exact Hmsg].
    destruct Hmsg as [vendor ->]. reflexivity.
  - intros req tr Hr Hl. unfold app_translate_word.
    rewrite (GatewayFacts.translate_word_stage _ req tr Hr).
    destruct (@AdapterFacts.generateText_no_text
                w (translation_config req) (translation_params req)
                (tr ++ [EvAdapter (translation_config req) (translation_params req)])
                Hl) as [msg [tr' [-> Hmsg]]].
    exists msg, tr'. split; [reflexivity | exact Hmsg].
  - intros req tr data Hv Hp Hd Hno. unfold app_generate_text.
    rewrite (GatewayFacts.generate_text_gemini w _ req tr Hv Hp), Hd.
    unfold finish_gemini, gemini_generatedText.
    destruct (candidates data) as [[|c cs]|] eqn:Ec;
      [eexists; reflexivity | | eexists; reflexivity].
    destruct (candidate_content c) as [ct|] eqn:Ect; [| eexists; reflexivity].
    destruct (parts ct) as [[|part ps]|] eqn:Ep;
      [eexists; reflexivity | | eexists; reflexivity].
    destruct (part_text part) as [[|a t]|] eqn:Et;
      [eexists; reflexivity | | eexists; reflexivity].
    exfalso. apply Hno. now exists c, cs, ct, part, ps, a, t.
Qed.

Lemma missing_text_is_reported_witness :
  (exists msg tr',
      AIService.generateText textless_world
        {| cfg_provider := "gemini"; cfg_apiKey := "sk-x"; cfg_model := None |}
        {| p_level := "Elementary"; p_prompt := "Say hi"; p_maxTokens := None |} []
      = (Ret {| sr_success := false; sr_text := None; sr_error := Some msg |}, tr')
      /\ NoTextGenerated msg)
  /\ (exists msg tr',
         app_generate_text textless_world
                           (generation_request "Elementary" "openai" None) []
         = (Ret {| status := 400;
                   body := ai_error ("AI text generation failed: " ++ msg ++ ".") |},
            tr')
         /\ NoTextGenerated msg)
  /\ (exists msg tr',
         app_translate_word textless_world
                            (translation_request (Some "sk-x") (Some "claude")) []
         = (Ret {| status := 200;
                   body := translate_error ("Unable to translate " ++ Js.dquote
                                              ++ "hello" ++ Js.dquote ++ ". " ++ msg) |},
            tr')
         /\ NoTextGenerated msg)
  /\ (exists msg,
         app_generate_text textless_world
                           (generation_request "Elementary" "gemini" None) []
         = (Ret {| status := 500; body := ai_error msg |},
            [EvAxiosPost (gemini_url (generation_request "Elementary" "gemini" None))
                         (gemini_body (generation_request "Elementary" "gemini" None))])).
Proof.
  destruct (missing_text_is_reported textless_world)
    as [Hadapter [Hgenerate [Htranslate Hgemini]]].
  assert (lacks_text textless_world "openai") as Hopenai.
  { apply lacks_openai. intros key req.
    exists {| choices := [] |}. split; [reflexivity |].
    intros [first [rest [a [s [H _]]]]]. discriminate. }
  assert (lacks_text textless_world "claude") as Hclaude.
  { apply lacks_claude. intros key req.
    exists {| message_content := [ ToolUseBlock "toolu_1" "lookup" ] |}.
    split; [reflexivity |].
    intros [text [H | []]]. discriminate. }
  assert (lacks_text textless_world "gemini") as Hsdk.
  { apply lacks_gemini. intros key model prompt.
    exists {| response_text := Ret EmptyString |}. split; reflexivity. }
  split; [| split; [| split]].
  - apply Hadapter. exact Hsdk.
  - apply Hgenerate; [reflexivity | discriminate | exact Hopenai].
  - apply (Htranslate (translation_request (Some "sk-x") (Some "claude")) []);
      [reflexivity | exact Hclaude].
  - apply (Hgemini (generation_request "Elementary" "gemini" None) []
                   {| candidates := Some [] |}); try reflexivity.
    intros [c [cs [ct [p [ps [a [s [H _]]]]]]]]. discriminate.
Defined.

(** C3 as stated fails for the 'gemini' tag of generate-text: with a custom
    prompt the handler makes no adapter call at all, so no budget of 200 is
    sent; the only outbound call is the HTTP post, whose body holds the
    prompt and nothing else. *)
Lemma generate_text_gemini_sends_no_budget :
  let req := generation_request "Advanced" "gemini" (Some "Say hi") in
  passes_validation req = true
  /\ snd (app_generate_text happy_world req [])
     = [ EvAxiosPost
           "https://generativelanguage.googleapis.com/v1/models/some-model:generateContent?key=sk-x"
           {| contents := [ {| parts := Some [ {| part_text := Some "Say hi" |} ] |} ] |} ]
  /\ adapter_budgets (snd (app_generate_text happy_world req [])) = []
  /\ adapter_budgets (snd (app_generate_text happy_world req [])) <> [Some 200%Z].
Proof. repeat split. discriminate. Qed.

(** C3, amended.  For a generate-text request with a provider tag other
    than 'gemini', the adapter is called once more and the budget of that
    call is 200 when a custom prompt is supplied, 700 for level 'Advanced'
    without one and 500 for every other level without one.  Every
    translate-word request that reaches the translation stage calls the
    adapter with a budget of 50, for every provider tag.  A generate-text
    request with the tag 'gemini' makes one HTTP post and no adapter call,
    so it sends no budget. *)
Theorem token_budgets (w : World) :
  (forall req tr,
      passes_validation req = true ->
      provider req <> Some "gemini" ->
      let sent := adapter_budgets (snd (app_generate_text w req tr)) in
      (Js.truthy (customPrompt req) = true ->
       sent = (adapter_budgets tr ++ [Some 200%Z])%list)
      /\ (Js.truthy (customPrompt req) = false ->
          level req = Some "Advanced" ->
          sent = (adapter_budgets tr ++ [Some 700%Z])%list)
      /\ (Js.truthy (customPrompt req) = false ->
          level req <> Some "Advanced" ->
          sent = (adapter_budgets tr ++ [Some 500%Z])%list))
  /\ (forall req tr,
         reaches_translation req = true ->
         adapter_budgets (snd (app_translate_word w req tr))
         = (adapter_budgets tr ++ [Some 50%Z])%list)
  /\ (forall req tr,
         passes_validation req = true ->
         provider req = Some "gemini" ->
         snd (app_generate_text w req tr)
         = (tr ++ [EvAxiosPost (gemini_url req) (gemini_body req)])%list
         /\ adapter_budgets (snd (app_generate_text w req tr)) = adapter_budgets tr).
Proof.
  split; [| split].
  - intros req tr Hv Hp sent.
    assert (sent = (adapter_budgets tr
                      ++ [Some (maxTokens_for (Js.value (level req))
                                              (customPrompt req))])%list) as ->.
    { unfold sent, app_generate_text.
      rewrite (GatewayFacts.generate_text_other w _ req tr Hv Hp).
      rewrite GatewayFacts.snd_finish_generation.
      apply AdapterFacts.adapter_budgets_after_call. }
    unfold maxTokens_for. repeat split.
    + now intros ->.
    + intros -> ->. reflexivity.
    + intros -> Hl.
      assert (String.eqb (Js.value (level req)) "Advanced" = false) as ->;
        [| reflexivity].
      apply String.eqb_neq. intros E. apply Hl.
      unfold passes_validation in Hv. rewrite !andb_true_iff in Hv.
      destruct Hv as [[[Hlv _] _] _].
      rewrite (JsFacts.truthy_value _ Hlv). now rewrite E.
  - intros req tr Hr. unfold app_translate_word.
    rewrite (GatewayFacts.translate_word_stage _ req tr Hr).
    rewrite GatewayFacts.snd_finish_translation.
    apply (AdapterFacts.adapter_budgets_after_call
             w (translation_config req) (translation_params req) tr).
  - intros req tr Hv Hp. unfold app_generate_text.
    rewrite (GatewayFacts.generate_text_gemini w _ req tr Hv Hp).
    rewrite GatewayFacts.snd_finish_gemini. split; [reflexivity |].
    rewrite AdapterFacts.adapter_budgets_app. simpl. apply app_nil_r.
Qed.

Lemma token_budgets_witness :
  adapter_budgets
    (snd (app_generate_text happy_world
                            (generation_request "Advanced" "openai" None) []))
  = [Some 700%Z]
  /\ adapter_budgets
       (snd (app_generate_text happy_world
                               (generation_request "Advanced" "claude" (Some "Say hi")) []))
     = [Some 200%Z]
  /\ adapter_budgets
       (snd (app_generate_text happy_world
                               (generation_request "Intermediate" "cohere" None) []))
     = [Some 500%Z]
  /\ adapter_budgets
       (snd (app_translate_word happy_world
                                (translation_request (Some "sk-x") (Some "gemini")) []))
     = [Some 50%Z]
  /\ adapter_budgets
       (snd (app_generate_text happy_world
                               (generation_request "Advanced" "gemini" None) []))
     = [].
Proof.
  destruct (token_budgets happy_world) as [Hgenerate [Htranslate Hgemini]].
  split; [| split; [| split; [| split]]].
  - destruct (Hgenerate (generation_request "Advanced" "openai" None) []
                        eq_refl ltac:(discriminate)) as [_ [Hadvanced _]].
    exact (Hadvanced eq_refl eq_refl).
  - destruct (Hgenerate (generation_request "Advanced" "claude" (Some "Say hi")) []
                        eq_refl ltac:(discriminate)) as [Hcustom _].
    exact (Hcustom eq_refl).
  - destruct (Hgenerate (generation_request "Intermediate" "cohere" None) []
                        eq_refl ltac:(discriminate)) as [_ [_ Hother]].
    exact (Hother eq_refl ltac:(discriminate)).
  - exact (Htranslate (translation_request (Some "sk-x") (Some "gemini")) [] eq_refl).
  - destruct (Hgemini (generation_request "Advanced" "gemini" None) []
                      eq_refl eq_refl) as [_ Hnone].
    exact Hnone.
Defined.

(** C4 as stated fails when the message also matches a credential
    pattern, which the classifier tests first: the message below contains
    "rate limit", and the adapter's answer is the invalid-key message, which
    does not contain "rate limit exceeded". *)
Lemma rate_limit_message_classified_as_credential :
  let e := ErrorObject "Unauthorized: rate limit reached" None None in
  Js.lower_contains "Unauthorized: rate limit reached" "rate limit"
  /\ fst (AIService.generateText
            (failing_world e)
            {| cfg_provider := "openai"; cfg_apiKey := "sk-x"; cfg_model := None |}
            {| p_level := "Elementary"; p_prompt := "Say hi"; p_maxTokens := None |}
            [])
     = Ret (AIService.failure
              "Invalid OPENAI API key. Please check your API key and try again.")
  /\ ~ Js.contains
         "Invalid OPENAI API key. Please check your API key and try again."
         "rate limit exceeded".
Proof.
  split; [| split].
  - apply JsFacts.lower_contains_iff. reflexivity.
  - reflexivity.
  - apply JsFacts.includes_false_iff. reflexivity.
Qed.

(** C4, amended.  Let the SDK of one of the providers 'openai', 'claude'
    and 'gemini' throw an [Error] whose message, lower-cased, contains
    "rate limit" and none of the credential patterns "api key not valid",
    "invalid api key", "api_key_invalid" and "unauthorized", and whose
    status, for 'openai' and 'claude', is not 401 (those the vendor method
    answers itself, with its own invalid-key message).  Then [generateText]
    returns the failure "{PROVIDER} rate limit exceeded. Please try again in
    a few minutes.": its error contains "rate limit exceeded" and the
    upper-cased provider name. *)
Theorem rate_limit_classification
        (w : World) (config : AIServiceConfig) (params : TextGenerationParams)
        (tr : list Event) (message : string) (status : option Z)
        (response_message : option string) :
  vendor_throws w (ErrorObject message status response_message)
                (cfg_provider config) ->
  (cfg_provider config <> "gemini" -> status <> Some 401%Z) ->
  Js.lower_contains message "rate limit" ->
  (forall p, In p More.credential_patterns -> ~ Js.lower_contains message p) ->
  let userMessage :=
    Js.toUpperCase (cfg_provider config)
      ++ " rate limit exceeded. Please try again in a few minutes." in
  fst (AIService.generateText w config params tr)
  = Ret {| sr_success := false; sr_text := None; sr_error := Some userMessage |}
  /\ Js.contains userMessage "rate limit exceeded"
  /\ Js.contains userMessage (Js.toUpperCase (cfg_provider config)).
Proof.
  intros Hw Hs Hrate Hcred userMessage.
  split; [| split].
  - assert (forall provider,
               AIService.userMessage
                 provider (ErrorObject message status response_message)
               = Js.toUpperCase provider
                   ++ " rate limit exceeded. Please try again in a few minutes.")
      as Hum.
    { intros provider. unfold AIService.userMessage.
      apply JsFacts.lower_contains_iff in Hrate.
      assert (forall p, In p More.credential_patterns ->
                        Js.includes (Js.toLowerCase message) p = false) as F
          by (intros p Hp; now apply JsFacts.lower_contains_false_iff, Hcred).
      rewrite !F by (simpl; tauto). now rewrite Hrate. }
    assert (Js.includes message "API key not valid" = false) as Hkey.
    { destruct (Js.includes message "API key not valid") eqn:E; [| reflexivity].
      exfalso. apply (Hcred "api key not valid"); [simpl; tauto |].
      apply JsFacts.includes_iff in E.
      exact (JsFacts.contains_lower_contains message "API key not valid" eq_refl E). }
    unfold userMessage.
    inversion Hw as [Hcall Hp | Hcall Hp | Hcall Hp | Hcall Hp]; symmetry in Hp.
    + rewrite (AdapterFacts.generateText_openai_throws
                 w config params tr _ Hp Hcall), Hum; [reflexivity |].
      apply Hs. rewrite Hp. discriminate.
    + rewrite (AdapterFacts.generateText_claude_throws
                 w config params tr _ Hp Hcall), Hum; [reflexivity |].
      apply Hs. rewrite Hp. discriminate.
    + unfold AIService.generateText. rewrite Hp. simpl String.eqb. cbv iota.
      unfold AIService.generateWithGemini. unfold_monad. rewrite Hcall.
      cbn [status_of message_of]. rewrite Hkey, andb_false_r.
      cbn [fst]. rewrite Hum. reflexivity.
    + unfold AIService.generateText. rewrite Hp. simpl String.eqb. cbv iota.
      unfold AIService.generateWithGemini. unfold_monad.
      match goal with
      | |- context [gemini_generateContent w ?k ?m ?q] =>
          destruct (Hcall k m q) as [r [-> ->]]
      end.
      cbn [status_of message_of]. rewrite Hkey, andb_false_r.
      cbn [fst]. rewrite Hum. reflexivity.
  - apply JsFacts.contains_app_r.
    now exists " ", ". Please try again in a few minutes.".
  - apply JsFacts.contains_prefix.
Qed.

Lemma rate_limit_classification_witness :
  fst (AIService.generateText
         (failing_world
            (ErrorObject "429 Rate limit reached for requests" (Some 429%Z) None))
         {| cfg_provider := "claude"; cfg_apiKey := "sk-x"; cfg_model := None |}
         {| p_level := "Elementary"; p_prompt := "Say hi"; p_maxTokens := None |}
         [])
  = Ret {| sr_success := false; sr_text := None;
           sr_error :=
             Some "CLAUDE rate limit exceeded. Please try again in a few minutes." |}
  /\ Js.contains "CLAUDE rate limit exceeded. Please try again in a few minutes."
                 "rate limit exceeded"
  /\ Js.contains "CLAUDE rate limit exceeded. Please try again in a few minutes."
                 "CLAUDE".
Proof.
  apply (rate_limit_classification
           (failing_world
              (ErrorObject "429 Rate limit reached for requests" (Some 429%Z) None))
           {| cfg_provider := "claude"; cfg_apiKey := "sk-x"; cfg_model := None |}
           {| p_level := "Elementary"; p_prompt := "Say hi"; p_maxTokens := None |}
           [] "429 Rate limit reached for requests" (Some 429%Z) None).
  - apply throws_claude. intros key req. reflexivity.
  - intros _. discriminate.
  - apply JsFacts.lower_contains_iff. reflexivity.
  - intros p Hin. apply JsFacts.lower_contains_false_iff.
    simpl in Hin.
    repeat (destruct Hin as [<- | Hin]; [reflexivity |]).
    destruct Hin.
Defined.

(** C5.  The envelope invariant is broken on two paths.  translate-word
    tests the adapter's text before trimming it, so a text of white space
    only is answered with success=true and an empty translation; and
    [generateWithClaude], unlike its OpenAI and Gemini siblings, does not
    test the text of the block it found, so an empty text block gives
    success=true with an empty text. *)
Theorem blank_text_breaks_envelope_invariant :
  fst (app_translate_word blank_world
                          (translation_request (Some "sk-x") (Some "openai")) [])
  = Ret {| status := 200;
           body := {| tr_success := true; translation := Some EmptyString;
                      tr_error := None |} |}
  /\ ~ translation_invariant
         {| tr_success := true; translation := Some EmptyString; tr_error := None |}
  /\ fst (AIService.generateText
            blank_world
            {| cfg_provider := "claude"; cfg_apiKey := "sk-x"; cfg_model := None |}
            {| p_level := "Elementary"; p_prompt := "Say hi"; p_maxTokens := None |}
            [])
     = Ret {| sr_success := true; sr_text := Some EmptyString; sr_error := None |}
  /\ ~ result_invariant
         {| sr_success := true; sr_text := Some EmptyString; sr_error := None |}.
Proof.
  split; [reflexivity | split; [| split; [reflexivity |]]].
  - intros [H _]. specialize (H eq_refl). discriminate.
  - intros [H _]. specialize (H eq_refl). discriminate.
Qed.

(** C6.  For each of the five levels, without a custom prompt, the built
    prompt is the template filled with the word-count range of the table of
    section 4.1: it contains the line with that range, and of the five
    ranges of the table it contains that one only. *)
Theorem word_count_matches_table
        (level range : string) (customPrompt : option string) :
  In (level, range) word_count_table ->
  Js.truthy customPrompt = false ->
  buildPrompt level customPrompt = prompt_template level
  /\ word_count level = range
  /\ Js.contains (buildPrompt level customPrompt)
                 ("- Text should be approximately " ++ range ++ " words.")
  /\ (forall other,
         In other (map snd word_count_table) ->
         Js.contains (buildPrompt level customPrompt) other ->
         other = range).
Proof.
  intros Hin Hc. unfold buildPrompt. rewrite Hc.
  simpl in Hin.
  destruct Hin as [E | [E | [E | [E | [E | []]]]]];
    injection E as <- <-;
    (split; [reflexivity | split; [reflexivity | split]]);
    try (apply JsFacts.includes_iff; vm_compute; reflexivity);
    intros other Ho Hother; simpl in Ho;
    destruct Ho as [<- | [<- | [<- | [<- | [<- | []]]]]];
    try reflexivity;
    apply JsFacts.includes_iff in Hother; vm_compute in Hother; discriminate.
Qed.

Lemma word_count_matches_table_witness :
  buildPrompt "Upper-Intermediate" None = prompt_template "Upper-Intermediate"
  /\ word_count "Upper-Intermediate" = "300-400"
  /\ Js.contains (buildPrompt "Upper-Intermediate" None)
                 ("- Text should be approximately " ++ "300-400" ++ " words.")
  /\ (forall other,
         In other (map snd word_count_table) ->
         Js.contains (buildPrompt "Upper-Intermediate" None) other ->
         other = "300-400").
Proof.
  apply (word_count_matches_table "Upper-Intermediate" "300-400" None).
  - simpl. right. right. right. left. reflexivity.
  - reflexivity.
Defined.

(** C7.  [getSystemPrompt] reads [prompts[level]] before falling back, and
    an object literal also answers for the names it inherits from
    [Object.prototype].  For the level "constructor", which is not one of
    the five tiers, the result is that inherited member and not the
    Intermediate persona; generate-text passes it on to the vendor as the
    system message. *)
Theorem getSystemPrompt_inherited_member :
  ~ In "constructor" levels
  /\ AIService.getSystemPrompt "constructor" = VInherited "constructor"
  /\ AIService.getSystemPrompt "constructor"
     <> AIService.getSystemPrompt "Intermediate"
  /\ exists adapter_call user_message,
      snd (app_generate_text happy_world
                             (generation_request "constructor" "openai" None) [])
      = [ adapter_call;
          EvOpenAI "sk-x"
                   {| chat_model := "some-model";
                      chat_messages :=
                        [ {| role := "system"; content := VInherited "constructor" |};
                          user_message ];
                      chat_max_tokens := 500;
                      chat_temperature_tenths := 7 |} ].
Proof.
  split; [| split; [reflexivity | split; [discriminate |]]].
  - simpl. intros [H | [H | [H | [H | [H | []]]]]]; discriminate.
  - eexists. eexists. reflexivity.
Qed.

(** C9.  When a generate-text request that passes validation supplies a
    custom prompt (a non-empty string), the prompt built is that string
    itself, and it is the prompt carried by the outbound call the handler
    makes next (the adapter call, or the HTTP post for the 'gemini' tag). *)
Theorem custom_prompt_is_sent_verbatim
        (w : World) (req : TextGenerationRequest) (tr : list Event)
        (custom : string) :
  passes_validation req = true ->
  customPrompt req = Some custom ->
  custom <> EmptyString ->
  buildPrompt (Js.value (level req)) (customPrompt req) = custom
  /\ exists ev rest,
      snd (app_generate_text w req tr) = (tr ++ ev :: rest)%list
      /\ prompt_sent ev = [custom].
Proof.
  intros Hv Hc Hne.
  assert (buildPrompt (Js.value (level req)) (customPrompt req) = custom) as Hb.
  { unfold buildPrompt. rewrite Hc. destruct custom; [congruence | reflexivity]. }
  split; [exact Hb |].
  unfold app_generate_text.
  assert (provider req = Some "gemini" \/ provider req <> Some "gemini")
    as [Hp | Hp].
  { destruct (provider req) as [tag|]; [| right; discriminate].
    destruct (string_dec tag "gemini") as [-> | Hn];
      [left; reflexivity | right; congruence]. }
  - rewrite (GatewayFacts.generate_text_gemini w _ req tr Hv Hp).
    rewrite GatewayFacts.snd_finish_gemini.
    exists (EvAxiosPost (gemini_url req) (gemini_body req)), [].
    split; [reflexivity |]. simpl. now rewrite Hb.
  - rewrite (GatewayFacts.generate_text_other w _ req tr Hv Hp).
    rewrite GatewayFacts.snd_finish_generation.
    destruct (AdapterFacts.generateText_trace
                w (generation_config req) (generation_params req)
                (tr ++ [EvAdapter (generation_config req) (generation_params req)]))
      as [r [evs [-> _]]].
    exists (EvAdapter (generation_config req) (generation_params req)), evs.
    split; [simpl; now rewrite <- app_assoc |]. simpl. now rewrite Hb.
Qed.

Lemma custom_prompt_is_sent_verbatim_witness :
  buildPrompt "Advanced" (Some "Say hi") = "Say hi"
  /\ exists ev rest,
      snd (app_generate_text happy_world
                             (generation_request "Advanced" "gemini" (Some "Say hi")) [])
      = ([] ++ ev :: rest)%list
      /\ prompt_sent ev = ["Say hi"].
Proof.
  apply (custom_prompt_is_sent_verbatim
           happy_world (generation_request "Advanced" "gemini" (Some "Say hi")) []
           "Say hi").
  - reflexivity.
  - reflexivity.
  - discriminate.
Defined.

End Claims.

(* ================================================================= *)
(** ** Further properties of the gateway *)

Module TrimFacts.
Import Js More.

Lemma strip_prefix_spec (p s t : string) :
  strip_prefix p s = Some t <-> s = p ++ t.
Proof.
  revert s; induction p as [|a p IH]; intros s; simpl.
  - split; [now intros [= ->] | now intros ->].
  - destruct s as [|b s].
    + split; discriminate.
    + destruct (Ascii.eqb_spec a b) as [-> | Hab].
      * rewrite IH. split; [now intros -> | now intros [= ->]].
      * split; [discriminate | intros [= E _]; congruence].
Qed.

Lemma strip_any_spec (ps : list string) (s t : string) :
  strip_any ps s = Some t -> exists p, In p ps /\ s = p ++ t.
Proof.
  induction ps as [|p ps IH]; simpl; [discriminate |].
  destruct (strip_prefix p s) as [u|] eqn:E.
  - intros [= ->]. exists p. split; [now left | now apply strip_prefix_spec].
  - intros H. destruct (IH H) as [q [Hq Hs]]. exists q. split; [now right | exact Hs].
Qed.

Lemma whitespace_not_empty (p : string) :
  In p whitespace -> (1 <= String.length p)%nat.
Proof.
  intros H.
  assert (forallb (fun p => (1 <=? String.length p)%nat) whitespace = true) as F
      by reflexivity.
  rewrite forallb_forall in F. now apply Nat.leb_le, F.
Qed.

Lemma length_append (a b : string) :
  String.length (a ++ b) = (String.length a + String.length b)%nat.
Proof. induction a as [|c a IH]; simpl; [reflexivity | now rewrite IH]. Qed.

(** What follows a white-space character is shorter. *)
Lemma strip_space_shorter (s t : string) :
  strip_space s = Some t -> (String.length t < String.length s)%nat.
Proof.
  intros H. apply strip_any_spec in H as [p [Hp ->]].
  apply whitespace_not_empty in Hp. rewrite length_append. lia.
Qed.

(** No white-space character is the start of another: the character that
    starts a string is found whatever follows it. *)
Lemma strip_space_app (p t : string) :
  In p whitespace -> strip_space (p ++ t) = Some t.
Proof.
  intros H. simpl in H.
  repeat (destruct H as [<- | H]; [reflexivity |]).
  destruct H.
Qed.

Lemma starts_with_space_iff (s : string) :
  starts_with_space s = true <-> exists p t, In p whitespace /\ s = p ++ t.
Proof.
  unfold starts_with_space. split.
  - destruct (strip_space s) as [t|] eqn:E; [| discriminate].
    intros _. apply strip_any_spec in E as [p [Hp Hs]]. now exists p, t.
  - intros [p [t [Hp ->]]]. now rewrite strip_space_app.
Qed.

Lemma trimStart_upto_enough (n m : nat) (s : string) :
  (String.length s <= n)%nat -> (String.length s <= m)%nat ->
  trimStart_upto n s = trimStart_upto m s.
Proof.
  revert m s; induction n as [|n IH]; intros m s Hn Hm.
  - destruct s; [| simpl in Hn; lia]. now destruct m.
  - destruct m as [|m].
    + destruct s; [reflexivity | simpl in Hm; lia].
    + simpl. destruct (strip_space s) as [t|] eqn:E; [| reflexivity].
      apply strip_space_shorter in E. apply IH; lia.
Qed.

Lemma trimStart_step (s t : string) :
  strip_space s = Some t -> trimStart s = trimStart t.
Proof.
  intros E. unfold trimStart.
  pose proof (strip_space_shorter s t E) as Hlt.
  destruct (String.length s) as [|n] eqn:El; [lia |].
  simpl. rewrite E. apply trimStart_upto_enough; lia.
Qed.

Lemma trimStart_fixed (s : string) :
  strip_space s = None -> trimStart s = s.
Proof.
  intros E. unfold trimStart.
  destruct (String.length s); simpl; [reflexivity | now rewrite E].
Qed.

Lemma trimStart_upto_no_leading_space (n : nat) (s : string) :
  (String.length s <= n)%nat ->
  starts_with_space (trimStart_upto n s) = false.
Proof.
  revert s; induction n as [|n IH]; intros s Hn.
  - destruct s; [reflexivity | simpl in Hn; lia].
  - simpl. destruct (strip_space s) as [t|] eqn:E.
    + apply strip_space_shorter in E. apply IH. lia.
    + unfold starts_with_space. now rewrite E.
Qed.

Lemma trimStart_no_leading_space (s : string) :
  starts_with_space (trimStart s) = false.
Proof. apply trimStart_upto_no_leading_space. lia. Qed.

(** What [trimEnd] drops is white space only. *)
Lemma trimEnd_split (s : string) :
  exists w, s = trimEnd s ++ w /\ trimStart w = EmptyString.
Proof.
  induction s as [|c t [w [Ht Hw]]].
  - now exists EmptyString.
  - cbn [trimEnd]. destruct (trimStart (String c t)) as [|d r] eqn:E.
    + now exists (String c t).
    + exists w. split; [| exact Hw]. simpl. now rewrite <- Ht.
Qed.

Lemma endsWith_empty (p : string) :
  p <> EmptyString -> endsWith EmptyString p = false.
Proof. destruct p; [congruence | reflexivity]. Qed.

Lemma trimEnd_no_trailing_space (s : string) :
  ends_with_space (trimEnd s) = false.
Proof.
  unfold ends_with_space.
  destruct (existsb (endsWith (trimEnd s)) whitespace) eqn:Ex; [| reflexivity].
  exfalso. apply existsb_exists in Ex as [p [Hp He]].
  assert (p <> EmptyString) as Hne
      by (intros ->; apply whitespace_not_empty in Hp; simpl in Hp; lia).
  revert He. induction s as [|c t IH].
  - simpl trimEnd. now rewrite endsWith_empty.
  - cbn [trimEnd]. destruct (trimStart (String c t)) as [|d r] eqn:E.
    + now rewrite endsWith_empty.
    + cbn [endsWith].
      destruct (String.eqb_spec (String c (trimEnd t)) p) as [Ep | _];
        [| exact IH].
      intros _. destruct (trimEnd_split t) as [w [Ht Hw]].
      assert (String c t = p ++ w) as Es
          by (rewrite <- Ep; simpl; now rewrite <- Ht).
      rewrite Es, (trimStart_step _ w (strip_space_app p w Hp)), Hw in E.
      discriminate.
Qed.

Lemma trimEnd_keeps_first (s : string) :
  starts_with_space s = false -> starts_with_space (trimEnd s) = false.
Proof.
  intros Hs.
  destruct (starts_with_space (trimEnd s)) eqn:E; [| reflexivity].
  apply starts_with_space_iff in E as [p [t [Hp Et]]].
  destruct (trimEnd_split s) as [w [Hsplit _]].
  rewrite Et, JsFacts.append_assoc in Hsplit.
  assert (starts_with_space s = true) as F
      by (apply starts_with_space_iff; now exists p, (t ++ w)).
  congruence.
Qed.

(** Each of the white-space characters is stripped at both ends, and kept
    inside. *)
Example trim_strips_every_white_space :
  forallb (fun p => String.eqb (trim (p ++ "a" ++ p ++ "b" ++ p))
                               ("a" ++ p ++ "b"))
          whitespace
  = true.
Proof. reflexivity. Qed.

Example trim_of_white_space_only :
  trim (bytes [194; 160]) = EmptyString
  /\ trim (bytes [227; 128; 128]) = EmptyString
  /\ trim (bytes [239; 187; 191; 32; 226; 128; 168]) = EmptyString.
Proof. repeat split. Qed.

Lemma trim_no_surrounding_space (s : string) :
  starts_with_space (trim s) = false /\ ends_with_space (trim s) = false.
Proof.
  unfold trim. split.
  - apply trimEnd_keeps_first, trimStart_no_leading_space.
  - apply trimEnd_no_trailing_space.
Qed.

End TrimFacts.

Module GatewayExtras.
Import Routes Spec Summary Samples More.

(** X1.  validate-token looks at nothing but whether the token is a non-empty
    string: any such token gets HTTP 200 with success=true and the welcome
    message "Hello! I am your personal English teacher. I am ready to help
    you learn. Please select your proficiency level to begin.", a missing or
    empty one gets HTTP 400 with "API token is required", and in both cases
    the trace is unchanged, so the token is never checked with a vendor. *)
Theorem validate_token_checks_presence_only
        (apiToken : option string) (tr : list Event) :
  validate_token apiToken tr
  = (Ret (if Js.truthy apiToken
          then {| status := 200;
                  body := {| success := true; text := None;
                             message := Some "Hello! I am your personal English teacher. I am ready to help you learn. Please select your proficiency level to begin.";
                             error := None |} |}
          else {| status := 400;
                  body := {| success := false; text := None; message := None;
                             error := Some "API token is required" |} |}),
     tr).
Proof.
  unfold validate_token. unfold_monad.
  destruct (Js.truthy apiToken); reflexivity.
Qed.

(** X2.  A generate-text request in which level, apiToken, provider or model
    is missing or empty is answered with HTTP 400 and the fixed message, and
    the trace is unchanged whatever the adapter and the world are: nothing
    is called. *)
Theorem generate_text_missing_field
        (w : World)
        (gen : AIServiceConfig -> TextGenerationParams -> M AIServiceResponse)
        (req : TextGenerationRequest) (tr : list Event) :
  passes_validation req = false ->
  generate_text w gen req tr =
  (Ret {| status := 400;
          body := {| success := false; text := None; message := None;
                     error := Some "Level, API token, provider, and model are required" |} |},
   tr).
Proof.
  intros Hv. unfold generate_text.
  now rewrite (GatewayFacts.passes_validation_false_guard req Hv).
Qed.

Lemma generate_text_missing_field_witness :
  app_generate_text happy_world
    {| level := Some "Advanced"; apiToken := Some "sk-x";
       provider := Some "openai"; model := Some EmptyString;
       customPrompt := None |} []
  = (Ret {| status := 400;
            body := {| success := false; text := None; message := None;
                       error := Some "Level, API token, provider, and model are required" |} |},
     []).
Proof.
  apply (generate_text_missing_field
           happy_world (AIService.generateText happy_world)
           {| level := Some "Advanced"; apiToken := Some "sk-x";
              provider := Some "openai"; model := Some EmptyString;
              customPrompt := None |} []).
  reflexivity.
Defined.

(** X3.  generate-text always answers (no exception leaves the handler), the
    status is 200, 400 or 500, the status is 200 exactly when the envelope
    says success=true, a success carries a non-empty text and a failure
    carries an error; this holds for every adapter, world and request. *)
Theorem generate_text_always_answers
        (w : World)
        (gen : AIServiceConfig -> TextGenerationParams -> M AIServiceResponse)
        (req : TextGenerationRequest) (tr : list Event) :
  exists resp tr',
    generate_text w gen req tr = (Ret resp, tr')
    /\ (status resp = 200%Z \/ status resp = 400%Z \/ status resp = 500%Z)
    /\ (status resp = 200%Z <-> success (body resp) = true)
    /\ (success (body resp) = true -> Js.truthy (text (body resp)) = true)
    /\ (success (body resp) = false -> error (body resp) <> None).
Proof.
  assert (forall n msg,
             (n = 400%Z \/ n = 500%Z) ->
             let resp := {| status := n; body := ai_error msg |} in
             (status resp = 200%Z \/ status resp = 400%Z \/ status resp = 500%Z)
             /\ (status resp = 200%Z <-> success (body resp) = true)
             /\ (success (body resp) = true -> Js.truthy (text (body resp)) = true)
             /\ (success (body resp) = false -> error (body resp) <> None))
    as Hfail.
  { intros n msg Hn. simpl. repeat split; try discriminate.
    - destruct Hn as [-> | ->]; auto.
    - destruct Hn as [-> | ->]; discriminate. }
  assert (forall t,
             Js.truthy t = true ->
             let resp := {| status := 200; body := ai_text (Js.value t) |} in
             (status resp = 200%Z \/ status resp = 400%Z \/ status resp = 500%Z)
             /\ (status resp = 200%Z <-> success (body resp) = true)
             /\ (success (body resp) = true -> Js.truthy (text (body resp)) = true)
             /\ (success (body resp) = false -> error (body resp) <> None))
    as Hok.
  { intros t Ht resp. subst resp.
    split; [left; reflexivity |].
    split; [split; intros _; reflexivity |].
    split; [| intros H; discriminate H].
    intros _. pose proof (JsFacts.truthy_value t Ht) as E.
    rewrite E in Ht. exact Ht. }
  destruct (passes_validation req) eqn:Hv.
  - assert (provider req = Some "gemini" \/ provider req <> Some "gemini")
      as [Hp | Hp].
    { destruct (provider req) as [tag|]; [| right; discriminate].
      destruct (string_dec tag "gemini") as [-> | Hn];
        [left; reflexivity | right; congruence]. }
    + rewrite (GatewayFacts.generate_text_gemini w gen req tr Hv Hp).
      unfold finish_gemini.
      destruct (axios_post w _ _) as [data|e].
      * destruct (gemini_generatedText data) as [t|e].
        -- destruct (Js.truthy t) eqn:Ht; eexists; eexists;
             (split; [reflexivity |]); [now apply Hok | apply Hfail; auto].
        -- destruct e; eexists; eexists; (split; [reflexivity |]);
             apply Hfail; auto.
      * destruct e; eexists; eexists; (split; [reflexivity |]);
          apply Hfail; auto.
    + rewrite (GatewayFacts.generate_text_other w gen req tr Hv Hp).
      unfold finish_generation.
      destruct (gen _ _ _) as [[r|e] tr0].
      * destruct (sr_success r && Js.truthy (sr_text r)) eqn:Ht;
          eexists; eexists; (split; [reflexivity |]).
        -- apply andb_true_iff in Ht as [_ Ht]. now apply Hok.
        -- apply Hfail; auto.
      * destruct e; eexists; eexists; (split; [reflexivity |]);
          apply Hfail; auto.
  - unfold generate_text.
    rewrite (GatewayFacts.passes_validation_false_guard req Hv).
    eexists; eexists; (split; [reflexivity |]).
    apply (Hfail 400%Z "Level, API token, provider, and model are required").
    auto.
Qed.

(** X4.  As deployed, generate-text with a provider tag other than 'gemini'
    never answers 500: the adapter never throws, so the status is 200 or
    400.  The handler calls the adapter once, and the adapter makes at most
    one call, a network call. *)
Theorem app_generate_text_never_500
        (w : World) (req : TextGenerationRequest) (tr : list Event) :
  passes_validation req = true ->
  provider req <> Some "gemini" ->
  exists resp evs,
    app_generate_text w req tr
    = (Ret resp,
       (tr ++ EvAdapter (generation_config req) (generation_params req) :: evs)%list)
    /\ (status resp = 200%Z \/ status resp = 400%Z)
    /\ forallb is_network_call evs = true
    /\ (length evs <= 1)%nat.
Proof.
  intros Hv Hp. unfold app_generate_text.
  rewrite (GatewayFacts.generate_text_other w _ req tr Hv Hp).
  destruct (AdapterFacts.generateText_trace
              w (generation_config req) (generation_params req)
              (tr ++ [EvAdapter (generation_config req) (generation_params req)]))
    as [r [evs [-> [Hnet [Hlen _]]]]].
  unfold finish_generation. rewrite <- app_assoc. simpl app.
  destruct (sr_success r && Js.truthy (sr_text r));
    eexists; exists evs; (split; [reflexivity |]); simpl; auto.
Qed.

Lemma app_generate_text_never_500_witness :
  exists resp evs,
    app_generate_text
      (failing_world (ErrorObject "socket hang up" None None))
      (generation_request "Advanced" "claude" None) []
    = (Ret resp,
       ([] ++ EvAdapter (generation_config (generation_request "Advanced" "claude" None))
                        (generation_params (generation_request "Advanced" "claude" None))
           :: evs)%list)
    /\ (status resp = 200%Z \/ status resp = 400%Z)
    /\ forallb is_network_call evs = true
    /\ (length evs <= 1)%nat.
Proof.
  apply (app_generate_text_never_500
           (failing_world (ErrorObject "socket hang up" None None))
           (generation_request "Advanced" "claude" None) []).
  - reflexivity.
  - discriminate.
Defined.

(** X5.  With the tag 'gemini', generate-text makes exactly one call, the
    HTTP post to
    [https://generativelanguage.googleapis.com/v1/models/{model}:generateContent?key={apiToken}],
    never calls the adapter, and answers 200 or 500, never 400; on 200 the
    text is the first candidate's first part's text, unchanged. *)
Theorem generate_text_gemini_branch
        (w : World)
        (gen : AIServiceConfig -> TextGenerationParams -> M AIServiceResponse)
        (req : TextGenerationRequest) (tr : list Event) :
  passes_validation req = true ->
  provider req = Some "gemini" ->
  let url :=
    "https://generativelanguage.googleapis.com/v1/models/"
      ++ Js.value (model req) ++ ":generateContent?key=" ++ Js.value (apiToken req) in
  exists resp,
    generate_text w gen req tr
    = (Ret resp, (tr ++ [EvAxiosPost url (gemini_body req)])%list)
    /\ (status resp = 200%Z \/ status resp = 500%Z)
    /\ (status resp = 200%Z ->
        exists data t,
          axios_post w url (gemini_body req) = Ret data
          /\ gemini_generatedText data = Ret (Some t)
          /\ body resp = ai_text t).
Proof.
  intros Hv Hp url.
  rewrite (GatewayFacts.generate_text_gemini w gen req tr Hv Hp).
  fold url. change (gemini_url req) with url. unfold finish_gemini.
  destruct (axios_post w url (gemini_body req)) as [data|e].
  - destruct (gemini_generatedText data) as [t|e] eqn:Eg.
    + destruct (Js.truthy t) eqn:Ht.
      * eexists. split; [reflexivity |]. split; [left; reflexivity |].
        intros _. exists data, (Js.value t). split; [reflexivity |].
        split; [| reflexivity].
        rewrite Eg. now rewrite <- (JsFacts.truthy_value t Ht).
      * eexists. split; [reflexivity |]. split; [right; reflexivity |].
        intros H; discriminate H.
    + destruct e; eexists; (split; [reflexivity |]);
        (split; [right; reflexivity | intros H; discriminate H]).
  - destruct e; eexists; (split; [reflexivity |]);
      (split; [right; reflexivity | intros H; discriminate H]).
Qed.

Lemma generate_text_gemini_branch_witness :
  exists resp,
    app_generate_text happy_world (generation_request "Advanced" "gemini" None) []
    = (Ret resp,
       [EvAxiosPost
          "https://generativelanguage.googleapis.com/v1/models/some-model:generateContent?key=sk-x"
          (gemini_body (generation_request "Advanced" "gemini" None))])
    /\ status resp = 200%Z.
Proof.
  destruct (generate_text_gemini_branch
              happy_world (AIService.generateText happy_world)
              (generation_request "Advanced" "gemini" None) [] eq_refl eq_refl)
    as [resp [E _]].
  exists resp. split; [exact E |].
  unfold app_generate_text in E.
  change (generate_text happy_world (AIService.generateText happy_world)
            (generation_request "Advanced" "gemini" None) [])
    with (Ret {| status := 200; body := ai_text "The cat sat." |},
          [EvAxiosPost
             "https://generativelanguage.googleapis.com/v1/models/some-model:generateContent?key=sk-x"
             (gemini_body (generation_request "Advanced" "gemini" None))]) in E.
  injection E as <-. reflexivity.
Defined.

(** X6.  translate-word always answers, and never with 500: the status is
    400 exactly when word, targetLanguage or languageCode is missing or
    empty (then with the fixed message and no call at all), and 200 in
    every other case, whatever the adapter does. *)
Theorem translate_word_status
        (gen : AIServiceConfig -> TextGenerationParams -> M AIServiceResponse)
        (req : TranslateWordRequest) (tr : list Event) :
  (has_required_fields req = false ->
   translate_word gen req tr
   = (Ret {| status := 400;
             body := {| tr_success := false; translation := None;
                        tr_error := Some "Word, target language, and language code are required" |} |},
      tr))
  /\ (has_required_fields req = true ->
      exists resp tr',
        translate_word gen req tr = (Ret resp, tr') /\ status resp = 200%Z).
Proof.
  split; intros Hf.
  - unfold translate_word.
    assert (negb (Js.truthy (word req)) || negb (Js.truthy (targetLanguage req))
            || negb (Js.truthy (languageCode req)) = true) as ->; [| reflexivity].
    unfold has_required_fields in Hf.
    destruct (Js.truthy (word req)), (Js.truthy (targetLanguage req)),
      (Js.truthy (languageCode req)); simpl in *; congruence.
  - destruct (reaches_translation req) eqn:Hr.
    + rewrite (GatewayFacts.translate_word_stage gen req tr Hr).
      unfold finish_translation.
      destruct (gen _ _ _) as [[r|e] tr'].
      * destruct (sr_success r && Js.truthy (sr_text r)); eauto.
      * eauto.
    + exists {| status := 200;
                body := translate_error "AI token and provider are required for translation" |}, tr.
      split; [| reflexivity].
      unfold reaches_translation in Hr. rewrite Hf in Hr. simpl in Hr.
      unfold has_required_fields in Hf. rewrite !andb_true_iff in Hf.
      destruct Hf as [[Hw Ht] Hl]. unfold translate_word.
      rewrite Hw, Ht, Hl. simpl negb. simpl orb. cbv iota.
      assert (negb (Js.truthy (aiToken req)) || negb (Js.truthy (tw_provider req))
              = true) as ->; [| reflexivity].
      destruct (Js.truthy (aiToken req)), (Js.truthy (tw_provider req));
        simpl in *; congruence.
Qed.

Lemma translate_word_status_witness :
  translate_word (throwing_adapter Nullish)
                 {| word := Some "hello"; targetLanguage := None;
                    languageCode := Some "es"; aiToken := Some "sk-x";
                    tw_provider := Some "openai"; tw_model := None |} []
  = (Ret {| status := 400;
            body := {| tr_success := false; translation := None;
                       tr_error := Some "Word, target language, and language code are required" |} |},
     [])
  /\ exists resp tr',
      translate_word (throwing_adapter Nullish)
                     (translation_request (Some "sk-x") (Some "openai")) []
      = (Ret resp, tr')
      /\ status resp = 200%Z.
Proof.
  split.
  - apply (translate_word_status
             (throwing_adapter Nullish)
             {| word := Some "hello"; targetLanguage := None;
                languageCode := Some "es"; aiToken := Some "sk-x";
                tw_provider := Some "openai"; tw_model := None |} []).
    reflexivity.
  - apply (translate_word_status
             (throwing_adapter Nullish)
             (translation_request (Some "sk-x") (Some "openai")) []).
    reflexivity.
Defined.

(** X7.  When the adapter returns success with a non-empty text, generate-text
    (provider tag other than 'gemini') answers 200 with that text unchanged,
    white space included, while translate-word answers 200 with the text
    trimmed: the translation starts and ends with none of the white-space
    characters of the language, U+00A0, U+3000 and U+FEFF among them. *)
Theorem success_text_is_passed_on
        (w : World)
        (gen : AIServiceConfig -> TextGenerationParams -> M AIServiceResponse)
        (r : AIServiceResponse) (t : string) :
  sr_success r = true ->
  sr_text r = Some t ->
  t <> EmptyString ->
  (forall req tr tr',
      passes_validation req = true ->
      provider req <> Some "gemini" ->
      gen (generation_config req) (generation_params req)
          (tr ++ [EvAdapter (generation_config req) (generation_params req)])%list
      = (Ret r, tr') ->
      generate_text w gen req tr
      = (Ret {| status := 200;
                body := {| success := true; text := Some t; message := None;
                           error := None |} |}, tr'))
  /\ (forall req tr tr',
         reaches_translation req = true ->
         gen (translation_config req) (translation_params req)
             (tr ++ [EvAdapter (translation_config req) (translation_params req)])%list
         = (Ret r, tr') ->
         translate_word gen req tr
         = (Ret {| status := 200;
                   body := {| tr_success := true; translation := Some (Js.trim t);
                              tr_error := None |} |}, tr')
         /\ starts_with_space (Js.trim t) = false
         /\ ends_with_space (Js.trim t) = false).
Proof.
  intros Hs Ht Hne.
  assert (sr_success r && Js.truthy (sr_text r) = true) as Hok.
  { rewrite Hs, Ht. destruct t; [congruence | reflexivity]. }
  split.
  - intros req tr tr' Hv Hp E.
    rewrite (GatewayFacts.generate_text_other w gen req tr Hv Hp), E.
    unfold finish_generation. now rewrite Hok, Ht.
  - intros req tr tr' Hr E.
    rewrite (GatewayFacts.translate_word_stage gen req tr Hr), E.
    unfold finish_translation. rewrite Hok, Ht. simpl Js.value.
    split; [reflexivity | apply TrimFacts.trim_no_surrounding_space].
Qed.

Lemma success_text_is_passed_on_witness :
  fst (app_generate_text
         (mock_world (chat_reply padded_hola) (claude_reply padded_hola)
                     (gemini_reply padded_hola) (http_reply padded_hola))
         (generation_request "Elementary" "openai" None) [])
  = Ret {| status := 200;
           body := {| success := true; text := Some padded_hola; message := None;
                      error := None |} |}
  /\ fst (app_translate_word
            (mock_world (chat_reply padded_hola) (claude_reply padded_hola)
                        (gemini_reply padded_hola) (http_reply padded_hola))
            (translation_request (Some "sk-x") (Some "gemini")) [])
     = Ret {| status := 200;
              body := {| tr_success := true; translation := Some "Hola";
                         tr_error := None |} |}.
Proof.
  destruct (success_text_is_passed_on
              (mock_world (chat_reply padded_hola) (claude_reply padded_hola)
                          (gemini_reply padded_hola) (http_reply padded_hola))
              (AIService.generateText
                 (mock_world (chat_reply padded_hola) (claude_reply padded_hola)
                             (gemini_reply padded_hola) (http_reply padded_hola)))
              (AIService.generated padded_hola) padded_hola
              eq_refl eq_refl ltac:(discriminate))
    as [Hgenerate Htranslate].
  split.
  - unfold app_generate_text.
    rewrite (Hgenerate (generation_request "Elementary" "openai" None) [] _
                       eq_refl ltac:(discriminate) eq_refl).
    reflexivity.
  - unfold app_translate_word.
    destruct (Htranslate (translation_request (Some "sk-x") (Some "gemini")) [] _
                         eq_refl eq_refl) as [E _].
    rewrite E. reflexivity.
Defined.

End GatewayExtras.

(* ================================================================= *)
(** ** Further properties of the adapter *)

Module AdapterMoreFacts.
Import AIService Spec More.

Lemma contains_lower (s needle : string) :
  Js.all_ascii needle = true ->
  Js.contains s needle ->
  Js.includes (Js.toLowerCase s) (Js.lower_ascii needle) = true.
Proof.
  intros Ha Hc. apply JsFacts.lower_contains_iff.
  now apply JsFacts.contains_lower_contains.
Qed.

(** The trace a vendor method leaves does not depend on the vendor's
    answer. *)
Lemma snd_generateWithOpenAI (w : World) config params tr :
  snd (generateWithOpenAI w config params tr)
  = (tr ++ [EvOpenAI (cfg_apiKey config)
              {| chat_model := Js.or_else (cfg_model config) "gpt-3.5-turbo";
                 chat_messages :=
                   [ {| role := "system"; content := getSystemPrompt (p_level params) |};
                     {| role := "user"; content := VString (p_prompt params) |} ];
                 chat_max_tokens := maxTokens_or_500 (p_maxTokens params);
                 chat_temperature_tenths := 7 |}])%list.
Proof.
  unfold generateWithOpenAI. unfold_monad.
  destruct (openai_chat_completions_create w _ _) as [c|e].
  - destruct (choices c) as [|first rest];
      [| destruct (choice_message first) as [m|];
         [ destruct (completion_content m) as [[|a s]|] |] ];
      reflexivity.
  - destruct (status_of e) as [st|]; [destruct (st =? 401)%Z |]; reflexivity.
Qed.

Lemma snd_generateWithClaude (w : World) config params tr :
  snd (generateWithClaude w config params tr)
  = (tr ++ [EvAnthropic (cfg_apiKey config)
              {| msg_model := Js.or_else (cfg_model config) "claude-3-haiku-20240307";
                 msg_max_tokens := maxTokens_or_500 (p_maxTokens params);
                 msg_system := getSystemPrompt (p_level params);
                 msg_messages :=
                   [ {| role := "user"; content := VString (p_prompt params) |} ] |}])%list.
Proof.
  unfold generateWithClaude. unfold_monad.
  destruct (anthropic_messages_create w _ _) as [m|e].
  - destruct (find _ (message_content m)) as [[text|id name]|]; reflexivity.
  - destruct (status_of e) as [st|]; [destruct (st =? 401)%Z |]; reflexivity.
Qed.

Lemma snd_generateWithGemini (w : World) config params tr :
  snd (generateWithGemini w config params tr)
  = (tr ++ [EvGemini (cfg_apiKey config)
              (Js.or_else (cfg_model config) "gemini-1.5-flash")
              (template_of w (getSystemPrompt (p_level params))
                 ++ Js.nl ++ Js.nl ++ p_prompt params)])%list.
Proof.
  destruct (AdapterFacts.generateWithGemini_trace w config params tr)
    as [o [ev [E _]]].
  unfold generateWithGemini in *. unfold_monad.
  destruct (gemini_generateContent w _ _ _) as [r|e].
  - destruct (response_text r) as [[|a s]|e]; try reflexivity.
    match goal with |- context [if ?c then _ else _] => now destruct c end.
  - match goal with |- context [if ?c then _ else _] => now destruct c end.
Qed.

Lemma snd_try_catch_ret {A} (body : M A) (h : Thrown -> A) tr :
  snd (try_catch body (fun e => ret (h e)) tr) = snd (body tr).
Proof. unfold try_catch, ret. now destruct (body tr) as [[a|e] tr']. Qed.

Lemma snd_generateText_openai (w : World) config params tr :
  cfg_provider config = "openai" ->
  snd (generateText w config params tr)
  = snd (generateWithOpenAI w config params tr).
Proof.
  intros Hp. unfold generateText. rewrite snd_try_catch_ret, Hp. reflexivity.
Qed.

Lemma snd_generateText_claude (w : World) config params tr :
  cfg_provider config = "claude" ->
  snd (generateText w config params tr)
  = snd (generateWithClaude w config params tr).
Proof.
  intros Hp. unfold generateText. rewrite snd_try_catch_ret, Hp. reflexivity.
Qed.

Lemma snd_generateText_gemini (w : World) config params tr :
  cfg_provider config = "gemini" ->
  snd (generateText w config params tr)
  = snd (generateWithGemini w config params tr).
Proof.
  intros Hp. unfold generateText. rewrite snd_try_catch_ret, Hp. reflexivity.
Qed.

(** A text block that comes before any other text block is the one [find]
    returns. *)
Lemma find_first_text_block (pre rest : list ContentBlock) (text : string) :
  (forall b, In b pre -> block_type b <> "text") ->
  find (fun block => String.eqb (block_type block) "text")
       (pre ++ TextBlock text :: rest)
  = Some (TextBlock text).
Proof.
  induction pre as [|b pre IH]; intros H; simpl; [reflexivity |].
  destruct (String.eqb_spec (block_type b) "text") as [E | _].
  - exfalso. apply (H b); [now left | exact E].
  - apply IH. intros b' Hb'. apply H. now right.
Qed.

Lemma includes_pattern_false (message : string) (patterns : list string) :
  (forall p, In p patterns -> ~ Js.lower_contains message p) ->
  forall p, In p patterns -> Js.includes (Js.toLowerCase message) p = false.
Proof.
  intros H p Hp. apply JsFacts.lower_contains_false_iff. now apply H.
Qed.

End AdapterMoreFacts.

Module AdapterExtras.
Import Routes Spec Summary Samples More.

(** X8.  [AIService.generateText] never throws: whatever the vendor SDK
    does, the method returns a result, having made at most one call, a
    network call; a failure result carries an error and a success result
    carries a text. *)
Theorem generateText_never_throws
        (w : World) (config : AIServiceConfig) (params : TextGenerationParams)
        (tr : list Event) :
  exists r evs,
    AIService.generateText w config params tr = (Ret r, (tr ++ evs)%list)
    /\ (length evs <= 1)%nat
    /\ forallb is_network_call evs = true
    /\ ((sr_success r = false /\ exists msg, sr_error r = Some msg)
        \/ (sr_success r = true /\ exists t, sr_text r = Some t)).
Proof.
  destruct (AdapterFacts.generateText_trace w config params tr)
    as [r [evs [E [Hnet [Hlen Hs]]]]].
  exists r, evs. repeat split; auto.
  destruct Hs as [[msg ->] | [t ->]]; [left | right]; simpl; eauto.
Qed.

(** X9.  An error with HTTP status 401 thrown by the OpenAI or the Claude
    SDK is answered by the vendor method itself with that vendor's
    invalid-key message and its key-management URL; the message of the
    error is not looked at and the classifier of [generateText] is not
    reached. *)
Theorem unauthorized_status_short_circuits
        (w : World) (config : AIServiceConfig) (params : TextGenerationParams)
        (tr : list Event) (e : Thrown) :
  status_of e = Some 401%Z ->
  (cfg_provider config = "openai" ->
   (forall key req, openai_chat_completions_create w key req = Throw e) ->
   fst (AIService.generateText w config params tr)
   = Ret {| sr_success := false; sr_text := None;
            sr_error := Some "Invalid OpenAI API key. Please check your API key at https://platform.openai.com/api-keys" |})
  /\ (cfg_provider config = "claude" ->
      (forall key req, anthropic_messages_create w key req = Throw e) ->
      fst (AIService.generateText w config params tr)
      = Ret {| sr_success := false; sr_text := None;
               sr_error := Some "Invalid Claude API key. Please check your API key at https://console.anthropic.com/" |}).
Proof.
  intros Hs. split; intros Hp Hw; unfold AIService.generateText;
    rewrite Hp; simpl String.eqb; cbv iota.
  - unfold AIService.generateWithOpenAI. unfold_monad. now rewrite Hw, Hs.
  - unfold AIService.generateWithClaude. unfold_monad. now rewrite Hw, Hs.
Qed.

Lemma unauthorized_status_short_circuits_witness :
  fst (AIService.generateText
         (failing_world (ErrorObject "rate limit reached" (Some 401%Z) None))
         {| cfg_provider := "openai"; cfg_apiKey := "sk-x"; cfg_model := None |}
         {| p_level := "Elementary"; p_prompt := "Say hi"; p_maxTokens := None |}
         [])
  = Ret {| sr_success := false; sr_text := None;
           sr_error := Some "Invalid OpenAI API key. Please check your API key at https://platform.openai.com/api-keys" |}
  /\ fst (AIService.generateText
            (failing_world (ErrorObject "rate limit reached" (Some 401%Z) None))
            {| cfg_provider := "claude"; cfg_apiKey := "sk-x"; cfg_model := None |}
            {| p_level := "Elementary"; p_prompt := "Say hi"; p_maxTokens := None |}
            [])
     = Ret {| sr_success := false; sr_text := None;
              sr_error := Some "Invalid Claude API key. Please check your API key at https://console.anthropic.com/" |}.
Proof.
  split.
  - destruct (unauthorized_status_short_circuits
                (failing_world (ErrorObject "rate limit reached" (Some 401%Z) None))
                {| cfg_provider := "openai"; cfg_apiKey := "sk-x"; cfg_model := None |}
                {| p_level := "Elementary"; p_prompt := "Say hi"; p_maxTokens := None |}
                [] (ErrorObject "rate limit reached" (Some 401%Z) None) eq_refl)
      as [Hopenai _].
    apply Hopenai; [reflexivity | intros key req; reflexivity].
  - destruct (unauthorized_status_short_circuits
                (failing_world (ErrorObject "rate limit reached" (Some 401%Z) None))
                {| cfg_provider := "claude"; cfg_apiKey := "sk-x"; cfg_model := None |}
                {| p_level := "Elementary"; p_prompt := "Say hi"; p_maxTokens := None |}
                [] (ErrorObject "rate limit reached" (Some 401%Z) None) eq_refl)
      as [_ Hclaude].
    apply Hclaude; [reflexivity | intros key req; reflexivity].
Defined.

(** X10.  When the Gemini SDK call throws an [Error] whose message contains
    "API key not valid", the adapter reports an invalid key in every case:
    with status 400 the Gemini method answers with its own message and URL,
    with any other status the error reaches the classifier, whose first
    test matches. *)
Theorem gemini_invalid_key_is_reported
        (w : World) (config : AIServiceConfig) (params : TextGenerationParams)
        (tr : list Event) (message : string) (status : option Z)
        (response_message : option string) :
  cfg_provider config = "gemini" ->
  (forall key model prompt,
      gemini_generateContent w key model prompt
      = Throw (ErrorObject message status response_message)) ->
  Js.contains message "API key not valid" ->
  fst (AIService.generateText w config params tr)
  = Ret {| sr_success := false; sr_text := None;
           sr_error :=
             Some (if match status with
                      | Some st => (st =? 400)%Z
                      | None => false
                      end
                   then "Invalid Gemini API key. Please get a valid API key from https://makersuite.google.com/app/apikey"
                   else "Invalid GEMINI API key. Please check your API key and try again.") |}.
Proof.
  intros Hp Hw Hc. unfold AIService.generateText.
  rewrite Hp. simpl String.eqb. cbv iota.
  unfold AIService.generateWithGemini. unfold_monad. rewrite Hw.
  cbn [status_of message_of].
  assert (Js.includes message "API key not valid" = true) as ->
      by now apply JsFacts.includes_iff.
  rewrite andb_true_r.
  destruct (match status with Some st => (st =? 400)%Z | None => false end);
    [reflexivity |].
  simpl. unfold AIService.failure, AIService.userMessage.
  pose proof (AdapterMoreFacts.contains_lower
                message "API key not valid" eq_refl Hc) as Hl.
  change (Js.lower_ascii "API key not valid") with "api key not valid" in Hl.
  now rewrite Hl.
Qed.

Lemma gemini_invalid_key_is_reported_witness :
  fst (AIService.generateText
         (failing_world
            (ErrorObject "[GoogleGenerativeAI Error]: API key not valid. Please pass a valid API key."
                         (Some 400%Z) None))
         {| cfg_provider := "gemini"; cfg_apiKey := "bad"; cfg_model := None |}
         {| p_level := "Elementary"; p_prompt := "Say hi"; p_maxTokens := None |}
         [])
  = Ret {| sr_success := false; sr_text := None;
           sr_error := Some "Invalid Gemini API key. Please get a valid API key from https://makersuite.google.com/app/apikey" |}.
Proof.
  apply (gemini_invalid_key_is_reported
           (failing_world
              (ErrorObject "[GoogleGenerativeAI Error]: API key not valid. Please pass a valid API key."
                           (Some 400%Z) None))
           {| cfg_provider := "gemini"; cfg_apiKey := "bad"; cfg_model := None |}
           {| p_level := "Elementary"; p_prompt := "Say hi"; p_maxTokens := None |}
           []
           "[GoogleGenerativeAI Error]: API key not valid. Please pass a valid API key."
           (Some 400%Z) None).
  - reflexivity.
  - intros key model prompt. reflexivity.
  - apply JsFacts.includes_iff. reflexivity.
Defined.

(** X11.  The credential patterns come first in the classifier: an [Error]
    whose message contains, in any letter case, "api key not valid",
    "invalid api key", "api_key_invalid" or "unauthorized" gets the message
    "Invalid {PROVIDER} API key. Please check your API key and try again.",
    whatever else the message contains. *)
Theorem credential_patterns_win
        (provider message pattern : string) (status : option Z)
        (response_message : option string) :
  In pattern credential_patterns ->
  Js.contains_ci message pattern ->
  AIService.userMessage provider (ErrorObject message status response_message)
  = "Invalid " ++ Js.toUpperCase provider
      ++ " API key. Please check your API key and try again.".
Proof.
  intros Hin Hc.
  assert (Js.includes (Js.toLowerCase message) pattern = true) as Hl.
  { apply JsFacts.lower_contains_iff, JsFacts.contains_ci_lower; [| exact Hc].
    simpl in Hin. destruct Hin as [<- | [<- | [<- | [<- | []]]]]; reflexivity. }
  unfold AIService.userMessage. simpl in Hin.
  destruct Hin as [<- | [<- | [<- | [<- | []]]]]; rewrite Hl;
    rewrite ?orb_true_r; reflexivity.
Qed.

Lemma credential_patterns_win_witness :
  AIService.userMessage "gemini"
    (ErrorObject "Quota check failed: API_KEY_INVALID (network timeout 500)" None None)
  = "Invalid " ++ Js.toUpperCase "gemini"
      ++ " API key. Please check your API key and try again.".
Proof.
  apply (credential_patterns_win
           "gemini" "Quota check failed: API_KEY_INVALID (network timeout 500)"
           "api_key_invalid" None None).
  - simpl. right. right. left. reflexivity.
  - apply JsFacts.includes_lower_iff. reflexivity.
Defined.

(** X12.  An OpenAI error that is not a 401 and whose non-empty message,
    lower-cased, contains none of the classifier's patterns reaches the
    caller of generate-text word for word: the answer is HTTP 400 with
    "AI text generation failed: {message}." *)
Theorem unclassified_error_is_surfaced
        (w : World) (req : TextGenerationRequest) (tr : list Event)
        (message : string) (status : option Z) (response_message : option string) :
  passes_validation req = true ->
  provider req = Some "openai" ->
  (forall key r,
      openai_chat_completions_create w key r
      = Throw (ErrorObject message status response_message)) ->
  status <> Some 401%Z ->
  message <> EmptyString ->
  (forall p, In p classifier_patterns -> ~ Js.lower_contains message p) ->
  fst (app_generate_text w req tr)
  = Ret {| status := 400;
           body := {| success := false; text := None; message := None;
                      error := Some ("AI text generation failed: " ++ message ++ ".") |} |}.
Proof.
  intros Hv Hp Hw Hs Hne Hnone. unfold app_generate_text.
  rewrite (GatewayFacts.generate_text_other w _ req tr Hv);
    [| rewrite Hp; discriminate].
  pose proof (AdapterFacts.generateText_openai_throws
                w (generation_config req) (generation_params req)
                (tr ++ [EvAdapter (generation_config req) (generation_params req)])
                (ErrorObject message status response_message)) as E.
  assert (cfg_provider (generation_config req) = "openai") as Hc
      by (unfold generation_config; simpl; now rewrite Hp).
  specialize (E Hc Hw Hs).
  assert (AIService.userMessage "openai"
            (ErrorObject message status response_message) = message) as Hum.
  { unfold AIService.userMessage.
    pose proof (AdapterMoreFacts.includes_pattern_false
                  message classifier_patterns Hnone) as F.
    repeat match goal with
           | |- context [Js.includes (Js.toLowerCase message) ?p] =>
               rewrite (F p) by (simpl; tauto)
           end.
    reflexivity. }
  rewrite Hum in E.
  destruct (AIService.generateText w _ _ _) as [o tr'] eqn:Eg.
  cbn [fst] in E. subst o.
  destruct message as [|a m]; [congruence | reflexivity].
Qed.

Lemma unclassified_error_is_surfaced_witness :
  fst (app_generate_text
         (failing_world (ErrorObject "The model `gpt-9` does not exist" (Some 404%Z) None))
         (generation_request "Elementary" "openai" None) [])
  = Ret {| status := 400;
           body := {| success := false; text := None; message := None;
                      error := Some ("AI text generation failed: "
                                       ++ "The model `gpt-9` does not exist" ++ ".") |} |}.
Proof.
  apply (unclassified_error_is_surfaced
           (failing_world (ErrorObject "The model `gpt-9` does not exist" (Some 404%Z) None))
           (generation_request "Elementary" "openai" None) []
           "The model `gpt-9` does not exist" (Some 404%Z) None).
  - reflexivity.
  - reflexivity.
  - intros key r. reflexivity.
  - discriminate.
  - discriminate.
  - intros p Hin. apply JsFacts.lower_contains_false_iff.
    simpl in Hin.
    repeat (destruct Hin as [<- | Hin]; [reflexivity |]).
    destruct Hin.
Defined.

(** X13.  For a provider tag that is not 'openai', 'claude' or 'gemini' the
    adapter contacts nobody: the trace is unchanged and the result is a
    failure, "Cohere integration not yet implemented" for 'cohere' and
    "Unsupported AI provider: {tag}" for any other tag. *)
Theorem unimplemented_providers_make_no_call
        (w : World) (config : AIServiceConfig) (params : TextGenerationParams)
        (tr : list Event) :
  ~ In (cfg_provider config) sdk_providers ->
  AIService.generateText w config params tr
  = (Ret {| sr_success := false; sr_text := None;
            sr_error :=
              Some (if String.eqb (cfg_provider config) "cohere"
                    then "Cohere integration not yet implemented"
                    else "Unsupported AI provider: " ++ cfg_provider config) |},
     tr).
Proof.
  intros Hn. unfold AIService.generateText, sdk_providers in *.
  destruct (String.eqb_spec (cfg_provider config) "openai") as [E | _];
    [exfalso; apply Hn; rewrite E; simpl; tauto |].
  destruct (String.eqb_spec (cfg_provider config) "claude") as [E | _];
    [exfalso; apply Hn; rewrite E; simpl; tauto |].
  destruct (String.eqb_spec (cfg_provider config) "gemini") as [E | _];
    [exfalso; apply Hn; rewrite E; simpl; tauto |].
  destruct (String.eqb (cfg_provider config) "cohere"); reflexivity.
Qed.

Lemma unimplemented_providers_make_no_call_witness :
  AIService.generateText
    happy_world
    {| cfg_provider := "mistral"; cfg_apiKey := "sk-x"; cfg_model := None |}
    {| p_level := "Elementary"; p_prompt := "Say hi"; p_maxTokens := None |} []
  = (Ret {| sr_success := false; sr_text := None;
            sr_error := Some (if String.eqb "mistral" "cohere"
                              then "Cohere integration not yet implemented"
                              else "Unsupported AI provider: " ++ "mistral") |},
     []).
Proof.
  apply (unimplemented_providers_make_no_call
           happy_world
           {| cfg_provider := "mistral"; cfg_apiKey := "sk-x"; cfg_model := None |}
           {| p_level := "Elementary"; p_prompt := "Say hi"; p_maxTokens := None |} []).
  simpl. intros [H | [H | [H | []]]]; discriminate.
Defined.

(** X14.  What generate-text sends to OpenAI and to Claude: the request's
    own model (the adapter's default model is never used, since the handler
    demands a model), the persona of the level as system instruction, the
    built prompt as the single user message, and as max_tokens the
    handler's budget (the adapter's fallback of 500 never applies, the
    budget being 200, 700 or 500). *)
Theorem generate_text_vendor_request
        (w : World) (req : TextGenerationRequest) (tr : list Event) :
  passes_validation req = true ->
  let level := Js.value (level req) in
  let prompt := buildPrompt level (customPrompt req) in
  let adapter_call :=
    EvAdapter (generation_config req) (generation_params req) in
  (provider req = Some "openai" ->
   snd (app_generate_text w req tr)
   = (tr ++ [ adapter_call;
              EvOpenAI (Js.value (apiToken req))
                {| chat_model := Js.value (model req);
                   chat_messages :=
                     [ {| role := "system";
                          content := AIService.getSystemPrompt level |};
                       {| role := "user"; content := VString prompt |} ];
                   chat_max_tokens := maxTokens_for level (customPrompt req);
                   chat_temperature_tenths := 7 |} ])%list)
  /\ (provider req = Some "claude" ->
      snd (app_generate_text w req tr)
      = (tr ++ [ adapter_call;
                 EvAnthropic (Js.value (apiToken req))
                   {| msg_model := Js.value (model req);
                      msg_max_tokens := maxTokens_for level (customPrompt req);
                      msg_system := AIService.getSystemPrompt level;
                      msg_messages :=
                        [ {| role := "user"; content := VString prompt |} ] |} ])%list).
Proof.
  intros Hv level prompt adapter_call.
  assert (Js.or_else (Some (Js.value (model req))) "gpt-3.5-turbo"
          = Js.value (model req)
          /\ Js.or_else (Some (Js.value (model req))) "claude-3-haiku-20240307"
             = Js.value (model req)) as [Hm1 Hm2].
  { unfold passes_validation in Hv. rewrite !andb_true_iff in Hv.
    destruct Hv as [_ Hm]. destruct (model req) as [[|a m]|]; simpl in *;
      try discriminate; auto. }
  assert (AIService.maxTokens_or_500 (Some (maxTokens_for level (customPrompt req)))
          = maxTokens_for level (customPrompt req)) as Hb.
  { unfold maxTokens_for.
    destruct (Js.truthy (customPrompt req)); [reflexivity |].
    destruct (String.eqb level "Advanced"); reflexivity. }
  split; intros Hp; unfold app_generate_text;
    rewrite (GatewayFacts.generate_text_other w _ req tr Hv)
      by (rewrite Hp; discriminate);
    rewrite GatewayFacts.snd_finish_generation.
  - rewrite AdapterMoreFacts.snd_generateText_openai
      by (unfold generation_config; cbn [cfg_provider]; now rewrite Hp).
    rewrite AdapterMoreFacts.snd_generateWithOpenAI.
    cbn [generation_config generation_params
           cfg_apiKey cfg_model p_level p_prompt p_maxTokens].
    fold level. fold prompt. rewrite Hm1, Hb.
    rewrite <- app_assoc. reflexivity.
  - rewrite AdapterMoreFacts.snd_generateText_claude
      by (unfold generation_config; cbn [cfg_provider]; now rewrite Hp).
    rewrite AdapterMoreFacts.snd_generateWithClaude.
    cbn [generation_config generation_params
           cfg_apiKey cfg_model p_level p_prompt p_maxTokens].
    fold level. fold prompt. rewrite Hm2, Hb.
    rewrite <- app_assoc. reflexivity.
Qed.

Lemma generate_text_vendor_request_witness :
  snd (app_generate_text happy_world
                         (generation_request "Advanced" "claude" None) [])
  = [ EvAdapter (generation_config (generation_request "Advanced" "claude" None))
                (generation_params (generation_request "Advanced" "claude" None));
      EvAnthropic "sk-x"
        {| msg_model := "some-model";
           msg_max_tokens := 700;
           msg_system := AIService.getSystemPrompt "Advanced";
           msg_messages :=
             [ {| role := "user";
                  content := VString (buildPrompt "Advanced" None) |} ] |} ].
Proof.
  destruct (generate_text_vendor_request
              happy_world (generation_request "Advanced" "claude" None) []
              eq_refl) as [_ Hclaude].
  exact (Hclaude eq_refl).
Defined.

(** X15.  What translate-word sends to the vendor, for each of the three
    SDK providers: the request's model or, when it is missing or empty, the
    adapter's default for that vendor; the Elementary persona as system
    instruction; the translation prompt; and the budget of 50 tokens where
    the vendor call has one.  The Gemini SDK call has none: it receives
    only the persona and the prompt, joined by an empty line. *)
Theorem translate_word_vendor_request
        (w : World) (req : TranslateWordRequest) (tr : list Event) :
  reaches_translation req = true ->
  let key := Js.value (aiToken req) in
  let persona :=
    "You are an English teacher creating simple, engaging content for elementary level students. Use basic vocabulary and simple sentence structures." in
  let prompt :=
    translationPrompt (Js.value (word req)) (Js.value (targetLanguage req)) in
  let adapter_call :=
    EvAdapter (translation_config req) (translation_params req) in
  (tw_provider req = Some "openai" ->
   snd (app_translate_word w req tr)
   = (tr ++ [ adapter_call;
              EvOpenAI key
                {| chat_model := Js.or_else (tw_model req) "gpt-3.5-turbo";
                   chat_messages :=
                     [ {| role := "system"; content := VString persona |};
                       {| role := "user"; content := VString prompt |} ];
                   chat_max_tokens := 50;
                   chat_temperature_tenths := 7 |} ])%list)
  /\ (tw_provider req = Some "claude" ->
      snd (app_translate_word w req tr)
      = (tr ++ [ adapter_call;
                 EvAnthropic key
                   {| msg_model := Js.or_else (tw_model req) "claude-3-haiku-20240307";
                      msg_max_tokens := 50;
                      msg_system := VString persona;
                      msg_messages :=
                        [ {| role := "user"; content := VString prompt |} ] |} ])%list)
  /\ (tw_provider req = Some "gemini" ->
      snd (app_translate_word w req tr)
      = (tr ++ [ adapter_call;
                 EvGemini key (Js.or_else (tw_model req) "gemini-1.5-flash")
                          (persona ++ Js.nl ++ Js.nl ++ prompt) ])%list).
Proof.
  intros Hr key persona prompt adapter_call.
  split; [| split]; intros Hp; unfold app_translate_word;
    rewrite (GatewayFacts.translate_word_stage _ req tr Hr);
    rewrite GatewayFacts.snd_finish_translation.
  - rewrite AdapterMoreFacts.snd_generateText_openai
      by (unfold translation_config; cbn [cfg_provider]; now rewrite Hp).
    rewrite AdapterMoreFacts.snd_generateWithOpenAI.
    rewrite <- app_assoc. reflexivity.
  - rewrite AdapterMoreFacts.snd_generateText_claude
      by (unfold translation_config; cbn [cfg_provider]; now rewrite Hp).
    rewrite AdapterMoreFacts.snd_generateWithClaude.
    rewrite <- app_assoc. reflexivity.
  - rewrite AdapterMoreFacts.snd_generateText_gemini
      by (unfold translation_config; cbn [cfg_provider]; now rewrite Hp).
    rewrite AdapterMoreFacts.snd_generateWithGemini.
    rewrite <- app_assoc. reflexivity.
Qed.

Lemma translate_word_vendor_request_witness :
  snd (app_translate_word happy_world
                          (translation_request (Some "sk-x") (Some "gemini")) [])
  = [ EvAdapter (translation_config (translation_request (Some "sk-x") (Some "gemini")))
                (translation_params (translation_request (Some "sk-x") (Some "gemini")));
      EvGemini "sk-x" "gemini-1.5-flash"
               ("You are an English teacher creating simple, engaging content for elementary level students. Use basic vocabulary and simple sentence structures."
                  ++ Js.nl ++ Js.nl ++ translationPrompt "hello" "Spanish") ].
Proof.
  destruct (translate_word_vendor_request
              happy_world (translation_request (Some "sk-x") (Some "gemini")) []
              eq_refl) as [_ [_ Hgemini]].
  exact (Hgemini eq_refl).
Defined.

(** X16.  A level outside the five tiers is not rejected and its defaults
    do not agree with each other: the prompt asks for the word range of
    'Advanced' (400-500), the budget is the 500 tokens of the levels below
    'Advanced', and the persona is that of 'Intermediate' (when the level
    does not name a member of [Object.prototype]). *)
Theorem unrecognized_level_defaults (level : string) :
  ~ In level levels ->
  word_count level = "400-500"
  /\ Js.contains (buildPrompt level None)
                 "- Text should be approximately 400-500 words."
  /\ maxTokens_for level None = 500%Z
  /\ (~ In level AIService.Object_prototype_keys ->
      AIService.getSystemPrompt level
      = VString "You are an English teacher creating content for intermediate level students. Use a good variety of vocabulary and complex sentence structures.").
Proof.
  intros Hn.
  assert (String.eqb level "Elementary" = false
          /\ String.eqb level "Pre-Intermediate" = false
          /\ String.eqb level "Intermediate" = false
          /\ String.eqb level "Upper-Intermediate" = false
          /\ String.eqb level "Advanced" = false) as [E1 [E2 [E3 [E4 E5]]]].
  { repeat split; apply String.eqb_neq; intros ->; apply Hn; simpl; tauto. }
  assert (word_count level = "400-500") as Hw.
  { unfold word_count. now rewrite E1, E2, E3, E4. }
  split; [exact Hw | split; [| split]].
  - unfold buildPrompt, prompt_template. simpl Js.truthy. cbv iota. rewrite Hw.
    do 7 apply JsFacts.contains_app_r.
    exists EmptyString. eexists. simpl. reflexivity.
  - unfold maxTokens_for. simpl Js.truthy. cbv iota. now rewrite E5.
  - intros Hp. now rewrite (AdapterFacts.getSystemPrompt_fallback level Hn Hp).
Qed.

Lemma unrecognized_level_defaults_witness :
  word_count "Beginner" = "400-500"
  /\ Js.contains (buildPrompt "Beginner" None)
                 "- Text should be approximately 400-500 words."
  /\ maxTokens_for "Beginner" None = 500%Z
  /\ (~ In "Beginner" AIService.Object_prototype_keys ->
      AIService.getSystemPrompt "Beginner"
      = VString "You are an English teacher creating content for intermediate level students. Use a good variety of vocabulary and complex sentence structures.").
Proof.
  apply (unrecognized_level_defaults "Beginner").
  simpl. intros [H | [H | [H | [H | [H | []]]]]]; discriminate.
Defined.

(** X17.  When Claude answers with a message whose first text block is
    empty, the adapter returns success with an empty text and no error, and
    generate-text, which tests the text again, answers HTTP 400 with
    "AI text generation failed: Unknown error." *)
Theorem claude_empty_text_is_unknown_error
        (w : World) (req : TextGenerationRequest) (tr : list Event)
        (m : AnthropicMessage) (before rest : list ContentBlock) :
  passes_validation req = true ->
  provider req = Some "claude" ->
  (forall key r, anthropic_messages_create w key r = Ret m) ->
  message_content m = (before ++ TextBlock EmptyString :: rest)%list ->
  (forall b, In b before -> block_type b <> "text") ->
  fst (app_generate_text w req tr)
  = Ret {| status := 400;
           body := {| success := false; text := None; message := None;
                      error := Some "AI text generation failed: Unknown error." |} |}.
Proof.
  intros Hv Hp Hw Hm Hb. unfold app_generate_text.
  rewrite (GatewayFacts.generate_text_other w _ req tr Hv)
    by (rewrite Hp; discriminate).
  assert (forall tr0,
             fst (AIService.generateText w (generation_config req)
                                         (generation_params req) tr0)
             = Ret (AIService.generated EmptyString)) as E.
  { intros tr0.
    assert (cfg_provider (generation_config req) = "claude") as Hc
        by (unfold generation_config; cbn [cfg_provider]; now rewrite Hp).
    unfold AIService.generateText. rewrite Hc.
    change (String.eqb "claude" "openai") with false.
    change (String.eqb "claude" "claude") with true. cbv iota.
    unfold AIService.generateWithClaude. unfold_monad.
    rewrite Hw, Hm, (AdapterMoreFacts.find_first_text_block before rest _ Hb).
    reflexivity. }
  match goal with
  | |- context [AIService.generateText w ?c ?p ?t] =>
      specialize (E t); destruct (AIService.generateText w c p t) as [o tr']
  end.
  cbn [fst] in E. subst o. reflexivity.
Qed.

Lemma claude_empty_text_is_unknown_error_witness :
  fst (app_generate_text blank_world
                         (generation_request "Elementary" "claude" None) [])
  = Ret {| status := 400;
           body := {| success := false; text := None; message := None;
                      error := Some "AI text generation failed: Unknown error." |} |}.
Proof.
  apply (claude_empty_text_is_unknown_error
           blank_world (generation_request "Elementary" "claude" None) []
           {| message_content := [ TextBlock EmptyString ] |} [] []).
  - reflexivity.
  - reflexivity.
  - intros key r. reflexivity.
  - reflexivity.
  - intros b [].
Defined.

End AdapterExtras.

(* ================================================================= *)
(** ** Properties of the frontend and of its wiring to the backend *)

Module FrontendFacts.
Import Routes Spec Summary Client.

Lemma truthy_or_else (v : option string) (a : ascii) (d : string) :
  Js.truthy (Some (Js.or_else v (String a d))) = true.
Proof. now destruct v as [[|c s]|]. Qed.

Lemma truthy_some (s : string) :
  Js.truthy (Some s) = true <-> s <> EmptyString.
Proof. destruct s; simpl; split; congruence. Qed.

(** Every failure envelope of generate-text has a non-empty error. *)
Lemma generate_text_error_nonempty (w : World) gen (req : TextGenerationRequest)
      tr resp tr' :
  generate_text w gen req tr = (Ret resp, tr') ->
  status resp <> 200%Z ->
  success (body resp) = false /\ Js.truthy (error (body resp)) = true.
Proof.
  destruct (passes_validation req) eqn:Hv.
  - assert (provider req = Some "gemini" \/ provider req <> Some "gemini")
      as [Hp | Hp].
    { destruct (provider req) as [tag|]; [| right; discriminate].
      destruct (string_dec tag "gemini") as [-> | Hn];
        [left; reflexivity | right; congruence]. }
    + rewrite (GatewayFacts.generate_text_gemini w gen req tr Hv Hp).
      unfold finish_gemini.
      destruct (axios_post w _ _) as [data|e].
      * destruct (gemini_generatedText data) as [t|e].
        -- destruct (Js.truthy t) eqn:Ht; intros E Hs; injection E as <- _;
             [now elim Hs | split; reflexivity].
        -- destruct e; intros E Hs; injection E as <- _; split; reflexivity.
      * destruct e; intros E Hs; injection E as <- _; split; reflexivity.
    + rewrite (GatewayFacts.generate_text_other w gen req tr Hv Hp).
      unfold finish_generation.
      destruct (gen _ _ _) as [[r|e] tr0].
      * destruct (sr_success r && Js.truthy (sr_text r)) eqn:Ht;
          intros E Hs; injection E as <- _;
          [now elim Hs | split; reflexivity].
      * destruct e; intros E Hs; injection E as <- _; split; reflexivity.
  - unfold generate_text.
    rewrite (GatewayFacts.passes_validation_false_guard req Hv).
    intros E Hs; injection E as <- _; split; reflexivity.
Qed.

(** generate-text answers, with one of its three statuses. *)
Lemma generate_text_answers (w : World) gen (req : TextGenerationRequest) tr :
  exists resp tr',
    generate_text w gen req tr = (Ret resp, tr')
    /\ (status resp = 200%Z /\ success (body resp) = true
        \/ status resp = 400%Z \/ status resp = 500%Z).
Proof.
  destruct (passes_validation req) eqn:Hv.
  - assert (provider req = Some "gemini" \/ provider req <> Some "gemini")
      as [Hp | Hp].
    { destruct (provider req) as [tag|]; [| right; discriminate].
      destruct (string_dec tag "gemini") as [-> | Hn];
        [left; reflexivity | right; congruence]. }
    + rewrite (GatewayFacts.generate_text_gemini w gen req tr Hv Hp).
      unfold finish_gemini.
      destruct (axios_post w _ _) as [data|e].
      * destruct (gemini_generatedText data) as [t|e].
        -- destruct (Js.truthy t); eexists; eexists; (split; [reflexivity |]);
             simpl; auto.
        -- destruct e; eexists; eexists; (split; [reflexivity |]); simpl; auto.
      * destruct e; eexists; eexists; (split; [reflexivity |]); simpl; auto.
    + rewrite (GatewayFacts.generate_text_other w gen req tr Hv Hp).
      unfold finish_generation.
      destruct (gen _ _ _) as [[r|e] tr0].
      * destruct (sr_success r && Js.truthy (sr_text r));
          eexists; eexists; (split; [reflexivity |]); simpl; auto.
      * destruct e; eexists; eexists; (split; [reflexivity |]); simpl; auto.
  - unfold generate_text.
    rewrite (GatewayFacts.passes_validation_false_guard req Hv).
    eexists; eexists; (split; [reflexivity |]); simpl; auto.
Qed.

Lemma generateText_body_valid
      (level apiToken : string) (provider model customPrompt : option string) :
  passes_validation
    (generateText_body level apiToken provider model customPrompt) = true
  <-> level <> EmptyString /\ apiToken <> EmptyString.
Proof.
  unfold passes_validation, generateText_body. cbn [Routes.level Routes.apiToken
    Routes.provider Routes.model].
  rewrite !truthy_or_else, !andb_true_r, andb_true_iff.
  now rewrite !truthy_some.
Qed.

(** translate-word answers, with status 200 or 400. *)
Lemma translate_word_answers gen (req : TranslateWordRequest) tr :
  exists resp tr',
    translate_word gen req tr = (Ret resp, tr')
    /\ (status resp = 200%Z \/ status resp = 400%Z).
Proof.
  unfold translate_word.
  destruct (negb (Js.truthy (word req)) || negb (Js.truthy (targetLanguage req))
            || negb (Js.truthy (languageCode req)));
    [eexists; eexists; split; [reflexivity | right; reflexivity] |].
  destruct (negb (Js.truthy (aiToken req)) || negb (Js.truthy (tw_provider req)));
    [eexists; eexists; split; [reflexivity | left; reflexivity] |].
  unfold aiService_generateText. unfold_monad.
  destruct (gen _ _ _) as [[r|e] tr'].
  - destruct (sr_success r && Js.truthy (sr_text r));
      eexists; eexists; split; [reflexivity | left; reflexivity
                               | reflexivity | left; reflexivity].
  - eexists; eexists; split; [reflexivity | left; reflexivity].
Qed.

Lemma settle_200 {B : Type} (resp : HttpResponse B) :
  status resp = 200%Z -> settle resp = Resolved (body resp).
Proof. unfold settle. now intros ->. Qed.

Lemma settle_400 {B : Type} (resp : HttpResponse B) :
  status resp = 400%Z ->
  settle resp = Rejected (ResponseError 400 (body resp)).
Proof. unfold settle. now intros ->. Qed.

Lemma settle_500 {B : Type} (resp : HttpResponse B) :
  status resp = 500%Z ->
  settle resp = Rejected (ResponseError 500 (body resp)).
Proof. unfold settle. now intros ->. Qed.

Lemma or_else_truthy (v : option string) (d : string) :
  Js.truthy v = true -> Some (Js.or_else v d) = v.
Proof. now destruct v as [[|c s]|]. Qed.

Lemma or_else_nonempty (v : option string) (d : string) :
  d <> EmptyString -> Js.or_else v d <> EmptyString.
Proof. destruct v as [[|c s]|]; simpl; congruence. Qed.

(** A token of one no-break space (U+00A0) is blank: nothing is sent. *)
Example token_of_no_break_space_is_blank
        (p : TokenModal.Provider) (m : option string)
        (answer : TextGenerationRequest -> Settled AIResponse) :
  TokenModal.handleSubmit
    {| TokenModal.tokenInput := Js.bytes [194; 160];
       TokenModal.selectedProvider := p;
       TokenModal.selectedModel := m |}
    answer
  = [TokenModal.PreventDefault].
Proof. reflexivity. Qed.

(** A translation of one ideographic space (U+3000) is blank: the AI
    suggestion is saved instead. *)
Example translation_of_ideographic_space_is_blank :
  WordModal.handleSubmit "casa" (Js.bytes [227; 128; 128]) "house" false
  = [ WordModal.PreventDefault; WordModal.SetIsSubmitting true;
      WordModal.OnSave "casa" "house"; WordModal.SetIsSubmitting false ].
Proof. reflexivity. Qed.

End FrontendFacts.

Module FrontendExtras.
Import Routes Spec Summary Samples More Client Wiring.


(** X19.  The client's default model is an OpenAI model whatever the
    provider is: a call for 'gemini' without a model makes the backend post
    to the Gemini endpoint of the model 'gpt-3.5-turbo'. *)
Theorem client_default_model_reaches_gemini
        (w : World) (level apiToken : string)
        (model customPrompt : option string) (tr : list Event) :
  level <> EmptyString ->
  apiToken <> EmptyString ->
  Js.truthy model = false ->
  snd (app_generate_text
         w (generateText_body level apiToken (Some "gemini") model customPrompt) tr)
  = (tr ++ [ EvAxiosPost
               ("https://generativelanguage.googleapis.com/v1/models/gpt-3.5-turbo:generateContent?key="
                  ++ apiToken)
               {| contents :=
                    [ {| parts :=
                           Some [ {| part_text :=
                                       Some (buildPrompt level customPrompt) |} ] |} ] |} ])%list.
Proof.
  intros Hl Ha Hm. unfold app_generate_text.
  rewrite (GatewayFacts.generate_text_gemini
             w _ (generateText_body level apiToken (Some "gemini") model customPrompt) tr).
  - rewrite GatewayFacts.snd_finish_gemini.
    unfold gemini_url, gemini_body, generateText_body. cbn [Routes.level
      Routes.apiToken Routes.model Routes.customPrompt Js.value].
    now destruct model as [[|c s]|].
  - apply FrontendFacts.generateText_body_valid. now split.
  - reflexivity.
Qed.

Lemma client_default_model_reaches_gemini_witness :
  snd (app_generate_text
         happy_world
         (generateText_body "Advanced" "sk-x" (Some "gemini") None None) [])
  = ([] ++ [ EvAxiosPost
               ("https://generativelanguage.googleapis.com/v1/models/gpt-3.5-turbo:generateContent?key="
                  ++ "sk-x")
               {| contents :=
                    [ {| parts :=
                           Some [ {| part_text :=
                                       Some (buildPrompt "Advanced" None) |} ] |} ] |} ])%list.
Proof.
  apply (client_default_model_reaches_gemini
           happy_world "Advanced" "sk-x" None None []).
  - discriminate.
  - discriminate.
  - reflexivity.
Defined.

(** X20.  [handleSubmit] of AITokenModal.  With a token that is blank after
    trimming nothing happens beyond [preventDefault].  Otherwise the
    trimmed token, the provider and the model are saved before the test
    call is made and stay saved whatever its outcome; the application is
    marked AI-ready and the modal closed only when the call resolves with
    success=true; in every other case a non-empty error is shown instead;
    and the submitting flag is reset at the end. *)
Theorem token_modal_submit
        (st : TokenModal.State)
        (answer : TextGenerationRequest -> Settled AIResponse) :
  let token := Js.trim (TokenModal.tokenInput st) in
  let effects := TokenModal.handleSubmit st answer in
  (token = EmptyString -> effects = [ TokenModal.PreventDefault ])
  /\ (token <> EmptyString ->
      exists outcome,
        effects
        = ([ TokenModal.PreventDefault;
             TokenModal.SetIsSubmitting true;
             TokenModal.SetErrorState None;
             TokenModal.Dispatch (TokenModal.setAiToken token);
             TokenModal.Dispatch (TokenModal.setAiProvider (TokenModal.selectedProvider st));
             TokenModal.Dispatch (TokenModal.setAiModel (TokenModal.selectedModel st));
             TokenModal.GenerateText (TokenModal.greeting_request st) ]
             ++ outcome ++ [ TokenModal.SetIsSubmitting false ])%list
        /\ ((exists data,
                answer (TokenModal.greeting_request st) = Resolved data
                /\ success data = true) ->
            outcome = [ TokenModal.Dispatch (TokenModal.setAiReady true);
                        TokenModal.Dispatch (TokenModal.setError None);
                        TokenModal.OnClose ])
        /\ (~ (exists data,
                  answer (TokenModal.greeting_request st) = Resolved data
                  /\ success data = true) ->
            exists msg,
              outcome = [ TokenModal.SetErrorState (Some msg) ]
              /\ msg <> EmptyString)).
Proof.
  intros token effects. subst effects. unfold TokenModal.handleSubmit.
  fold token. split.
  - now intros ->.
  - intros Hne. destruct token as [|a t] eqn:Et; [congruence |].
    eexists. split; [reflexivity |]. split.
    + intros [data [-> Hs]]. now rewrite Hs.
    + intros Hno.
      destruct (answer (TokenModal.greeting_request st)) as [data | [status data | |]].
      * destruct (success data) eqn:Hs.
        -- exfalso. apply Hno. now exists data.
        -- eexists. split; [reflexivity |].
           apply FrontendFacts.or_else_nonempty. discriminate.
      * eexists. split; [reflexivity |].
        apply FrontendFacts.or_else_nonempty. discriminate.
      * eexists. split; [reflexivity | discriminate].
      * eexists. split; [reflexivity | discriminate].
Qed.

(** X21.  AITokenModal wired to the backend.  For a token that is not
    blank, the test request always passes the validation of generate-text.
    When the backend answers 200 the application is marked AI-ready, the
    modal closes and no error is shown; when it answers 400 or 500, axios
    rejects, and the error shown is the error string of the backend's
    envelope, word for word; the application is not marked ready and the
    modal stays open. *)
Theorem token_modal_shows_backend_error (w : World) (st : TokenModal.State) :
  Js.trim (TokenModal.tokenInput st) <> EmptyString ->
  passes_validation (TokenModal.greeting_request st) = true
  /\ exists resp,
      fst (app_generate_text w (TokenModal.greeting_request st) []) = Ret resp
      /\ let effects := TokenModal.handleSubmit st (backend_generate_text w) in
         (status resp = 200%Z ->
          In (TokenModal.Dispatch (TokenModal.setAiReady true)) effects
          /\ In TokenModal.OnClose effects
          /\ forall e, ~ In (TokenModal.SetErrorState (Some e)) effects)
         /\ (status resp <> 200%Z ->
             In (TokenModal.SetErrorState (error (body resp))) effects
             /\ Js.truthy (error (body resp)) = true
             /\ ~ In (TokenModal.Dispatch (TokenModal.setAiReady true)) effects
             /\ ~ In TokenModal.OnClose effects).
Proof.
  intros Hne.
  assert (passes_validation (TokenModal.greeting_request st) = true) as Hv.
  { apply FrontendFacts.generateText_body_valid. split; [discriminate | exact Hne]. }
  split; [exact Hv |].
  unfold app_generate_text, backend_generate_text, app_generate_text.
  destruct (FrontendFacts.generate_text_answers
              w (AIService.generateText w) (TokenModal.greeting_request st) [])
    as [resp [tr' [E Hst]]].
  exists resp. rewrite E. split; [reflexivity |].
  unfold TokenModal.handleSubmit.
  destruct (Js.trim (TokenModal.tokenInput st)) as [|a t]; [congruence |].
  rewrite E. cbn [fst].
  destruct Hst as [[H200 Hs] | Hfail].
  - rewrite (FrontendFacts.settle_200 resp H200), Hs. split.
    + intros _. simpl. split; [tauto | split; [tauto |]].
      intros e H. repeat (destruct H as [H | H]; [discriminate H |]). exact H.
    + intros Hn. now elim Hn.
  - assert (status resp <> 200%Z) as Hn by (destruct Hfail as [-> | ->]; discriminate).
    destruct (FrontendFacts.generate_text_error_nonempty
                w (AIService.generateText w) (TokenModal.greeting_request st)
                [] resp tr' E Hn) as [_ Herr].
    split; [intros H200; now elim Hn |]. intros _.
    assert (settle resp = Rejected (ResponseError (status resp) (body resp))) as ->.
    { destruct Hfail as [H | H]; rewrite H;
        [now apply FrontendFacts.settle_400 | now apply FrontendFacts.settle_500]. }
    rewrite (FrontendFacts.or_else_truthy (error (body resp)) _ Herr).
    split; [simpl; tauto |]. split; [exact Herr |].
    split; intros H; simpl in H;
      repeat (destruct H as [H | H]; [discriminate H |]); exact H.
Qed.

Lemma token_modal_shows_backend_error_witness :
  let st :=
    {| TokenModal.tokenInput := " sk-x ";
       TokenModal.selectedProvider := TokenModal.claude;
       TokenModal.selectedModel := Some "claude-3-haiku-20240307" |} in
  In (TokenModal.SetErrorState
        (Some "AI text generation failed: No text generated from Claude."))
     (TokenModal.handleSubmit st (backend_generate_text textless_world)).
Proof.
  intros st.
  destruct (token_modal_shows_backend_error textless_world st ltac:(discriminate))
    as [_ [resp [E [_ Hfail]]]].
  assert (resp = {| status := 400;
                    body := ai_error "AI text generation failed: No text generated from Claude." |})
    as -> by (injection E as <-; reflexivity).
  destruct (Hfail ltac:(discriminate)) as [Hin _].
  exact Hin.
Defined.

(** X22.  [handleProviderChange] keeps provider and model consistent: after
    it, the selected model is the first model that [AIProviders] lists for
    the selected provider, and a submit with a non-blank token then sends
    that provider's tag and that model in a request the backend's
    validation accepts. *)
Theorem provider_change_selects_listed_model
        (st : TokenModal.State) (p : TokenModal.Provider) :
  let st' := TokenModal.apply_effects st (TokenModal.handleProviderChange p) in
  TokenModal.tokenInput st' = TokenModal.tokenInput st
  /\ TokenModal.selectedProvider st' = p
  /\ exists m others,
      TokenModal.models (TokenModal.AIProviders p) = m :: others
      /\ TokenModal.selectedModel st' = Some m
      /\ provider (TokenModal.greeting_request st') = Some (TokenModal.tag p)
      /\ model (TokenModal.greeting_request st') = Some m
      /\ (passes_validation (TokenModal.greeting_request st') = true
          <-> Js.trim (TokenModal.tokenInput st) <> EmptyString).
Proof.
  intros st'. split; [reflexivity | split; [reflexivity |]].
  assert (forall m,
             TokenModal.selectedModel st' = Some m ->
             m <> EmptyString ->
             provider (TokenModal.greeting_request st') = Some (TokenModal.tag p)
             /\ model (TokenModal.greeting_request st') = Some m
             /\ (passes_validation (TokenModal.greeting_request st') = true
                 <-> Js.trim (TokenModal.tokenInput st) <> EmptyString)) as H.
  { intros m Hm Hne. unfold TokenModal.greeting_request. rewrite Hm.
    split; [now destruct p |]. split; [now destruct m |].
    rewrite FrontendFacts.generateText_body_valid.
    change (TokenModal.tokenInput st') with (TokenModal.tokenInput st).
    split; [tauto | split; [discriminate | assumption]]. }
  destruct p; eexists; eexists; (split; [reflexivity |]);
    (split; [reflexivity |]); apply H; [reflexivity | discriminate
                                       | reflexivity | discriminate
                                       | reflexivity | discriminate
                                       | reflexivity | discriminate].
Qed.

(** X23.  [handleSubmit] of WordDefinitionModal never saves an empty
    translation: [onSave] is called at most with the word of the modal and
    a non-empty translation, which is the user's own input, trimmed, when
    that is not blank, and the AI's suggestion otherwise; when both are
    empty the user is alerted and nothing is saved. *)
Theorem word_modal_never_saves_empty
        (word translation aiTranslation : string) (saved : bool) :
  let effects := WordModal.handleSubmit word translation aiTranslation saved in
  (forall english t,
      In (WordModal.OnSave english t) effects ->
      english = word /\ t <> EmptyString
      /\ t = match Js.trim translation with
             | EmptyString => aiTranslation
             | own => own
             end)
  /\ (Js.trim translation = EmptyString -> aiTranslation = EmptyString ->
      effects
      = [ WordModal.PreventDefault;
          WordModal.Alert "Please wait for AI translation or enter your own translation" ])
  /\ (Js.trim translation <> EmptyString ->
      In (WordModal.OnSave word (Js.trim translation)) effects)
  /\ (Js.trim translation = EmptyString -> aiTranslation <> EmptyString ->
      In (WordModal.OnSave word aiTranslation) effects).
Proof.
  intros effects. subst effects. unfold WordModal.handleSubmit.
  destruct (Js.trim translation) as [|a own]; cbn [Js.or_else].
  - destruct aiTranslation as [|b ai].
    + split; [| split; [reflexivity | split; congruence]].
      intros english t H; simpl in H;
        repeat (destruct H as [H | H]; [discriminate H |]); destruct H.
    + split; [| split; [congruence | split; [congruence | intros _ _; simpl; tauto]]].
      intros english t H. destruct saved; simpl in H;
        repeat (destruct H as [H | H];
                [first [discriminate H | injection H as <- <-; repeat split; discriminate] |]);
        destruct H.
  - split; [| split; [congruence | split; [intros _; simpl; tauto | congruence]]].
    intros english t H. destruct saved; simpl in H;
      repeat (destruct H as [H | H];
              [first [discriminate H | injection H as <- <-; repeat split; discriminate] |]);
      destruct H.
Qed.

(** X24.  [fetchAITranslation] wired to the backend.  Without a word, a
    token or a provider it sends nothing.  Otherwise it sends one request,
    and the suggestion it leaves in the state is never empty: it is the
    backend's translation when the backend answers success with a
    non-empty translation, "Translation not available" when the backend
    answers 200 with a failure or with an empty translation, and
    "Translation error" when the backend answers 400 (the native language
    or its code is empty), which axios turns into a rejection. *)
Theorem fetched_translation_is_never_empty
        (w : World) (word current : string) (state : WordModal.AppState) :
  let effects :=
    WordModal.fetchAITranslation word state (backend_translate_word w) in
  (word = EmptyString \/ Js.truthy (WordModal.aiToken state) = false
   \/ Js.truthy (WordModal.aiProvider state) = false ->
   effects = [])
  /\ (word <> EmptyString ->
      Js.truthy (WordModal.aiToken state) = true ->
      Js.truthy (WordModal.aiProvider state) = true ->
      exists resp,
        fst (app_translate_word w (WordModal.translation_request word state) [])
        = Ret resp
        /\ WordModal.aiTranslation_after current effects
           = (if (status resp =? 400)%Z then "Translation error"
              else if tr_success (body resp) && Js.truthy (translation (body resp))
                   then Js.value (translation (body resp))
                   else "Translation not available")
        /\ WordModal.aiTranslation_after current effects <> EmptyString).
Proof.
  intros effects. subst effects. unfold WordModal.fetchAITranslation. split.
  - intros [-> | [-> | ->]]; simpl; rewrite ?orb_true_r; reflexivity.
  - intros Hw Ht Hp.
    assert (Js.truthy (Some word) = true) as -> by now destruct word.
    rewrite Ht, Hp. simpl negb. simpl orb. cbv iota.
    unfold backend_translate_word, app_translate_word.
    destruct (FrontendFacts.translate_word_answers
                (AIService.generateText w)
                (WordModal.translation_request word state) [])
      as [resp [tr' [E Hst]]].
    exists resp. rewrite E. cbn [fst]. split; [reflexivity |].
    destruct Hst as [H200 | H400].
    + rewrite (FrontendFacts.settle_200 resp H200), H200.
      change (200 =? 400)%Z with false. cbv iota.
      destruct (tr_success (body resp) && Js.truthy (translation (body resp)))
        eqn:Hs; simpl; split; try reflexivity; try discriminate.
      apply andb_true_iff in Hs as [_ Hs].
      destruct (translation (body resp)) as [[|c s]|]; simpl in *;
        try discriminate.
    + rewrite (FrontendFacts.settle_400 resp H400), H400.
      simpl. split; [reflexivity | discriminate].
Qed.

Lemma fetched_translation_is_never_empty_witness :
  WordModal.aiTranslation_after
    EmptyString
    (WordModal.fetchAITranslation
       "hello"
       {| WordModal.isAiReady := true;
          WordModal.aiToken := Some "sk-x";
          WordModal.aiProvider := Some "openai";
          WordModal.aiModel := None;
          WordModal.nativeLanguage := "Spanish";
          WordModal.nativeLanguageCode := "es" |}
       (backend_translate_word blank_world))
  = "Translation not available".
Proof.
  destruct (fetched_translation_is_never_empty
              blank_world "hello" EmptyString
              {| WordModal.isAiReady := true;
                 WordModal.aiToken := Some "sk-x";
                 WordModal.aiProvider := Some "openai";
                 WordModal.aiModel := None;
                 WordModal.nativeLanguage := "Spanish";
                 WordModal.nativeLanguageCode := "es" |})
    as [_ H].
  destruct (H ltac:(discriminate) eq_refl eq_refl) as [resp [E [Hafter _]]].
  rewrite Hafter.
  assert (resp = {| status := 200;
                    body := {| tr_success := true; translation := Some EmptyString;
                               tr_error := None |} |})
    as -> by (injection E as <-; reflexivity).
  reflexivity.
Defined.

End FrontendExtras.
